(** * Notes access facade and session sign-out: a shallow embedding

    Embedded sources:
    - [src/lib/api.ts]: [getAuthenticatedSession], [makeAuthenticatedRequest]
      and the [notesApi] object;
    - [src/contexts/AuthContext.tsx]: [signOut];
    - the SQL migration creating the [notes] table, its row-security
      policies and its [updated_at] trigger.

    The hosted platform is reached through a fixed set of requests, each
    of which answers with a value: the client library reports a failure in
    the [error] field of its answer.  A program of the facade is a tree of
    such requests; a handler gives each request its answer and the next
    state of the world. *)

From Stdlib Require Import String Ascii List ZArith NArith Bool Lia.
From Stdlib Require Import Permutation Sorted.
Import ListNotations.
Local Open Scope string_scope.
Local Open Scope Z_scope.
Local Open Scope list_scope.

(* ------------------------------------------------------------------ *)
(** ** JavaScript strings *)

(** A JavaScript string is a sequence of UTF-16 code units; [length] counts
    code units and [trim] strips ECMAScript white space and line
    terminators from both ends. *)
Module JsString.

Definition code_unit := N.
Definition t := list code_unit.

Definition length (s : t) : Z := Z.of_nat (List.length s).

Definition isWhiteSpace (c : code_unit) : bool :=
  match c with
  | 9%N | 10%N | 11%N | 12%N | 13%N | 32%N | 160%N | 5760%N
  | 8232%N | 8233%N | 8239%N | 8287%N | 12288%N | 65279%N => true
  | _ => ((8192 <=? c) && (c <=? 8202))%N
  end.

Fixpoint trimStart (s : t) : t :=
  match s with
  | [] => []
  | c :: r => if isWhiteSpace c then trimStart r else s
  end.

Definition trimEnd (s : t) : t := rev (trimStart (rev s)).

Definition trim (s : t) : t := trimEnd (trimStart s).

(** [!s]: the empty string is the only falsy string. *)
Definition falsy (s : t) : bool :=
  match s with [] => true | _ :: _ => false end.

(** Text written in the ASCII range, one code unit per character. *)
Definition of_string (s : string) : t :=
  map N_of_ascii (list_ascii_of_string s).

Definition replicate (n : N) (c : string) : t :=
  concat (repeat (of_string c) (N.to_nat n)).

End JsString.

(** Identifiers, tokens and messages are kept as plain strings; the code
    only compares them, tests them for emptiness and searches them. *)
Definition str_falsy (s : string) : bool :=
  match s with EmptyString => true | String _ _ => false end.

(** [s.includes(needle)] *)
Fixpoint includes (s needle : string) : bool :=
  if prefix needle s then true
  else match s with
       | EmptyString => false
       | String _ r => includes r needle
       end.

(** [a || b] on strings *)
Definition str_or (a b : string) : string :=
  if str_falsy a then b else a.

(* ------------------------------------------------------------------ *)
(** ** Data *)

Module User.
Record t := mk { id : string; email : string }.
End User.

(** The error object of the auth client: only [message] is read. *)
Module AuthError.
Record t := mk { message : string }.
End AuthError.

Module Session.
Record t := mk {
  access_token : string;
  user : option User.t;
  expires_at : option Z            (* epoch seconds, optional *)
}.
End Session.

(** [{ data: { session }, error }] of [supabase.auth.getSession()] *)
Module SessionResponse.
Record t := mk {
  session : option Session.t;
  error : option AuthError.t
}.
End SessionResponse.

(** [error: any] of a data request: the code reads [code] and [message],
    either of which may be missing. *)
Module PgError.
Record t := mk { code : option string; message : option string }.
End PgError.

Module Response.
Record t (A : Type) := mk { data : option A; error : option PgError.t }.
Arguments mk {A} _ _.
Arguments data {A} _.
Arguments error {A} _.
End Response.

(** [interface Note]; the two timestamps are kept as instants (epoch
    milliseconds) rather than as their ISO renderings. *)
Module Note.
Record t := mk {
  id : string;
  title : JsString.t;
  content : JsString.t;
  created_at : Z;
  updated_at : Z;
  user_id : string
}.
End Note.

(** The object literal passed to [insert]. *)
Module NewNote.
Record t := mk {
  title : JsString.t;
  content : JsString.t;
  user_id : string
}.
End NewNote.

(** The object literal passed to [update]. *)
Module NotePatch.
Record t := mk {
  title : JsString.t;
  content : JsString.t;
  updated_at : Z
}.
End NotePatch.

Inductive Column := ColId | ColUserId.

(** [.eq(column, value)] *)
Inductive Filter := Eq (c : Column) (v : string).

(* ------------------------------------------------------------------ *)
(** ** Thrown values *)

(** One constructor per [throw] statement of the embedded sources, each
    throwing [new Error(message)]; the last two are the rethrown error
    object of the auth client and the engine's own [TypeError]. *)
Inductive Thrown :=
| AuthenticationError (m : string)   (* api.ts, getAuthenticatedSession *)
| NoValidSession
| UserNotAuthenticated
| SessionExpired
| AuthenticationFailed               (* api.ts, makeAuthenticatedRequest *)
| AccessDenied
| RemoteFailure (m : string)
| NoDataReturned
| TitleRequired                      (* api.ts, notesApi *)
| TitleTooLong
| ContentTooLong
| NoteIdRequired
| ThrownAuthError (e : AuthError.t)  (* AuthContext.tsx, [throw error] *)
| JsTypeError.                       (* a property read on [null] *)

Definition message (e : Thrown) : string :=
  match e with
  | AuthenticationError m => String.append "Authentication error: " m
  | NoValidSession => "No valid session found. Please log in again."
  | UserNotAuthenticated => "User not authenticated. Please log in again."
  | SessionExpired => "Session expired. Please log in again."
  | AuthenticationFailed => "Authentication failed. Please log in again."
  | AccessDenied => "Access denied. You can only access your own notes."
  | RemoteFailure m => m
  | NoDataReturned => "No data returned from the server."
  | TitleRequired => "Note title is required."
  | TitleTooLong => "Note title must be less than 100 characters."
  | ContentTooLong => "Note content must be less than 10,000 characters."
  | NoteIdRequired => "Note ID is required."
  | ThrownAuthError e => AuthError.message e
  | JsTypeError => "Cannot read properties of null"
  end.

(** The error taxonomy of the design document, read off the throw sites.
    The code has a single denial message, so the document's
    [AccessDeniedError] and [NotFoundError] are one kind here.  The
    missing-data error of [makeAuthenticatedRequest] and a property read
    on [null] have no name in the taxonomy. *)
Inductive ErrorKind :=
| ValidationError
| SessionError
| AuthError
| AccessDeniedError
| RemoteError
| UnclassifiedError.

Definition NotFoundError : ErrorKind := AccessDeniedError.

Definition kind (e : Thrown) : ErrorKind :=
  match e with
  | AuthenticationError _ | NoValidSession
  | UserNotAuthenticated | SessionExpired => SessionError
  | AuthenticationFailed => AuthError
  | AccessDenied => AccessDeniedError
  | RemoteFailure _ => RemoteError
  | NoDataReturned | JsTypeError => UnclassifiedError
  | TitleRequired | TitleTooLong | ContentTooLong | NoteIdRequired =>
      ValidationError
  | ThrownAuthError _ => RemoteError
  end.

(* ------------------------------------------------------------------ *)
(** ** Requests and programs *)

(** The calls the embedded code makes on its environment: the auth client,
    the clock, the query builder on table [notes], the React state setters
    of [AuthProvider] and the toast. *)
Inductive action :=
| AuthGetSession
| AuthSignOut
| DateNow
| NotesSelectAllOrderByUpdatedAt (ascending : bool)
| NotesInsertSelectSingle (row : NewNote.t)
| NotesUpdateSelectSingle (patch : NotePatch.t) (filters : list Filter)
| NotesDelete (filters : list Filter)
| NotesSelectUserIdSingle (filters : list Filter)
| SetUser (u : option User.t)
| SetIsAuthenticated (b : bool)
| SetLoading (b : bool)
| ToastError (m : string).

Definition result (a : action) : Type :=
  match a with
  | AuthGetSession => SessionResponse.t
  | AuthSignOut => option AuthError.t
  | DateNow => Z
  | NotesSelectAllOrderByUpdatedAt _ => Response.t (list Note.t)
  | NotesInsertSelectSingle _ => Response.t Note.t
  | NotesUpdateSelectSingle _ _ => Response.t Note.t
  | NotesDelete _ => Response.t unit
  | NotesSelectUserIdSingle _ => Response.t string
  | SetUser _ | SetIsAuthenticated _ | SetLoading _ | ToastError _ => unit
  end.

(** Requests against the Notes collection. *)
Definition is_notes_call (a : action) : bool :=
  match a with
  | NotesSelectAllOrderByUpdatedAt _ | NotesInsertSelectSingle _
  | NotesUpdateSelectSingle _ _ | NotesDelete _
  | NotesSelectUserIdSingle _ => true
  | _ => false
  end.

Inductive Prog (T : Type) : Type :=
| Ret (x : T)
| Throw (e : Thrown)
| Act (a : action) (k : result a -> Prog T).

Arguments Ret {T} _.
Arguments Throw {T} _.
Arguments Act {T} _ _.

Fixpoint bind {A B} (p : Prog A) (f : A -> Prog B) : Prog B :=
  match p with
  | Ret x => f x
  | Throw e => Throw e
  | Act a k => Act a (fun r => bind (k r) f)
  end.

Definition call (a : action) : Prog (result a) := Act a Ret.

(** [try { p } catch (e) { h e }] *)
Fixpoint try_catch {A} (p : Prog A) (h : Thrown -> Prog A) : Prog A :=
  match p with
  | Ret x => Ret x
  | Throw e => h e
  | Act a k => Act a (fun r => try_catch (k r) h)
  end.

(** [try { p } finally { f }] *)
Fixpoint try_finally {A} (p : Prog A) (f : Prog unit) : Prog A :=
  match p with
  | Ret x => bind f (fun _ => Ret x)
  | Throw e => bind f (fun _ => Throw e)
  | Act a k => Act a (fun r => try_finally (k r) f)
  end.

Declare Scope prog_scope.
Delimit Scope prog_scope with prog.
Notation "x <- p ;; q" := (bind p (fun x => q))
  (at level 61, p at next level, right associativity) : prog_scope.
Notation "p ;;; q" := (bind p (fun _ => q))
  (at level 61, right associativity) : prog_scope.
Local Open Scope prog_scope.

(** Running a program against a handler.  The run records every request
    with its answer. *)
Definition Handler (World : Type) := World -> forall a : action, result a * World.

Definition Event := { a : action & result a }.

Module Run.
Record t (World T : Type) := mk {
  outcome : Thrown + T;
  final : World;
  trace : list Event
}.
Arguments mk {World T} _ _ _.
Arguments outcome {World T} _.
Arguments final {World T} _.
Arguments trace {World T} _.
End Run.

Fixpoint run {World T} (h : Handler World) (p : Prog T) (w : World)
    : Run.t World T :=
  match p with
  | Ret x => Run.mk (inr x) w []
  | Throw e => Run.mk (inl e) w []
  | Act a k =>
      let '(r, w') := h w a in
      let R := run h (k r) w' in
      Run.mk (Run.outcome R) (Run.final R) (existT result a r :: Run.trace R)
  end.

Definition actions (tr : list Event) : list action := map (@projT1 _ _) tr.

Definition no_notes_call (tr : list Event) : bool :=
  forallb (fun a => negb (is_notes_call a)) (actions tr).

(* ------------------------------------------------------------------ *)
(** ** [src/lib/api.ts] *)

(** [session.expires_at && session.expires_at < now]: a missing expiry and
    the number [0] are both falsy. *)
Definition expired (expires_at : option Z) (now : Z) : bool :=
  match expires_at with
  | None => false
  | Some e => negb (e =? 0) && (e <? now)
  end.

Definition getAuthenticatedSession : Prog Session.t :=
  resp <- call AuthGetSession ;;
  match SessionResponse.error resp with
  | Some error => Throw (AuthenticationError (AuthError.message error))
  | None =>
      match SessionResponse.session resp with
      | None => Throw NoValidSession
      | Some session =>
          if str_falsy (Session.access_token session) then Throw NoValidSession
          else
            match Session.user session with
            | None => Throw UserNotAuthenticated
            | Some _ =>
                ms <- call DateNow ;;
                let now := ms / 1000 in
                if expired (Session.expires_at session) now
                then Throw SessionExpired
                else Ret session
            end
      end
  end.

(** [session.user.id] *)
Definition session_user_id (session : Session.t) : Prog string :=
  match Session.user session with
  | Some u => Ret (User.id u)
  | None => Throw JsTypeError
  end.

Definition code_is (error : PgError.t) (c : string) : bool :=
  match PgError.code error with
  | Some c' => String.eqb c' c
  | None => false
  end.

(** [error.message?.includes(needle)] *)
Definition message_includes (error : PgError.t) (needle : string) : bool :=
  match PgError.message error with
  | Some m => includes m needle
  | None => false
  end.

Definition default_message : string :=
  "An error occurred while processing your request.".

Definition makeAuthenticatedRequest {T} (operation : Prog (Response.t T))
    : Prog T :=
  session <- getAuthenticatedSession ;;
  resp <- operation ;;
  match Response.error resp with
  | Some error =>
      if code_is error "PGRST301" || message_includes error "JWT"
      then Throw AuthenticationFailed
      else if code_is error "PGRST116" || message_includes error "RLS"
      then Throw AccessDenied
      else Throw (RemoteFailure
                    (match PgError.message error with
                     | Some m => str_or m default_message
                     | None => default_message
                     end))
  | None =>
      match Response.data resp with
      | None => Throw NoDataReturned
      | Some data => Ret data
      end
  end.

Module notesApi.

Definition getNotes_operation : Prog (Response.t (list Note.t)) :=
  session <- getAuthenticatedSession ;;
  call (NotesSelectAllOrderByUpdatedAt false).

Definition getNotes : Prog (list Note.t) :=
  makeAuthenticatedRequest getNotes_operation.

Definition createNote_operation (title content : JsString.t)
    : Prog (Response.t Note.t) :=
  session <- getAuthenticatedSession ;;
  uid <- session_user_id session ;;
  call (NotesInsertSelectSingle
          (NewNote.mk (JsString.trim title) (JsString.trim content) uid)).

Definition createNote (title content : JsString.t) : Prog Note.t :=
  if JsString.falsy (JsString.trim title) then Throw TitleRequired
  else if JsString.length title >? 100 then Throw TitleTooLong
  else if JsString.length content >? 10000 then Throw ContentTooLong
  else makeAuthenticatedRequest (createNote_operation title content).

Definition updateNote_operation (id : string) (title content : JsString.t)
    : Prog (Response.t Note.t) :=
  session <- getAuthenticatedSession ;;
  ms <- call DateNow ;;
  uid <- session_user_id session ;;
  call (NotesUpdateSelectSingle
          (NotePatch.mk (JsString.trim title) (JsString.trim content) ms)
          [Eq ColId id; Eq ColUserId uid]).

Definition updateNote (id : string) (title content : JsString.t)
    : Prog Note.t :=
  if str_falsy id then Throw NoteIdRequired
  else if JsString.falsy (JsString.trim title) then Throw TitleRequired
  else if JsString.length title >? 100 then Throw TitleTooLong
  else if JsString.length content >? 10000 then Throw ContentTooLong
  else makeAuthenticatedRequest (updateNote_operation id title content).

Definition deleteNote_operation (id : string) : Prog (Response.t unit) :=
  session <- getAuthenticatedSession ;;
  uid <- session_user_id session ;;
  result <- call (NotesDelete [Eq ColId id; Eq ColUserId uid]) ;;
  Ret (Response.mk None (Response.error result)).

Definition deleteNote (id : string) : Prog unit :=
  if str_falsy id then Throw NoteIdRequired
  else
    _ <- makeAuthenticatedRequest (deleteNote_operation id) ;;
    Ret tt.

Definition is_some {A} (o : option A) : bool :=
  match o with Some _ => true | None => false end.

Definition verifyNoteOwnership (noteId : string) : Prog bool :=
  try_catch
    (session <- getAuthenticatedSession ;;
     uid <- session_user_id session ;;
     resp <- call (NotesSelectUserIdSingle
                     [Eq ColId noteId; Eq ColUserId uid]) ;;
     Ret (negb (is_some (Response.error resp))
          && is_some (Response.data resp)))
    (fun _ => Ret false).

End notesApi.

(* ------------------------------------------------------------------ *)
(** ** [src/contexts/AuthContext.tsx] *)

Definition signOut : Prog unit :=
  call (SetLoading true) ;;;
  try_finally
    (try_catch
       (error <- call AuthSignOut ;;
        match error with
        | Some e => Throw (ThrownAuthError e)
        | None =>
            call (SetUser None) ;;;
            call (SetIsAuthenticated false)
        end)
       (fun error =>
          call (ToastError (str_or (message error) "Failed to sign out")) ;;;
          Throw error))
    (call (SetLoading false)).

(* ------------------------------------------------------------------ *)
(** ** The hosted platform *)

(** Modelled from the spec: the hosted platform (auth service and
    row-secured [notes] collection), which the repository only calls.
    Table [notes], its primary key, its four row-security policies and
    its [updated_at] trigger follow the SQL migration.  [.single()] answers with error code [PGRST116] unless
    exactly one row comes back, which is the code [makeAuthenticatedRequest]
    looks for.  [gen_random_uuid()] is taken to return an identifier not
    yet in the table.  Client and server read one clock.  A world may carry
    a [fault]: every data request is then answered by that error and
    leaves the table alone. *)
Module Db.

Record World := mk {
  auth : SessionResponse.t;          (* the answer of [getSession] *)
  signout_error : option AuthError.t;
  clock : Z;                         (* epoch milliseconds *)
  fault : option PgError.t;
  rows : list Note.t;
  ui_user : option User.t;           (* [useState] slots of AuthProvider *)
  ui_isAuthenticated : bool;
  ui_loading : bool;
  toasts : list string
}.

Definition set_rows (w : World) (l : list Note.t) : World :=
  mk (auth w) (signout_error w) (clock w) (fault w) l
     (ui_user w) (ui_isAuthenticated w) (ui_loading w) (toasts w).

Definition set_auth (w : World) (a : SessionResponse.t) : World :=
  mk a (signout_error w) (clock w) (fault w) (rows w)
     (ui_user w) (ui_isAuthenticated w) (ui_loading w) (toasts w).

Definition set_ui_user (w : World) (u : option User.t) : World :=
  mk (auth w) (signout_error w) (clock w) (fault w) (rows w)
     u (ui_isAuthenticated w) (ui_loading w) (toasts w).

Definition set_ui_isAuthenticated (w : World) (b : bool) : World :=
  mk (auth w) (signout_error w) (clock w) (fault w) (rows w)
     (ui_user w) b (ui_loading w) (toasts w).

Definition set_ui_loading (w : World) (b : bool) : World :=
  mk (auth w) (signout_error w) (clock w) (fault w) (rows w)
     (ui_user w) (ui_isAuthenticated w) b (toasts w).

Definition add_toast (w : World) (m : string) : World :=
  mk (auth w) (signout_error w) (clock w) (fault w) (rows w)
     (ui_user w) (ui_isAuthenticated w) (ui_loading w) (toasts w ++ [m]).

(** [auth.uid()]: the identity behind the bearer token. *)
Definition auth_uid (w : World) : option string :=
  match SessionResponse.session (auth w) with
  | Some s => option_map User.id (Session.user s)
  | None => None
  end.

(** [USING (auth.uid() = user_id)] *)
Definition policy (w : World) (n : Note.t) : bool :=
  match auth_uid w with
  | Some uid => String.eqb uid (Note.user_id n)
  | None => false
  end.

Definition matches (fs : list Filter) (n : Note.t) : bool :=
  forallb (fun f =>
             match f with
             | Eq ColId v => String.eqb (Note.id n) v
             | Eq ColUserId v => String.eqb (Note.user_id n) v
             end) fs.

Definition targeted (w : World) (fs : list Filter) (n : Note.t) : bool :=
  policy w n && matches fs n.

(** [ORDER BY updated_at] *)
Definition goes_first (ascending : bool) (a b : Note.t) : bool :=
  if ascending then Note.updated_at a <=? Note.updated_at b
  else Note.updated_at b <=? Note.updated_at a.

Fixpoint insert_sorted (ascending : bool) (x : Note.t) (l : list Note.t)
    : list Note.t :=
  match l with
  | [] => [x]
  | y :: r =>
      if goes_first ascending x y then x :: l
      else y :: insert_sorted ascending x r
  end.

Definition order_by_updated_at (ascending : bool) (l : list Note.t)
    : list Note.t :=
  fold_right (insert_sorted ascending) [] l.

Definition no_rows_error : PgError.t :=
  PgError.mk (Some "PGRST116")
             (Some "JSON object requested, multiple (or no) rows returned").

Definition single {A} (l : list A) : Response.t A :=
  match l with
  | [x] => Response.mk (Some x) None
  | _ => Response.mk None (Some no_rows_error)
  end.

Definition policy_error : PgError.t :=
  PgError.mk (Some "42501")
             (Some "new row violates row-level security policy").

(** An identifier longer than every identifier of the table. *)
Definition fresh_id (l : list Note.t) : string :=
  string_of_list_ascii
    (repeat "0"%char
       (S (fold_right Nat.max 0%nat
             (map (fun n => String.length (Note.id n)) l)))).

(** [BEFORE UPDATE ... NEW.updated_at = now()] *)
Definition update_updated_at_column (now : Z) (n : Note.t) : Note.t :=
  Note.mk (Note.id n) (Note.title n) (Note.content n)
          (Note.created_at n) now (Note.user_id n).

Definition apply_patch (p : NotePatch.t) (n : Note.t) : Note.t :=
  Note.mk (Note.id n) (NotePatch.title p) (NotePatch.content p)
          (Note.created_at n) (NotePatch.updated_at p) (Note.user_id n).

Definition updated (w : World) (p : NotePatch.t) (n : Note.t) : Note.t :=
  update_updated_at_column (clock w) (apply_patch p n).

Definition failed {A} (e : PgError.t) : Response.t A :=
  Response.mk None (Some e).

Definition select_ordered (w : World) (ascending : bool)
    : Response.t (list Note.t) * World :=
  match fault w with
  | Some e => (failed e, w)
  | None =>
      (Response.mk
         (Some (order_by_updated_at ascending (filter (policy w) (rows w))))
         None, w)
  end.

Definition insert_select_single (w : World) (row : NewNote.t)
    : Response.t Note.t * World :=
  match fault w with
  | Some e => (failed e, w)
  | None =>
      let n := Note.mk (fresh_id (rows w)) (NewNote.title row)
                       (NewNote.content row) (clock w) (clock w)
                       (NewNote.user_id row) in
      if policy w n
      then (single [n], set_rows w (rows w ++ [n]))
      else (failed policy_error, w)
  end.

Definition update_select_single (w : World) (p : NotePatch.t)
    (fs : list Filter) : Response.t Note.t * World :=
  match fault w with
  | Some e => (failed e, w)
  | None =>
      (single (map (updated w p) (filter (targeted w fs) (rows w))),
       set_rows w
         (map (fun n => if targeted w fs n then updated w p n else n)
              (rows w)))
  end.

Definition delete (w : World) (fs : list Filter)
    : Response.t unit * World :=
  match fault w with
  | Some e => (failed e, w)
  | None =>
      (Response.mk None None,
       set_rows w (filter (fun n => negb (targeted w fs n)) (rows w)))
  end.

Definition select_user_id_single (w : World) (fs : list Filter)
    : Response.t string * World :=
  match fault w with
  | Some e => (failed e, w)
  | None =>
      (single (map Note.user_id (filter (targeted w fs) (rows w))), w)
  end.

Definition sign_out (w : World) : option AuthError.t * World :=
  match signout_error w with
  | Some e => (Some e, w)
  | None => (None, set_auth w (SessionResponse.mk None None))
  end.

Definition handler : Handler World :=
  fun w a =>
    match a as a0 return result a0 * World with
    | AuthGetSession => (auth w, w)
    | AuthSignOut => sign_out w
    | DateNow => (clock w, w)
    | NotesSelectAllOrderByUpdatedAt asc => select_ordered w asc
    | NotesInsertSelectSingle row => insert_select_single w row
    | NotesUpdateSelectSingle p fs => update_select_single w p fs
    | NotesDelete fs => delete w fs
    | NotesSelectUserIdSingle fs => select_user_id_single w fs
    | SetUser u => (tt, set_ui_user w u)
    | SetIsAuthenticated b => (tt, set_ui_isAuthenticated w b)
    | SetLoading b => (tt, set_ui_loading w b)
    | ToastError m => (tt, add_toast w m)
    end.

(** A signed-in world: [getSession] answers with a session that the
    facade accepts at the world's clock. *)
Definition signed_in (w : World) (u : User.t) : Prop :=
  exists token exp,
    auth w = SessionResponse.mk
               (Some (Session.mk token (Some u) exp)) None
    /\ token <> ""
    /\ expired exp (clock w / 1000) = false.

End Db.

(** Worlds used by the examples. *)
Module Sample.

Definition alice : User.t := User.mk "alice" "alice@example.com".
Definition bob : User.t := User.mk "bob" "bob@example.com".

Definition session_of (u : User.t) : SessionResponse.t :=
  SessionResponse.mk (Some (Session.mk "token" (Some u) (Some 2000))) None.

Definition note (id : string) (owner : User.t) (title : string) (at_ : Z)
    : Note.t :=
  Note.mk id (JsString.of_string title) (JsString.of_string "text")
          at_ at_ (User.id owner).

Definition table : list Note.t :=
  [ note "n1" alice "first" 10; note "n2" bob "other" 20;
    note "n3" alice "third" 30 ].

(** Alice is signed in and the clock reads one million milliseconds. *)
Definition world : Db.World :=
  Db.mk (session_of alice) None 1000000 None table
        (Some alice) true false [].

Definition signed_out : Db.World :=
  Db.mk (SessionResponse.mk None None) None 1000000 None table
        None false false [].

Definition with_fault (e : PgError.t) : Db.World :=
  Db.mk (session_of alice) None 1000000 (Some e) table
        (Some alice) true false [].

Definition with_signout_error (e : AuthError.t) : Db.World :=
  Db.mk (session_of alice) (Some e) 1000000 None table
        (Some alice) true false [].

(** Alice's session carries the expiry [0]. *)
Definition expiry_zero : Db.World :=
  Db.mk (SessionResponse.mk
           (Some (Session.mk "token" (Some alice) (Some 0))) None)
        None 1000000 None table (Some alice) true false [].

End Sample.

(* ------------------------------------------------------------------ *)
(** ** Notions used by the statements *)

(** The facade's four operations as one command type. *)
Inductive FacadeOp :=
| OpList
| OpCreate (title content : JsString.t)
| OpUpdate (id : string) (title content : JsString.t)
| OpDelete (id : string).

Inductive FacadeResult :=
| Listed (l : list Note.t)
| Saved (n : Note.t)
| Deleted.

Definition perform (op : FacadeOp) : Prog FacadeResult :=
  match op with
  | OpList => l <- notesApi.getNotes ;; Ret (Listed l)
  | OpCreate title content =>
      n <- notesApi.createNote title content ;; Ret (Saved n)
  | OpUpdate id title content =>
      n <- notesApi.updateNote id title content ;; Ret (Saved n)
  | OpDelete id => notesApi.deleteNote id ;;; Ret Deleted
  end.

(** Title non-empty once trimmed and at most 100 code units, content at
    most 10,000 code units. *)
Definition valid_note_input (title content : JsString.t) : Prop :=
  JsString.trim title <> []
  /\ JsString.length title <= 100
  /\ JsString.length content <= 10000.

Definition input_ok (op : FacadeOp) : Prop :=
  match op with
  | OpList => True
  | OpCreate title content => valid_note_input title content
  | OpUpdate id title content => id <> "" /\ valid_note_input title content
  | OpDelete id => id <> ""
  end.

(** A [getSession] answer that carries a usable session at instant
    [now_ms]: no error, a session with a non-empty token and a user, and
    an expiry that is absent, zero, or not before the current second. *)
Definition valid_session (resp : SessionResponse.t) (now_ms : Z) : Prop :=
  SessionResponse.error resp = None
  /\ exists s u,
       SessionResponse.session resp = Some s
       /\ Session.access_token s <> ""
       /\ Session.user s = Some u
       /\ forall e, Session.expires_at s = Some e ->
                    e = 0 \/ now_ms / 1000 <= e.

(** The first [getSession] answer of a run from [w] and the clock reading
    that follows it. *)
Definition first_session {World} (h : Handler World) (w : World)
    : SessionResponse.t :=
  fst (h w AuthGetSession).

Definition first_clock {World} (h : Handler World) (w : World) : Z :=
  fst (h (snd (h w AuthGetSession)) DateNow).

(** Remote errors that signal an invalid or expired token. *)
Definition signals_invalid_token (e : PgError.t) : Prop :=
  PgError.code e = Some "PGRST301"
  \/ exists m, PgError.message e = Some m /\ includes m "JWT" = true.

(** Remote errors that signal a row-security denial. *)
Definition signals_row_security_denial (e : PgError.t) : Prop :=
  PgError.code e = Some "PGRST116"
  \/ exists m, PgError.message e = Some m /\ includes m "RLS" = true.

(** The rows handed to [insert] and the patches handed to [update] in the
    course of a run. *)
Definition inserted_rows (tr : list Event) : list NewNote.t :=
  flat_map (fun a => match a with
                     | NotesInsertSelectSingle row => [row]
                     | _ => []
                     end) (actions tr).

Definition submitted_patches (tr : list Event) : list NotePatch.t :=
  flat_map (fun a => match a with
                     | NotesUpdateSelectSingle p _ => [p]
                     | _ => []
                     end) (actions tr).

(** Newest first. *)
Definition newer_or_same (a b : Note.t) : Prop :=
  Note.updated_at a >= Note.updated_at b.

Definition owned_by (u : User.t) (n : Note.t) : bool :=
  String.eqb (User.id u) (Note.user_id n).

(** No row of the table has this id and this owner. *)
Definition no_row_matches (w : Db.World) (id : string) (u : User.t) : Prop :=
  forall n, In n (Db.rows w) ->
            ~ (Note.id n = id /\ Note.user_id n = User.id u).

(* ------------------------------------------------------------------ *)
(** ** The session manager, the pages and what they call *)

(** [src/lib/supabase.ts], the remaining functions of
    [src/contexts/AuthContext.tsx], the handlers of [DashboardPage] and
    [NoteModal.handleSave] call more of the environment than the facade
    does.  Their programs are trees over the requests below, which
    include the requests of the facade; what they throw includes what the
    facade throws. *)

(** [{ data: { user }, error }] of [supabase.auth.getUser()] *)
Module UserResponse.
Record t := mk {
  user : option User.t;
  error : option AuthError.t
}.
End UserResponse.

Module App.

Inductive Thrown' :=
| Facade (e : Thrown)              (* thrown below, or a rethrown auth error *)
| InvalidAuthenticationToken       (* AuthContext.tsx, signIn and verifyOTP *)
| FailedToRefreshSession.          (* AuthContext.tsx, refreshSession *)

Definition message' (e : Thrown') : string :=
  match e with
  | Facade e => message e
  | InvalidAuthenticationToken => "Invalid authentication token"
  | FailedToRefreshSession => "Failed to refresh session"
  end.

Inductive action' :=
| Core (a : action)
| AuthGetUser
| AuthRefreshSession
| AuthSignInWithPassword (email password : string)
| AuthSignUp (email password full_name : string)
| AuthSignInWithOAuth (provider redirectTo : string)
| AuthVerifyOtp (email token : string)
| AuthResend (email : string)
| WindowLocationOrigin
| WindowConfirm (m : string)
| ToastSuccess (m : string)
| ConsoleError (label : string) (e : Thrown')
| ConsoleLog (args : list string)
| SetNotes (l : list Note.t)
| SetJwtToken (t : option string)
| SetPageLoading (b : bool)
| SetIsSaving (b : bool)
| SetIsModalOpen (b : bool)
| SetEditingNote (n : option Note.t).

Definition result' (a : action') : Type :=
  match a with
  | Core a => result a
  | AuthGetUser => UserResponse.t
  | AuthRefreshSession => SessionResponse.t
  | AuthSignInWithPassword _ _ => SessionResponse.t
  | AuthSignUp _ _ _ => option AuthError.t
  | AuthSignInWithOAuth _ _ => option AuthError.t
  | AuthVerifyOtp _ _ => SessionResponse.t
  | AuthResend _ => option AuthError.t
  | WindowLocationOrigin => string
  | WindowConfirm _ => bool
  | ToastSuccess _ | ConsoleError _ _ | ConsoleLog _ | SetNotes _
  | SetJwtToken _ | SetPageLoading _ | SetIsSaving _ | SetIsModalOpen _
  | SetEditingNote _ => unit
  end.

Inductive Prog' (T : Type) : Type :=
| Ret' (x : T)
| Throw' (e : Thrown')
| Act' (a : action') (k : result' a -> Prog' T).

Arguments Ret' {T} _.
Arguments Throw' {T} _.
Arguments Act' {T} _ _.

Fixpoint bind' {A B} (p : Prog' A) (f : A -> Prog' B) : Prog' B :=
  match p with
  | Ret' x => f x
  | Throw' e => Throw' e
  | Act' a k => Act' a (fun r => bind' (k r) f)
  end.

Definition call' (a : action') : Prog' (result' a) := Act' a Ret'.

(** [try { p } catch (e) { h e }] *)
Fixpoint try_catch' {A} (p : Prog' A) (h : Thrown' -> Prog' A) : Prog' A :=
  match p with
  | Ret' x => Ret' x
  | Throw' e => h e
  | Act' a k => Act' a (fun r => try_catch' (k r) h)
  end.

(** [try { p } finally { f }] *)
Fixpoint try_finally' {A} (p : Prog' A) (f : Prog' unit) : Prog' A :=
  match p with
  | Ret' x => bind' f (fun _ => Ret' x)
  | Throw' e => bind' f (fun _ => Throw' e)
  | Act' a k => Act' a (fun r => try_finally' (k r) f)
  end.

(** A program of the facade, or [signOut], as a program of this layer. *)
Fixpoint lift {T} (p : Prog T) : Prog' T :=
  match p with
  | Ret x => Ret' x
  | Throw e => Throw' (Facade e)
  | Act a k => Act' (Core a) (fun r => lift (k r))
  end.

Definition Handler' (World : Type) :=
  World -> forall a : action', result' a * World.

Definition Event' := { a : action' & result' a }.

Module Run'.
Record t (World T : Type) := mk {
  outcome : Thrown' + T;
  final : World;
  trace : list Event'
}.
Arguments mk {World T} _ _ _.
Arguments outcome {World T} _.
Arguments final {World T} _.
Arguments trace {World T} _.
End Run'.

Fixpoint run' {World T} (h : Handler' World) (p : Prog' T) (w : World)
    : Run'.t World T :=
  match p with
  | Ret' x => Run'.mk (inr x) w []
  | Throw' e => Run'.mk (inl e) w []
  | Act' a k =>
      let '(r, w') := h w a in
      let R := run' h (k r) w' in
      Run'.mk (Run'.outcome R) (Run'.final R)
              (existT result' a r :: Run'.trace R)
  end.

Definition actions' (tr : list Event') : list action' :=
  map (@projT1 _ _) tr.

(** The facade's handler inside a handler of this layer. *)
Definition core {World} (h : Handler' World) : Handler World :=
  fun w a => h w (Core a).

End App.

Notation "x <~ p ;; q" := (App.bind' p (fun x => q))
  (at level 61, p at next level, right associativity) : prog_scope.
Notation "p ~;; q" := (App.bind' p (fun _ => q))
  (at level 61, right associativity) : prog_scope.

(** [session?.access_token || null] *)
Definition access_token_or_null (session : option Session.t)
    : option string :=
  match session with
  | Some s =>
      if str_falsy (Session.access_token s) then None
      else Some (Session.access_token s)
  | None => None
  end.

(** [session?.user] *)
Definition session_user (session : option Session.t) : option User.t :=
  match session with
  | Some s => Session.user s
  | None => None
  end.

(** [if (token)] on [string | null] *)
Definition truthy (t : option string) : bool :=
  match t with
  | Some s => negb (str_falsy s)
  | None => false
  end.

(* ------------------------------------------------------------------ *)
(** *** [src/lib/supabase.ts] *)

Module supabase.

Import App.

Definition getCurrentJWTToken : Prog' (option string) :=
  resp <~ call' (Core AuthGetSession) ;;
  Ret' (access_token_or_null (SessionResponse.session resp)).

Definition validateJWTToken : Prog' bool :=
  try_catch'
    (resp <~ call' AuthGetUser ;;
     Ret' (negb (notesApi.is_some (UserResponse.error resp))
           && notesApi.is_some (UserResponse.user resp)))
    (fun _ => Ret' false).

Definition refreshJWTToken : Prog' (option string) :=
  try_catch'
    (resp <~ call' AuthRefreshSession ;;
     match SessionResponse.error resp with
     | Some error => Throw' (Facade (ThrownAuthError error))
     | None => Ret' (access_token_or_null (SessionResponse.session resp))
     end)
    (fun error =>
       call' (ConsoleError "Failed to refresh JWT token:" error) ~;;
       Ret' None).

End supabase.

(* ------------------------------------------------------------------ *)
(** *** [src/contexts/AuthContext.tsx], [AuthProvider] *)

Module AuthProvider.

Import App.

Definition user_id_or_undefined (session : option Session.t) : string :=
  match session_user session with
  | Some u => User.id u
  | None => "undefined"
  end.

Definition clear_user : Prog' unit :=
  call' (Core (SetUser None)) ~;;
  call' (Core (SetIsAuthenticated false)).

Definition initializeAuth : Prog' unit :=
  try_finally'
    (try_catch'
       (resp <~ call' (Core AuthGetSession) ;;
        match session_user (SessionResponse.session resp) with
        | Some user =>
            isValid <~ supabase.validateJWTToken ;;
            if isValid then
              call' (Core (SetUser (Some user))) ~;;
              call' (Core (SetIsAuthenticated true))
            else
              newToken <~ supabase.refreshJWTToken ;;
              if truthy newToken then
                resp' <~ call' (Core AuthGetSession) ;;
                let newUser := session_user (SessionResponse.session resp') in
                call' (Core (SetUser newUser)) ~;;
                call' (Core (SetIsAuthenticated (notesApi.is_some newUser)))
              else
                clear_user ~;;
                call' (Core (ToastError
                               "Session expired. Please log in again."))
        | None => clear_user
        end)
       (fun error =>
          call' (ConsoleError "Auth initialization error:" error) ~;;
          clear_user))
    (call' (Core (SetLoading false))).

(** The callback given to [supabase.auth.onAuthStateChange]. *)
Definition onAuthStateChange (event : string) (session : option Session.t)
    : Prog' unit :=
  call' (ConsoleLog ["Auth state changed:"; event;
                     user_id_or_undefined session]) ~;;
  match session_user session with
  | Some user =>
      isValid <~ supabase.validateJWTToken ;;
      if isValid then
        call' (Core (SetUser (Some user))) ~;;
        call' (Core (SetIsAuthenticated true)) ~;;
        if String.eqb event "SIGNED_IN"
        then call' (ToastSuccess "Successfully signed in!")
        else if String.eqb event "TOKEN_REFRESHED"
        then call' (ConsoleLog ["JWT token refreshed successfully"])
        else Ret' tt
      else
        clear_user ~;;
        call' (Core (ToastError "Authentication failed. Please log in again."))
  | None =>
      clear_user ~;;
      if String.eqb event "SIGNED_OUT"
      then call' (ToastSuccess "Successfully signed out!")
      else Ret' tt
  end ~;;
  call' (Core (SetLoading false)).






Definition signUp (email password fullName : string) : Prog' unit :=
  call' (Core (SetLoading true)) ~;;
  try_finally'
    (try_catch'
       (error <~ call' (AuthSignUp email password fullName) ;;
        match error with
        | Some e => Throw' (Facade (ThrownAuthError e))
        | None =>
            call' (ToastSuccess
                     "Please check your email for the verification code")
        end)
       (fun error =>
          call' (Core (ToastError
                         (str_or (message' error) "Failed to sign up"))) ~;;
          Throw' error))
    (call' (Core (SetLoading false))).

Definition signIn (email password : string) : Prog' unit :=
  call' (Core (SetLoading true)) ~;;
  try_finally'
    (try_catch'
       (resp <~ call' (AuthSignInWithPassword email password) ;;
        match SessionResponse.error resp with
        | Some e => Throw' (Facade (ThrownAuthError e))
        | None =>
            if truthy (access_token_or_null (SessionResponse.session resp))
            then
              isValid <~ supabase.validateJWTToken ;;
              if isValid then Ret' tt
              else Throw' InvalidAuthenticationToken
            else Ret' tt
        end)
       (fun error =>
          call' (Core (ToastError
                         (str_or (message' error) "Failed to sign in"))) ~;;
          Throw' error))
    (call' (Core (SetLoading false))).

Definition signInWithGoogle : Prog' unit :=
  call' (Core (SetLoading true)) ~;;
  try_finally'
    (try_catch'
       (origin <~ call' WindowLocationOrigin ;;
        error <~ call' (AuthSignInWithOAuth
                          "google" (String.append origin "/dashboard")) ;;
        match error with
        | Some e => Throw' (Facade (ThrownAuthError e))
        | None => Ret' tt
        end)
       (fun error =>
          call' (Core (ToastError
                         (str_or (message' error)
                                 "Failed to sign in with Google"))) ~;;
          Throw' error))
    (call' (Core (SetLoading false))).

Definition verifyOTP (email otp : string) : Prog' unit :=
  call' (Core (SetLoading true)) ~;;
  try_finally'
    (try_catch'
       (resp <~ call' (AuthVerifyOtp email otp) ;;
        match SessionResponse.error resp with
        | Some e => Throw' (Facade (ThrownAuthError e))
        | None =>
            (if truthy (access_token_or_null (SessionResponse.session resp))
             then
               isValid <~ supabase.validateJWTToken ;;
               if isValid then Ret' tt
               else Throw' InvalidAuthenticationToken
             else Ret' tt) ~;;
            call' (ToastSuccess "Email verified successfully!")
        end)
       (fun error =>
          call' (Core (ToastError
                         (str_or (message' error) "Failed to verify OTP"))) ~;;
          Throw' error))
    (call' (Core (SetLoading false))).

Definition resendOTP (email : string) : Prog' unit :=
  call' (Core (SetLoading true)) ~;;
  try_finally'
    (try_catch'
       (error <~ call' (AuthResend email) ;;
        match error with
        | Some e => Throw' (Facade (ThrownAuthError e))
        | None => call' (ToastSuccess "Verification code sent to your email")
        end)
       (fun error =>
          call' (Core (ToastError
                         (str_or (message' error) "Failed to resend OTP"))) ~;;
          Throw' error))
    (call' (Core (SetLoading false))).

Definition refreshSession : Prog' unit :=
  try_catch'
    (newToken <~ supabase.refreshJWTToken ;;
     if truthy newToken then
       resp <~ call' (Core AuthGetSession) ;;
       let user := session_user (SessionResponse.session resp) in
       call' (Core (SetUser user)) ~;;
       call' (Core (SetIsAuthenticated (notesApi.is_some user))) ~;;
       call' (ToastSuccess "Session refreshed successfully")
     else Throw' FailedToRefreshSession)
    (fun _ =>
       call' (Core (ToastError
                      "Failed to refresh session. Please log in again.")) ~;;
       clear_user).

Definition getJWTToken : Prog' (option string) :=
  resp <~ call' (Core AuthGetSession) ;;
  Ret' (access_token_or_null (SessionResponse.session resp)).

End AuthProvider.

(* ------------------------------------------------------------------ *)
(** *** [DashboardPage] *)

(** The handlers close over the [notes] and [isAuthenticated] of the
    render they belong to; both are parameters here. *)
Module DashboardPage.

Import App.

Definition loadJWTToken : Prog' unit :=
  try_catch'
    (token <~ AuthProvider.getJWTToken ;;
     call' (SetJwtToken token))
    (fun error => call' (ConsoleError "Failed to get JWT token:" error)).

(** [error.message.includes('JWT') ||
     error.message.includes('Authentication')] *)
Definition is_session_failure (error : Thrown') : bool :=
  includes (message' error) "JWT"
  || includes (message' error) "Authentication".

(** The catch block of the four handlers, the same but for its two
    texts. *)
Definition on_failure (label fallback : string) (error : Thrown')
    : Prog' unit :=
  call' (ConsoleError label error) ~;;
  if is_session_failure error then
    call' (Core (ToastError "Session expired. Please log in again.")) ~;;
    lift signOut
  else
    call' (Core (ToastError (str_or (message' error) fallback))).

Definition loadNotes (isAuthenticated : bool) : Prog' unit :=
  try_finally'
    (try_catch'
       (call' (SetPageLoading true) ~;;
        if negb isAuthenticated then
          call' (Core (ToastError "Please log in to access your notes"))
        else
          data <~ lift notesApi.getNotes ;;
          call' (SetNotes data))
       (on_failure "Failed to load notes:" "Failed to load notes"))
    (call' (SetPageLoading false)).

Definition handleCreateNote (isAuthenticated : bool) (notes : list Note.t)
    (title content : JsString.t) : Prog' unit :=
  try_catch'
    (if negb isAuthenticated then
       call' (Core (ToastError "Please log in to create notes"))
     else
       newNote <~ lift (notesApi.createNote title content) ;;
       call' (SetNotes (newNote :: notes)) ~;;
       call' (ToastSuccess "Note created successfully") ~;;
       loadJWTToken)
    (on_failure "Failed to create note:" "Failed to create note").

Definition handleUpdateNote (isAuthenticated : bool) (notes : list Note.t)
    (id : string) (title content : JsString.t) : Prog' unit :=
  try_catch'
    (if negb isAuthenticated then
       call' (Core (ToastError "Please log in to update notes"))
     else
       hasOwnership <~ lift (notesApi.verifyNoteOwnership id) ;;
       if negb hasOwnership then
         call' (Core (ToastError "You can only edit your own notes"))
       else
         updatedNote <~ lift (notesApi.updateNote id title content) ;;
         call' (SetNotes
                  (map (fun note =>
                          if String.eqb (Note.id note) id
                          then updatedNote else note) notes)) ~;;
         call' (ToastSuccess "Note updated successfully") ~;;
         loadJWTToken)
    (on_failure "Failed to update note:" "Failed to update note").

Definition handleDeleteNote (isAuthenticated : bool) (notes : list Note.t)
    (id : string) : Prog' unit :=
  confirmed <~ call' (WindowConfirm
                        "Are you sure you want to delete this note?") ;;
  if negb confirmed then Ret' tt
  else
    try_catch'
      (if negb isAuthenticated then
         call' (Core (ToastError "Please log in to delete notes"))
       else
         hasOwnership <~ lift (notesApi.verifyNoteOwnership id) ;;
         if negb hasOwnership then
           call' (Core (ToastError "You can only delete your own notes"))
         else
           lift (notesApi.deleteNote id) ~;;
           call' (SetNotes
                    (filter (fun note =>
                               negb (String.eqb (Note.id note) id)) notes)) ~;;
           call' (ToastSuccess "Note deleted successfully") ~;;
           loadJWTToken)
      (on_failure "Failed to delete note:" "Failed to delete note").

Definition handleRefreshSession (isAuthenticated : bool) : Prog' unit :=
  try_catch'
    (AuthProvider.refreshSession ~;;
     loadJWTToken ~;;
     loadNotes isAuthenticated)
    (fun _ => Ret' tt).

Definition handleSignOut : Prog' unit :=
  try_catch' (lift signOut) (fun _ => Ret' tt).

(** The [onClose] and [onSave] given to [NoteModal]. *)
Definition onClose : Prog' unit :=
  call' (SetIsModalOpen false) ~;;
  call' (SetEditingNote None).

Definition onSave (isAuthenticated : bool) (notes : list Note.t)
    (editingNote : option Note.t) (id : string) (title content : JsString.t)
    : Prog' unit :=
  match editingNote with
  | Some _ => handleUpdateNote isAuthenticated notes id title content
  | None => handleCreateNote isAuthenticated notes title content
  end.

End DashboardPage.

(* ------------------------------------------------------------------ *)
(** *** [src/components/NoteModal.tsx] *)

Module NoteModal.

Import App.

Definition handleSave (note : option Note.t) (title content : JsString.t)
    (onSave : string -> JsString.t -> JsString.t -> Prog' unit)
    (onClose : Prog' unit) : Prog' unit :=
  if JsString.falsy (JsString.trim title) then Ret' tt
  else
    call' (SetIsSaving true) ~;;
    try_finally'
      (try_catch'
         (match note with
          | Some n =>
              onSave (Note.id n) (JsString.trim title) (JsString.trim content)
          | None =>
              onSave "" (JsString.trim title) (JsString.trim content)
          end ~;;
          onClose)
         (fun _ => Ret' tt))
      (call' (SetIsSaving false)).

End NoteModal.

(* ------------------------------------------------------------------ *)
(** *** Local state as the setters leave it *)

(** The three [useState] slots of [AuthProvider], and what a sequence of
    requests does to them whatever the handler. *)
Module AuthState.
Record t := mk {
  user : option User.t;
  isAuthenticated : bool;
  loading : bool
}.
End AuthState.

Definition apply_setter (st : AuthState.t) (a : App.action')
    : AuthState.t :=
  match a with
  | App.Core (SetUser u) =>
      AuthState.mk u (AuthState.isAuthenticated st) (AuthState.loading st)
  | App.Core (SetIsAuthenticated b) =>
      AuthState.mk (AuthState.user st) b (AuthState.loading st)
  | App.Core (SetLoading b) =>
      AuthState.mk (AuthState.user st) (AuthState.isAuthenticated st) b
  | _ => st
  end.

Definition state_after (tr : list App.Event') (st : AuthState.t)
    : AuthState.t :=
  fold_left apply_setter (App.actions' tr) st.

(** The authenticated flag says whether there is a user. *)
Definition consistent (st : AuthState.t) : Prop :=
  AuthState.isAuthenticated st = notesApi.is_some (AuthState.user st).

(** What one request may do to the table, seen from a world [w0] whose
    policy covers at least what the current world's policy covers. *)
Definition row_secure (w0 w : Db.World) : Prop :=
  (forall n, Db.policy w n = true -> Db.policy w0 n = true)
  /\ (forall n, Db.policy w0 n = false ->
                (In n (Db.rows w) <-> In n (Db.rows w0)))
  /\ (NoDup (map Note.id (Db.rows w0)) -> NoDup (map Note.id (Db.rows w))).

(** The five requests of [AuthProvider] that start or confirm a
    sign-in. *)
Inductive AuthRequest :=
| ReqSignUp (email password fullName : string)
| ReqSignIn (email password : string)
| ReqSignInWithGoogle
| ReqVerifyOTP (email otp : string)
| ReqResendOTP (email : string).

Definition submit (req : AuthRequest) : App.Prog' unit :=
  match req with
  | ReqSignUp email password fullName =>
      AuthProvider.signUp email password fullName
  | ReqSignIn email password => AuthProvider.signIn email password
  | ReqSignInWithGoogle => AuthProvider.signInWithGoogle
  | ReqVerifyOTP email otp => AuthProvider.verifyOTP email otp
  | ReqResendOTP email => AuthProvider.resendOTP email
  end.

(** The text each of them shows for an error without a message. *)
Definition fallback_text (req : AuthRequest) : string :=
  match req with
  | ReqSignUp _ _ _ => "Failed to sign up"
  | ReqSignIn _ _ => "Failed to sign in"
  | ReqSignInWithGoogle => "Failed to sign in with Google"
  | ReqVerifyOTP _ _ => "Failed to verify OTP"
  | ReqResendOTP _ => "Failed to resend OTP"
  end.

(** [getUser] answered with a user and without error. *)
Definition user_confirmed (resp : UserResponse.t) : Prop :=
  UserResponse.error resp = None /\ UserResponse.user resp <> None.

(** A handler for examples: the facade's requests go to the reference
    platform, the other requests of the auth client and of the window
    are answered from a fixed script, and every other request is only
    recorded. *)
Module Script.

Record Answers := mk {
  user_answer : UserResponse.t;
  refresh_answer : SessionResponse.t;
  signin_answer : SessionResponse.t;
  otp_answer : SessionResponse.t;
  signup_error : option AuthError.t;
  oauth_error : option AuthError.t;
  resend_error : option AuthError.t;
  origin : string;
  confirm_answer : bool
}.

Record World := world {
  db : Db.World;
  answers : Answers;
  recorded : list App.action'
}.

Definition record (w : World) (a : App.action') : unit * World :=
  (tt, world (db w) (answers w) (recorded w ++ [a])).

Definition handler : App.Handler' World :=
  fun w a =>
    match a as a0 return App.result' a0 * World with
    | App.Core c =>
        let '(r, d) := Db.handler (db w) c in
        (r, world d (answers w) (recorded w))
    | App.AuthGetUser => (user_answer (answers w), w)
    | App.AuthRefreshSession => (refresh_answer (answers w), w)
    | App.AuthSignInWithPassword _ _ => (signin_answer (answers w), w)
    | App.AuthSignUp _ _ _ => (signup_error (answers w), w)
    | App.AuthSignInWithOAuth _ _ => (oauth_error (answers w), w)
    | App.AuthVerifyOtp _ _ => (otp_answer (answers w), w)
    | App.AuthResend _ => (resend_error (answers w), w)
    | App.WindowLocationOrigin => (origin (answers w), w)
    | App.WindowConfirm _ => (confirm_answer (answers w), w)
    | App.ToastSuccess m => record w (App.ToastSuccess m)
    | App.ConsoleError l e => record w (App.ConsoleError l e)
    | App.ConsoleLog l => record w (App.ConsoleLog l)
    | App.SetNotes l => record w (App.SetNotes l)
    | App.SetJwtToken t => record w (App.SetJwtToken t)
    | App.SetPageLoading b => record w (App.SetPageLoading b)
    | App.SetIsSaving b => record w (App.SetIsSaving b)
    | App.SetIsModalOpen b => record w (App.SetIsModalOpen b)
    | App.SetEditingNote n => record w (App.SetEditingNote n)
    end.

(** Every request of the script succeeds; the user is confirmed. *)
Definition all_well : Answers :=
  mk (UserResponse.mk (Some Sample.alice) None)
     (Sample.session_of Sample.alice)
     (Sample.session_of Sample.alice)
     (Sample.session_of Sample.alice)
     None None None "https://notes.example" true.

(** As [all_well], but [getUser] does not confirm the user. *)
Definition user_rejected : Answers :=
  mk (UserResponse.mk None (Some (AuthError.mk "invalid JWT")))
     (Sample.session_of Sample.alice)
     (Sample.session_of Sample.alice)
     (Sample.session_of Sample.alice)
     None None None "https://notes.example" true.

(** As [user_rejected], and the refresh fails too. *)
Definition refresh_fails : Answers :=
  mk (UserResponse.mk None (Some (AuthError.mk "invalid JWT")))
     (SessionResponse.mk None (Some (AuthError.mk "refresh token revoked")))
     (Sample.session_of Sample.alice)
     (Sample.session_of Sample.alice)
     None None None "https://notes.example" true.

Definition start (d : Db.World) (a : Answers) : World := world d a [].

End Script.

(** How [signIn] and [verifyOTP] treat the answer [resp] of the remote,
    given the answer [check] that [getUser] would give next. *)
Definition rechecked {World} (resp : SessionResponse.t)
    (check : UserResponse.t) (R : App.Run'.t World unit) : Prop :=
  let tr := App.actions' (App.Run'.trace R) in
  (forall e,
      SessionResponse.error resp = Some e ->
      App.Run'.outcome R = inl (App.Facade (ThrownAuthError e))
      /\ ~ In App.AuthGetUser tr)
  /\ (SessionResponse.error resp = None ->
      access_token_or_null (SessionResponse.session resp) = None ->
      App.Run'.outcome R = inr tt /\ ~ In App.AuthGetUser tr)
  /\ (SessionResponse.error resp = None ->
      access_token_or_null (SessionResponse.session resp) <> None ->
      In App.AuthGetUser tr
      /\ (user_confirmed check -> App.Run'.outcome R = inr tt)
      /\ (~ user_confirmed check ->
          App.Run'.outcome R = inl App.InvalidAuthenticationToken)).

(** Programs all of whose requests, on every path, satisfy [P]. *)
Inductive only {T} (P : action -> Prop) : Prog T -> Prop :=
| only_Ret (x : T) : only P (Ret x)
| only_Throw (e : Thrown) : only P (Throw e)
| only_Act (a : action) (k : result a -> Prog T) :
    P a -> (forall r, only P (k r)) -> only P (Act a k).

Inductive only' {T} (P : App.action' -> Prop) : App.Prog' T -> Prop :=
| only_Ret' (x : T) : only' P (App.Ret' x)
| only_Throw' (e : App.Thrown') : only' P (App.Throw' e)
| only_Act' (a : App.action') (k : App.result' a -> App.Prog' T) :
    P a -> (forall r, only' P (k r)) -> only' P (App.Act' a k).

(** What the facade asks of its environment. *)
Definition facade_request (a : action) : Prop :=
  a = AuthGetSession \/ a = DateNow \/ is_notes_call a = true.

(** Requests that neither replace the page's list of notes nor announce
    a success. *)
Definition quiet (a : App.action') : Prop :=
  match a with
  | App.SetNotes _ | App.ToastSuccess _ => False
  | _ => True
  end.

(** The collection rejects Alice's token, and the sign-out fails too. *)
Definition locked_out : Db.World :=
  Db.mk (Sample.session_of Sample.alice) (Some (AuthError.mk "network down"))
        1000000 (Some (PgError.mk (Some "PGRST301") (Some "JWT expired")))
        Sample.table (Some Sample.alice) true false [].

(** What [verifyNoteOwnership] asks of its environment. *)
Definition ownership_request (a : action) : Prop :=
  a = AuthGetSession \/ a = DateNow
  \/ exists filters, a = NotesSelectUserIdSingle filters.

(* ------------------------------------------------------------------ *)
(** ** Running programs: general facts *)

Section RunFacts.

Context {World : Type} (h : Handler World).

Lemma run_bind {A B} (p : Prog A) (f : A -> Prog B) (w : World) :
  run h (bind p f) w =
  match Run.outcome (run h p w) with
  | inl e => Run.mk (inl e) (Run.final (run h p w)) (Run.trace (run h p w))
  | inr x =>
      let R := run h (f x) (Run.final (run h p w)) in
      Run.mk (Run.outcome R) (Run.final R)
             (Run.trace (run h p w) ++ Run.trace R)
  end.
Proof.
  revert w; induction p as [x | e | a k IH]; intro w; simpl.
  - destruct (run h (f x) w); reflexivity.
  - reflexivity.
  - destruct (h w a) as [r w']. simpl. rewrite IH.
    destruct (Run.outcome (run h (k r) w')); reflexivity.
Qed.

Lemma run_try_catch_returns {A} (p : Prog A) (c : Thrown -> Prog A)
    (w : World) (x : A) :
  Run.outcome (run h p w) = inr x ->
  run h (try_catch p c) w = run h p w.
Proof.
  revert w; induction p as [y | e | a k IH]; intro w; simpl.
  - reflexivity.
  - discriminate.
  - destruct (h w a) as [r w']. simpl. intro E. rewrite (IH _ _ E).
    reflexivity.
Qed.

Lemma run_try_catch_throws {A} (p : Prog A) (c : Thrown -> Prog A)
    (w : World) (e : Thrown) :
  Run.outcome (run h p w) = inl e ->
  run h (try_catch p c) w =
  let R := run h (c e) (Run.final (run h p w)) in
  Run.mk (Run.outcome R) (Run.final R)
         (Run.trace (run h p w) ++ Run.trace R).
Proof.
  revert w; induction p as [y | e' | a k IH]; intro w; simpl.
  - discriminate.
  - intro E; injection E as ->. destruct (run h (c e) w); reflexivity.
  - destruct (h w a) as [r w']. simpl. intro E. rewrite (IH _ _ E).
    reflexivity.
Qed.

Lemma no_notes_call_app (t1 t2 : list Event) :
  no_notes_call (t1 ++ t2) = no_notes_call t1 && no_notes_call t2.
Proof.
  unfold no_notes_call, actions. rewrite map_app. apply forallb_app.
Qed.

(** *** [getAuthenticatedSession] against any handler *)

Lemma getAuthenticatedSession_no_notes_call (w : World) :
  no_notes_call (Run.trace (run h getAuthenticatedSession w)) = true.
Proof.
  unfold getAuthenticatedSession, call. simpl.
  destruct (h w AuthGetSession) as [[[s|] [e|]] w1]; simpl; try reflexivity.
  destruct (str_falsy (Session.access_token s)); simpl; try reflexivity.
  destruct (Session.user s); simpl; try reflexivity.
  destruct (h w1 DateNow) as [ms w2]; simpl.
  destruct (expired _ _); reflexivity.
Qed.

Lemma getAuthenticatedSession_kind (w : World) (e : Thrown) :
  Run.outcome (run h getAuthenticatedSession w) = inl e ->
  kind e = SessionError.
Proof.
  unfold getAuthenticatedSession, call. simpl.
  destruct (h w AuthGetSession) as [[[s|] [er|]] w1]; simpl;
    try (intro E; injection E as <-; reflexivity).
  destruct (str_falsy (Session.access_token s)); simpl;
    try (intro E; injection E as <-; reflexivity).
  destruct (Session.user s); simpl;
    try (intro E; injection E as <-; reflexivity).
  destruct (h w1 DateNow) as [ms w2]; simpl.
  destruct (expired _ _); simpl;
    try (intro E; injection E as <-; reflexivity).
  discriminate.
Qed.

(** *** [makeAuthenticatedRequest] against any handler *)

(** The request returns only what the operation handed back as data, and
    only after a session check that passed. *)
Lemma makeAuthenticatedRequest_returns {T}
    (operation : Prog (Response.t T)) (w : World) (x : T) :
  Run.outcome (run h (makeAuthenticatedRequest operation) w) = inr x ->
  exists s r,
    Run.outcome (run h getAuthenticatedSession w) = inr s
    /\ Run.outcome
         (run h operation (Run.final (run h getAuthenticatedSession w)))
       = inr r
    /\ Response.error r = None
    /\ Response.data r = Some x.
Proof.
  unfold makeAuthenticatedRequest. rewrite run_bind.
  destruct (Run.outcome (run h getAuthenticatedSession w)) as [e|s] eqn:S;
    simpl; [discriminate|].
  rewrite run_bind.
  destruct (Run.outcome (run h operation _)) as [e|r] eqn:O;
    simpl; [discriminate|].
  destruct (Response.error r) as [er|] eqn:Er.
  - destruct (_ || _); [discriminate|].
    destruct (_ || _); discriminate.
  - destruct (Response.data r) as [d|] eqn:D; simpl; [|discriminate].
    intro E; injection E as <-. exists s, r. auto.
Qed.

Lemma makeAuthenticatedRequest_session_fails {T}
    (operation : Prog (Response.t T)) (w : World) (e : Thrown) :
  Run.outcome (run h getAuthenticatedSession w) = inl e ->
  run h (makeAuthenticatedRequest operation) w =
  Run.mk (inl e) (Run.final (run h getAuthenticatedSession w))
         (Run.trace (run h getAuthenticatedSession w)).
Proof.
  intro E. unfold makeAuthenticatedRequest. rewrite run_bind, E.
  reflexivity.
Qed.

End RunFacts.

Lemma run_call {World} (h : Handler World) (a : action) (w : World) :
  run h (call a) w
  = Run.mk (inr (fst (h w a))) (snd (h w a)) [existT result a (fst (h w a))].
Proof. unfold call. simpl. destruct (h w a). reflexivity. Qed.

Lemma run_bind_final {World} (h : Handler World) {A B} (p : Prog A)
    (f : A -> Prog B) (w : World) :
  Run.final (run h (bind p f) w) =
  match Run.outcome (run h p w) with
  | inl _ => Run.final (run h p w)
  | inr x => Run.final (run h (f x) (Run.final (run h p w)))
  end.
Proof.
  rewrite run_bind. destruct (Run.outcome (run h p w)); reflexivity.
Qed.

(** Rewriting with [run_call], whether the answer type shows as
    [result a] or reduced. *)
Ltac run_the_call :=
  match goal with
  | |- context [run ?h (call ?a) ?w] =>
      let RC := fresh "RC" in
      pose proof (run_call h a w) as RC;
      first [ rewrite RC | cbn [result] in RC; rewrite RC ];
      clear RC
  end.

(* ------------------------------------------------------------------ *)
(** ** [deleteNote] *)

Section DeleteNote.

Context {World : Type} (h : Handler World).

Lemma deleteNote_operation_data (id : string) (w : World)
    (r : Response.t unit) :
  Run.outcome (run h (notesApi.deleteNote_operation id) w) = inr r ->
  Response.data r = None.
Proof.
  unfold notesApi.deleteNote_operation. rewrite run_bind.
  destruct (Run.outcome (run h getAuthenticatedSession w)) as [e|s];
    simpl; [discriminate|].
  unfold session_user_id.
  destruct (Session.user s) as [u|]; simpl; [|discriminate].
  destruct (h _ _) as [res w']. simpl.
  intro E; injection E as <-. reflexivity.
Qed.

End DeleteNote.

(** C2.  Against every handler and from every world, the operation that
    [deleteNote] hands to [makeAuthenticatedRequest] never returns data
    other than [null], [makeAuthenticatedRequest] returns only when its
    operation returned non-null data without error, and so [deleteNote]
    throws on every invocation, whatever the remote delete answered. *)
Theorem deleteNote_always_throws :
  forall (World : Type) (h : Handler World) (w : World) (id : string),
    (forall w' r,
        Run.outcome (run h (notesApi.deleteNote_operation id) w') = inr r ->
        Response.data r = None)
    /\ (forall (operation : Prog (Response.t unit)) w' x,
           Run.outcome (run h (makeAuthenticatedRequest operation) w') = inr x ->
           exists r,
             Run.outcome
               (run h operation
                    (Run.final (run h getAuthenticatedSession w'))) = inr r
             /\ Response.data r <> None)
    /\ exists e, Run.outcome (run h (notesApi.deleteNote id) w) = inl e.
Proof.
  intros World h w id. split; [|split].
  - intros w' r. apply deleteNote_operation_data.
  - intros operation w' x E.
    destruct (makeAuthenticatedRequest_returns h operation w' x E)
      as (s & r & _ & O & _ & D).
    exists r. split; [exact O|]. rewrite D. discriminate.
  - unfold notesApi.deleteNote.
    destruct (str_falsy id); [simpl; eauto|].
    rewrite run_bind.
    destruct (Run.outcome (run h (makeAuthenticatedRequest _) w))
      as [e|x] eqn:E; simpl; [eauto|].
    destruct (makeAuthenticatedRequest_returns h _ w x E)
      as (s & r & _ & O & _ & D).
    apply deleteNote_operation_data in O. congruence.
Qed.

(** Alice deletes her own note [n1]: the row is removed, no remote error
    is reported, and the call still throws. *)
Lemma deleteNote_always_throws_witness :
  (exists e,
      Run.outcome (run Db.handler (notesApi.deleteNote "n1") Sample.world)
      = inl e)
  /\ map Note.id
       (Db.rows (Run.final
                   (run Db.handler (notesApi.deleteNote "n1") Sample.world)))
     = ["n2"; "n3"].
Proof.
  split.
  - apply (deleteNote_always_throws Db.World Db.handler Sample.world "n1").
  - vm_compute. reflexivity.
Defined.

(* ------------------------------------------------------------------ *)
(** ** Input validation *)

Lemma falsy_nil (s : JsString.t) : JsString.falsy s = true <-> s = [].
Proof. destruct s; simpl; split; congruence. Qed.

Lemma str_falsy_empty (s : string) : str_falsy s = true <-> s = "".
Proof. destruct s; simpl; split; congruence. Qed.

Lemma valid_note_input_tests (title content : JsString.t) :
  valid_note_input title content <->
  JsString.falsy (JsString.trim title) = false
  /\ (JsString.length title >? 100) = false
  /\ (JsString.length content >? 10000) = false.
Proof.
  unfold valid_note_input.
  rewrite <- !Bool.not_true_iff_false, falsy_nil, !Z.gtb_gt.
  intuition lia.
Qed.

Section Validation.

Context {World : Type} (h : Handler World).

Lemma makeAuthenticatedRequest_kind {T} (operation : Prog (Response.t T))
    (w : World) (e : Thrown) :
  (forall w' e', Run.outcome (run h operation w') = inl e' ->
                 kind e' <> ValidationError) ->
  Run.outcome (run h (makeAuthenticatedRequest operation) w) = inl e ->
  kind e <> ValidationError.
Proof.
  intro Hop. unfold makeAuthenticatedRequest. rewrite run_bind.
  destruct (Run.outcome (run h getAuthenticatedSession w)) as [e0|s] eqn:S;
    simpl.
  - intro E; injection E as <-.
    rewrite (getAuthenticatedSession_kind h w e0 S). discriminate.
  - rewrite run_bind.
    destruct (Run.outcome (run h operation _)) as [e0|r] eqn:O; simpl.
    + intro E; injection E as <-. eapply Hop; eassumption.
    + destruct (Response.error r) as [er|].
      * destruct (_ || _); [intro E; injection E as <-; discriminate|].
        destruct (_ || _); intro E; injection E as <-; discriminate.
      * destruct (Response.data r); simpl; [discriminate|].
        intro E; injection E as <-; discriminate.
Qed.

Lemma session_then_kind {T} (k : Session.t -> Prog T) (w : World)
    (e : Thrown) :
  (forall s w' e', Run.outcome (run h (k s) w') = inl e' ->
                   kind e' <> ValidationError) ->
  Run.outcome (run h (bind getAuthenticatedSession k) w) = inl e ->
  kind e <> ValidationError.
Proof.
  intro Hk. rewrite run_bind.
  destruct (Run.outcome (run h getAuthenticatedSession w)) as [e0|s] eqn:S;
    simpl.
  - intro E; injection E as <-.
    rewrite (getAuthenticatedSession_kind h w e0 S). discriminate.
  - apply Hk.
Qed.

Lemma createNote_operation_kind (title content : JsString.t) (w : World)
    (e : Thrown) :
  Run.outcome (run h (notesApi.createNote_operation title content) w) = inl e ->
  kind e <> ValidationError.
Proof.
  apply session_then_kind. intros s w' e'. unfold session_user_id.
  destruct (Session.user s); simpl.
  - destruct (h w' _); simpl; discriminate.
  - intro E; injection E as <-; discriminate.
Qed.

End Validation.

(** C4.  Against every handler, [createNote] throws a validation error
    exactly when the trimmed title is empty, the title is longer than 100,
    or the content is longer than 10,000; it then makes no request at all
    and leaves the world as it was.  The three boundary calls of the
    design document are instances. *)
Theorem createNote_validation :
  forall (World : Type) (h : Handler World) (w : World)
         (title content : JsString.t),
    let R := run h (notesApi.createNote title content) w in
    let invalid := JsString.trim title = []
                   \/ JsString.length title > 100
                   \/ JsString.length content > 10000 in
    ((exists e, Run.outcome R = inl e /\ kind e = ValidationError)
     <-> invalid)
    /\ (invalid -> Run.trace R = [] /\ Run.final R = w)
    /\ run h (notesApi.createNote (JsString.of_string "")
                                  (JsString.of_string "x")) w
       = Run.mk (inl TitleRequired) w []
    /\ run h (notesApi.createNote (JsString.replicate 101%N "a")
                                  (JsString.of_string "")) w
       = Run.mk (inl TitleTooLong) w []
    /\ run h (notesApi.createNote (JsString.of_string "ok")
                                  (JsString.replicate 10001%N "a")) w
       = Run.mk (inl ContentTooLong) w [].
Proof.
  intros World h w title content R invalid.
  assert (V : valid_note_input title content \/ invalid).
  { unfold valid_note_input, invalid.
    destruct (JsString.trim title); [right; left; reflexivity|].
    destruct (Z.le_gt_cases (JsString.length title) 100);
      destruct (Z.le_gt_cases (JsString.length content) 10000);
      try (right; lia).
    left. repeat split; try lia; discriminate. }
  assert (I : invalid ->
              Run.trace R = [] /\ Run.final R = w
              /\ exists e, Run.outcome R = inl e /\ kind e = ValidationError).
  { unfold invalid, R, notesApi.createNote. intro Hi.
    destruct (JsString.falsy (JsString.trim title)) eqn:F1; simpl; [eauto 6|].
    destruct (JsString.length title >? 100) eqn:F2; simpl; [eauto 6|].
    destruct (JsString.length content >? 10000) eqn:F3; simpl; [eauto 6|].
    exfalso. rewrite <- Bool.not_true_iff_false in F1, F2, F3.
    rewrite falsy_nil in F1. rewrite Z.gtb_gt in F2, F3.
    destruct Hi as [Hi | [Hi | Hi]]; [tauto | lia | lia]. }
  split; [split|split; [|split; [|split]]].
  - intros (e & E & K). destruct V as [V | V]; [|exact V]. exfalso.
    apply valid_note_input_tests in V. destruct V as (F1 & F2 & F3).
    unfold R, notesApi.createNote in E. rewrite F1, F2, F3 in E.
    revert K. eapply makeAuthenticatedRequest_kind; [|exact E].
    intros w' e'. apply createNote_operation_kind.
  - intro Hi. apply I in Hi. tauto.
  - intro Hi. apply I in Hi. tauto.
  - reflexivity.
  - vm_compute. reflexivity.
  - vm_compute. reflexivity.
Qed.

(** A title of spaces only, with nobody signed in: a validation error and
    no request. *)
Lemma createNote_validation_witness :
  let R := run Db.handler
               (notesApi.createNote (JsString.of_string "   ")
                                    (JsString.of_string "x"))
               Sample.signed_out in
  Run.trace R = [] /\ Run.final R = Sample.signed_out.
Proof.
  apply (proj1 (proj2 (createNote_validation
                         Db.World Db.handler Sample.signed_out
                         (JsString.of_string "   ")
                         (JsString.of_string "x")))).
  left. vm_compute. reflexivity.
Defined.

(* ------------------------------------------------------------------ *)
(** ** What is submitted *)

Section Submitted.

Context {World : Type} (h : Handler World).

Lemma run_bind_trace {A B} (p : Prog A) (f : A -> Prog B) (w : World) :
  Run.trace (run h (bind p f) w) =
  Run.trace (run h p w)
  ++ match Run.outcome (run h p w) with
     | inl _ => []
     | inr x => Run.trace (run h (f x) (Run.final (run h p w)))
     end.
Proof.
  rewrite run_bind. destruct (Run.outcome (run h p w)); simpl.
  - symmetry. apply app_nil_r.
  - reflexivity.
Qed.

Lemma run_bind_outcome {A B} (p : Prog A) (f : A -> Prog B) (w : World) :
  Run.outcome (run h (bind p f) w) =
  match Run.outcome (run h p w) with
  | inl e => inl e
  | inr x => Run.outcome (run h (f x) (Run.final (run h p w)))
  end.
Proof.
  rewrite run_bind. destruct (Run.outcome (run h p w)); reflexivity.
Qed.

(** The bookkeeping after the operation makes no request. *)
Lemma makeAuthenticatedRequest_trace {T} (operation : Prog (Response.t T))
    (w : World) :
  Run.trace (run h (makeAuthenticatedRequest operation) w) =
  Run.trace (run h getAuthenticatedSession w)
  ++ match Run.outcome (run h getAuthenticatedSession w) with
     | inl _ => []
     | inr _ =>
         Run.trace
           (run h operation (Run.final (run h getAuthenticatedSession w)))
     end.
Proof.
  unfold makeAuthenticatedRequest. rewrite run_bind_trace. f_equal.
  destruct (Run.outcome (run h getAuthenticatedSession w)); [reflexivity|].
  rewrite run_bind_trace.
  destruct (Run.outcome (run h operation _)) as [e|r]; simpl.
  - apply app_nil_r.
  - destruct (Response.error r).
    + destruct (_ || _); [apply app_nil_r|].
      destruct (_ || _); apply app_nil_r.
    + destruct (Response.data r); apply app_nil_r.
Qed.

Lemma inserted_rows_app (t1 t2 : list Event) :
  inserted_rows (t1 ++ t2) = inserted_rows t1 ++ inserted_rows t2.
Proof.
  unfold inserted_rows, actions. rewrite map_app. apply flat_map_app.
Qed.

Lemma submitted_patches_app (t1 t2 : list Event) :
  submitted_patches (t1 ++ t2) = submitted_patches t1 ++ submitted_patches t2.
Proof.
  unfold submitted_patches, actions. rewrite map_app. apply flat_map_app.
Qed.

Lemma no_notes_call_inserted (tr : list Event) :
  no_notes_call tr = true -> inserted_rows tr = [].
Proof.
  unfold no_notes_call, inserted_rows.
  induction (actions tr) as [|a l IH]; simpl; [reflexivity|].
  intro E. apply andb_prop in E. destruct E as [Ea El].
  rewrite (IH El). destruct a; try reflexivity; discriminate.
Qed.

Lemma no_notes_call_patches (tr : list Event) :
  no_notes_call tr = true -> submitted_patches tr = [].
Proof.
  unfold no_notes_call, submitted_patches.
  induction (actions tr) as [|a l IH]; simpl; [reflexivity|].
  intro E. apply andb_prop in E. destruct E as [Ea El].
  rewrite (IH El). destruct a; try reflexivity; discriminate.
Qed.

(** [createNote]'s operation submits the trimmed values, once, or nothing
    when its session check fails. *)
Lemma createNote_operation_inserted (title content : JsString.t)
    (w : World) :
  let R := run h (notesApi.createNote_operation title content) w in
  (inserted_rows (Run.trace R) = [] /\ exists e, Run.outcome R = inl e)
  \/ exists uid,
       inserted_rows (Run.trace R)
       = [NewNote.mk (JsString.trim title) (JsString.trim content) uid].
Proof.
  intro R. unfold R, notesApi.createNote_operation.
  rewrite run_bind_trace, run_bind_outcome, inserted_rows_app.
  rewrite (no_notes_call_inserted _
             (getAuthenticatedSession_no_notes_call h w)).
  destruct (Run.outcome (run h getAuthenticatedSession w)) as [e|s];
    [left; eauto|].
  unfold session_user_id. destruct (Session.user s) as [u|]; simpl;
    [|left; eauto].
  destruct (h _ _) as [r w']. simpl. right. eexists. reflexivity.
Qed.

Lemma updateNote_operation_patches (id : string)
    (title content : JsString.t) (w : World) :
  let R := run h (notesApi.updateNote_operation id title content) w in
  (submitted_patches (Run.trace R) = [] /\ exists e, Run.outcome R = inl e)
  \/ exists ms,
       submitted_patches (Run.trace R)
       = [NotePatch.mk (JsString.trim title) (JsString.trim content) ms].
Proof.
  intro R. unfold R, notesApi.updateNote_operation.
  rewrite run_bind_trace, run_bind_outcome, submitted_patches_app.
  rewrite (no_notes_call_patches _
             (getAuthenticatedSession_no_notes_call h w)).
  destruct (Run.outcome (run h getAuthenticatedSession w)) as [e|s];
    [left; eauto|].
  simpl. destruct (h _ DateNow) as [ms w1]. simpl.
  unfold session_user_id. destruct (Session.user s) as [u|]; simpl;
    [|left; eauto].
  destruct (h _ _) as [r w']. simpl. right. eexists. reflexivity.
Qed.

End Submitted.

Section SubmittedByFacade.

Context {World : Type} (h : Handler World).

Lemma makeAuthenticatedRequest_throws_if_operation_throws {T}
    (operation : Prog (Response.t T)) (w : World) :
  (forall s, Run.outcome (run h getAuthenticatedSession w) = inr s ->
             exists e,
               Run.outcome
                 (run h operation
                      (Run.final (run h getAuthenticatedSession w))) = inl e) ->
  exists e, Run.outcome (run h (makeAuthenticatedRequest operation) w) = inl e.
Proof.
  intro H.
  destruct (Run.outcome (run h (makeAuthenticatedRequest operation) w))
    as [e|x] eqn:E; [eauto|].
  destruct (makeAuthenticatedRequest_returns h operation w x E)
    as (s & r & S & O & _).
  destruct (H s S) as [e E']. congruence.
Qed.

Lemma createNote_inserted (title content : JsString.t) (w : World) :
  let R := run h (notesApi.createNote title content) w in
  (inserted_rows (Run.trace R) = [] /\ exists e, Run.outcome R = inl e)
  \/ exists uid,
       inserted_rows (Run.trace R)
       = [NewNote.mk (JsString.trim title) (JsString.trim content) uid].
Proof.
  intro R. unfold R, notesApi.createNote.
  destruct (JsString.falsy _); [left; simpl; eauto|].
  destruct (_ >? 100); [left; simpl; eauto|].
  destruct (_ >? 10000); [left; simpl; eauto|].
  rewrite makeAuthenticatedRequest_trace, inserted_rows_app.
  rewrite (no_notes_call_inserted _
             (getAuthenticatedSession_no_notes_call h w)).
  rewrite app_nil_l.
  destruct (Run.outcome (run h getAuthenticatedSession w)) as [e|s] eqn:S.
  - left. split; [reflexivity|].
    rewrite (makeAuthenticatedRequest_session_fails h _ w e S).
    exists e. reflexivity.
  - destruct (createNote_operation_inserted h title content
                (Run.final (run h getAuthenticatedSession w)))
      as [[N [e E]] | [uid U]].
    + left. split; [exact N|].
      apply makeAuthenticatedRequest_throws_if_operation_throws. eauto.
    + right. eauto.
Qed.

Lemma updateNote_patches (id : string) (title content : JsString.t)
    (w : World) :
  let R := run h (notesApi.updateNote id title content) w in
  (submitted_patches (Run.trace R) = [] /\ exists e, Run.outcome R = inl e)
  \/ exists ms,
       submitted_patches (Run.trace R)
       = [NotePatch.mk (JsString.trim title) (JsString.trim content) ms].
Proof.
  intro R. unfold R, notesApi.updateNote.
  destruct (str_falsy id); [left; simpl; eauto|].
  destruct (JsString.falsy _); [left; simpl; eauto|].
  destruct (_ >? 100); [left; simpl; eauto|].
  destruct (_ >? 10000); [left; simpl; eauto|].
  rewrite makeAuthenticatedRequest_trace, submitted_patches_app.
  rewrite (no_notes_call_patches _
             (getAuthenticatedSession_no_notes_call h w)).
  rewrite app_nil_l.
  destruct (Run.outcome (run h getAuthenticatedSession w)) as [e|s] eqn:S.
  - left. split; [reflexivity|].
    rewrite (makeAuthenticatedRequest_session_fails h _ w e S).
    exists e. reflexivity.
  - destruct (updateNote_operation_patches h id title content
                (Run.final (run h getAuthenticatedSession w)))
      as [[N [e E]] | [ms U]].
    + left. split; [exact N|].
      apply makeAuthenticatedRequest_throws_if_operation_throws. eauto.
    + right. eauto.
Qed.

Lemma over_limit_rejected (id : string) (title content : JsString.t)
    (w : World) :
  JsString.length title > 100 \/ JsString.length content > 10000 ->
  (exists e,
      run h (notesApi.createNote title content) w = Run.mk (inl e) w []
      /\ kind e = ValidationError)
  /\ (exists e,
         run h (notesApi.updateNote id title content) w = Run.mk (inl e) w []
         /\ kind e = ValidationError).
Proof.
  intro L.
  assert (T : (JsString.length title >? 100) = true
              \/ (JsString.length content >? 10000) = true)
    by (rewrite !Z.gtb_gt; exact L).
  unfold notesApi.createNote, notesApi.updateNote.
  destruct (str_falsy id), (JsString.falsy _), (_ >? 100), (_ >? 10000);
    simpl; try (split; eauto; fail).
  all: destruct T; discriminate.
Qed.

End SubmittedByFacade.

(** A session check that passes returns a session with a user. *)
Lemma getAuthenticatedSession_user {World} (h : Handler World) (w : World)
    (s : Session.t) :
  Run.outcome (run h getAuthenticatedSession w) = inr s ->
  exists u, Session.user s = Some u.
Proof.
  unfold getAuthenticatedSession, call. simpl.
  destruct (h w AuthGetSession) as [[s0 er] w1]. simpl.
  destruct er as [er|]; [discriminate|].
  destruct s0 as [s0|]; simpl; [|discriminate].
  destruct (str_falsy (Session.access_token s0)); simpl; [discriminate|].
  destruct (Session.user s0) as [u|] eqn:U; simpl; [|discriminate].
  destruct (h w1 DateNow) as [ms w2]. simpl.
  destruct (expired (Session.expires_at s0) (ms / 1000)); simpl;
    [discriminate|].
  intro E. injection E as <-. eauto.
Qed.

Section Submission.

Context {World : Type} (h : Handler World).

(** With valid input and both session checks passing, [createNote]
    submits one row: the trimmed values under the session's user id. *)
Lemma createNote_submits (title content : JsString.t) (w : World)
    (s1 s2 : Session.t) :
  let w1 := Run.final (run h getAuthenticatedSession w) in
  valid_note_input title content ->
  Run.outcome (run h getAuthenticatedSession w) = inr s1 ->
  Run.outcome (run h getAuthenticatedSession w1) = inr s2 ->
  exists u,
    Session.user s2 = Some u
    /\ inserted_rows (Run.trace (run h (notesApi.createNote title content) w))
       = [NewNote.mk (JsString.trim title) (JsString.trim content)
            (User.id u)].
Proof.
  intros w1 V S1 S2.
  destruct (getAuthenticatedSession_user h w1 s2 S2) as [u U].
  exists u. split; [exact U|].
  apply valid_note_input_tests in V. destruct V as (T & L1 & L2).
  unfold notesApi.createNote. rewrite T, L1, L2.
  rewrite makeAuthenticatedRequest_trace, inserted_rows_app, S1.
  rewrite (no_notes_call_inserted _
             (getAuthenticatedSession_no_notes_call h w)).
  rewrite app_nil_l. fold w1.
  unfold notesApi.createNote_operation.
  rewrite run_bind_trace, inserted_rows_app, S2.
  rewrite (no_notes_call_inserted _
             (getAuthenticatedSession_no_notes_call h w1)).
  rewrite app_nil_l.
  unfold session_user_id. rewrite U. simpl.
  destruct (h _ _) as [r w']. reflexivity.
Qed.

(** Likewise [updateNote] submits one patch: the trimmed values and the
    time read after the second session check. *)
Lemma updateNote_submits (id : string) (title content : JsString.t)
    (w : World) (s1 s2 : Session.t) :
  let w1 := Run.final (run h getAuthenticatedSession w) in
  let w2 := Run.final (run h getAuthenticatedSession w1) in
  id <> EmptyString ->
  valid_note_input title content ->
  Run.outcome (run h getAuthenticatedSession w) = inr s1 ->
  Run.outcome (run h getAuthenticatedSession w1) = inr s2 ->
  submitted_patches
    (Run.trace (run h (notesApi.updateNote id title content) w))
  = [NotePatch.mk (JsString.trim title) (JsString.trim content)
       (fst (h w2 DateNow))].
Proof.
  intros w1 w2 I V S1 S2.
  destruct (getAuthenticatedSession_user h w1 s2 S2) as [u U].
  apply valid_note_input_tests in V. destruct V as (T & L1 & L2).
  unfold notesApi.updateNote.
  destruct (str_falsy id) eqn:F; [apply str_falsy_empty in F; contradiction|].
  rewrite T, L1, L2.
  rewrite makeAuthenticatedRequest_trace, submitted_patches_app, S1.
  rewrite (no_notes_call_patches _
             (getAuthenticatedSession_no_notes_call h w)).
  rewrite app_nil_l. fold w1.
  unfold notesApi.updateNote_operation.
  rewrite run_bind_trace, submitted_patches_app, S2.
  rewrite (no_notes_call_patches _
             (getAuthenticatedSession_no_notes_call h w1)).
  rewrite app_nil_l. fold w2.
  unfold call. simpl. destruct (h w2 DateNow) as [ms w3]. simpl.
  unfold session_user_id. rewrite U. simpl.
  destruct (h _ _) as [r w']. reflexivity.
Qed.

End Submission.

(** C10.  Against every handler, the row [createNote] submits and the
    patch [updateNote] submits carry the trimmed title and the trimmed
    content, and a call that returns has submitted exactly one of them;
    the two length limits are tested on the inputs as given, so a title
    longer than 100 or a content longer than 10,000 is rejected with a
    validation error before any request, whatever its trimmed length.
    And the values are submitted: with input inside the limits (and a
    non-empty id for the update), whenever the two session checks of the
    call pass, [createNote] hands the collection exactly one row, made of
    the trimmed title, the trimmed content and the session's user id, and
    [updateNote] exactly one patch, made of the trimmed title, the
    trimmed content and the time then read. *)
Theorem trimmed_values_untrimmed_limits :
  forall (World : Type) (h : Handler World) (w : World) (id : string)
         (title content : JsString.t),
    let Rc := run h (notesApi.createNote title content) w in
    let Ru := run h (notesApi.updateNote id title content) w in
    let w1 := Run.final (run h getAuthenticatedSession w) in
    let w2 := Run.final (run h getAuthenticatedSession w1) in
    (forall row, In row (inserted_rows (Run.trace Rc)) ->
                 NewNote.title row = JsString.trim title
                 /\ NewNote.content row = JsString.trim content)
    /\ (forall n, Run.outcome Rc = inr n ->
                  exists row, inserted_rows (Run.trace Rc) = [row])
    /\ (forall p, In p (submitted_patches (Run.trace Ru)) ->
                  NotePatch.title p = JsString.trim title
                  /\ NotePatch.content p = JsString.trim content)
    /\ (forall n, Run.outcome Ru = inr n ->
                  exists p, submitted_patches (Run.trace Ru) = [p])
    /\ (JsString.length title > 100 \/ JsString.length content > 10000 ->
        (exists e, Rc = Run.mk (inl e) w [] /\ kind e = ValidationError)
        /\ (exists e, Ru = Run.mk (inl e) w [] /\ kind e = ValidationError))
    /\ (valid_note_input title content ->
        forall s1 s2,
          Run.outcome (run h getAuthenticatedSession w) = inr s1 ->
          Run.outcome (run h getAuthenticatedSession w1) = inr s2 ->
          exists u,
            Session.user s2 = Some u
            /\ inserted_rows (Run.trace Rc)
               = [NewNote.mk (JsString.trim title) (JsString.trim content)
                    (User.id u)])
    /\ (id <> EmptyString ->
        valid_note_input title content ->
        forall s1 s2,
          Run.outcome (run h getAuthenticatedSession w) = inr s1 ->
          Run.outcome (run h getAuthenticatedSession w1) = inr s2 ->
          submitted_patches (Run.trace Ru)
          = [NotePatch.mk (JsString.trim title) (JsString.trim content)
               (fst (h w2 DateNow))]).
Proof.
  intros World h w id title content Rc Ru w1 w2.
  pose proof (createNote_inserted h title content w) as C.
  pose proof (updateNote_patches h id title content w) as U.
  fold Rc in C. fold Ru in U. simpl in C, U.
  split; [|split; [|split; [|split; [|split; [|split]]]]].
  - intros row H. destruct C as [[N _] | [uid E]]; rewrite ?N, ?E in H;
      simpl in H; [tauto|]. destruct H as [<- | []]. split; reflexivity.
  - intros n E. destruct C as [[_ [e E']] | [uid I]]; [congruence|eauto].
  - intros p H. destruct U as [[N _] | [ms E]]; rewrite ?N, ?E in H;
      simpl in H; [tauto|]. destruct H as [<- | []]. split; reflexivity.
  - intros n E. destruct U as [[_ [e E']] | [ms I]]; [congruence|eauto].
  - intro L. apply (over_limit_rejected h id title content w). assumption.
  - intros V s1 s2 S1 S2.
    exact (createNote_submits h title content w s1 s2 V S1 S2).
  - intros I V s1 s2 S1 S2.
    exact (updateNote_submits h id title content w s1 s2 I V S1 S2).
Qed.

(** A title of one letter followed by 100 spaces: one code unit once
    trimmed, 101 as given, and rejected.  A title and a content given
    with blanks around them, signed in: the row and the patch submitted
    carry them without the blanks, and so does the table afterwards. *)
Lemma trimmed_values_untrimmed_limits_witness :
  let title := JsString.of_string "a" ++ JsString.replicate 100%N " " in
  let given := JsString.of_string "  hi " in
  let text := JsString.of_string " text  " in
  let Rc := run Db.handler (notesApi.createNote given text) Sample.world in
  let Ru := run Db.handler (notesApi.updateNote "n1" given text)
                Sample.world in
  (JsString.length (JsString.trim title) = 1
   /\ JsString.length title = 101
   /\ exists e,
        run Db.handler
            (notesApi.createNote title (JsString.of_string "x")) Sample.world
        = Run.mk (inl e) Sample.world []
        /\ kind e = ValidationError)
  /\ inserted_rows (Run.trace Rc)
     = [NewNote.mk (JsString.of_string "hi") (JsString.of_string "text")
          "alice"]
  /\ submitted_patches (Run.trace Ru)
     = [NotePatch.mk (JsString.of_string "hi") (JsString.of_string "text")
          1000000]
  /\ In (JsString.of_string "hi", JsString.of_string "text")
        (map (fun n => (Note.title n, Note.content n))
             (Db.rows (Run.final Rc)))
  /\ In (JsString.of_string "hi", JsString.of_string "text")
        (map (fun n => (Note.title n, Note.content n))
             (Db.rows (Run.final Ru))).
Proof.
  cbv zeta.
  pose proof (trimmed_values_untrimmed_limits
                Db.World Db.handler Sample.world "n1") as T.
  cbv zeta in T.
  assert (V : valid_note_input (JsString.of_string "  hi ")
                (JsString.of_string " text  "))
    by (unfold valid_note_input; vm_compute;
        repeat split; discriminate).
  split; [|split; [|split; [|split]]].
  - split; [vm_compute; reflexivity|].
    split; [vm_compute; reflexivity|].
    apply (T (JsString.of_string "a" ++ JsString.replicate 100%N " ")
             (JsString.of_string "x")).
    left. vm_compute. reflexivity.
  - destruct (proj1 (proj2 (proj2 (proj2 (proj2 (proj2
                (T (JsString.of_string "  hi ")
                   (JsString.of_string " text  "))))))) V _ _
                eq_refl eq_refl) as (u & U & E).
    injection U as <-. exact E.
  - exact (proj2 (proj2 (proj2 (proj2 (proj2 (proj2
             (T (JsString.of_string "  hi ")
                (JsString.of_string " text  "))))))) ltac:(discriminate)
             V _ _ eq_refl eq_refl).
  - vm_compute. auto.
  - vm_compute. auto.
Defined.

(* ------------------------------------------------------------------ *)
(** ** The session gate *)

Section SessionGate.

Context {World : Type} (h : Handler World).

Lemma expired_false (exp : option Z) (now : Z) :
  expired exp now = false <->
  forall e, exp = Some e -> e = 0 \/ now <= e.
Proof.
  unfold expired. destruct exp as [e|].
  - rewrite Bool.andb_false_iff, Bool.negb_false_iff, Z.eqb_eq, Z.ltb_ge.
    split.
    + intros H e' E. injection E as <-. exact H.
    + intro H. apply H. reflexivity.
  - split; [discriminate | reflexivity].
Qed.

(** The session check passes exactly on the answers described by
    [valid_session]. *)
Lemma getAuthenticatedSession_passes_iff (w : World) :
  (exists s, Run.outcome (run h getAuthenticatedSession w) = inr s)
  <-> valid_session (first_session h w) (first_clock h w).
Proof.
  unfold valid_session, first_session, first_clock, getAuthenticatedSession,
    call.
  simpl. destruct (h w AuthGetSession) as [[s er] w1]. simpl.
  destruct er as [er|].
  { simpl. split; [intros [s' E]; discriminate | intros [E _]; discriminate]. }
  destruct s as [s|]; simpl.
  2:{ split; [intros [s' E]; discriminate|].
      intros (_ & s & u & E & _). discriminate. }
  destruct (str_falsy (Session.access_token s)) eqn:T; simpl.
  { apply str_falsy_empty in T.
    split; [intros [s' E]; discriminate|].
    intros (_ & s' & u & E & N & _). injection E as <-. contradiction. }
  destruct (Session.user s) as [u|] eqn:U; simpl.
  2:{ split; [intros [s' E]; discriminate|].
      intros (_ & s' & u & E & _ & U' & _). injection E as <-. congruence. }
  destruct (h w1 DateNow) as [ms w2]. simpl.
  destruct (expired (Session.expires_at s) (ms / 1000)) eqn:X; simpl.
  - split; [intros [s' E]; discriminate|].
    intros (_ & s' & u' & E & _ & _ & V). injection E as <-.
    apply expired_false in V. congruence.
  - split; [|eauto]. intros _. split; [reflexivity|].
    exists s, u. repeat split; try assumption.
    + intro E. rewrite <- str_falsy_empty in E. congruence.
    + apply expired_false. exact X.
Qed.

Lemma invalid_session_throws (w : World) :
  ~ valid_session (first_session h w) (first_clock h w) ->
  exists e,
    Run.outcome (run h getAuthenticatedSession w) = inl e
    /\ kind e = SessionError.
Proof.
  intro N.
  destruct (Run.outcome (run h getAuthenticatedSession w)) as [e|s] eqn:E.
  - exists e. split; [reflexivity|].
    apply (getAuthenticatedSession_kind h w e E).
  - exfalso. apply N. apply getAuthenticatedSession_passes_iff. eauto.
Qed.

(** Without a valid session the request stops at the session check. *)
Lemma makeAuthenticatedRequest_gated {T} (operation : Prog (Response.t T))
    (w : World) :
  ~ valid_session (first_session h w) (first_clock h w) ->
  let R := run h (makeAuthenticatedRequest operation) w in
  no_notes_call (Run.trace R) = true
  /\ exists e, Run.outcome R = inl e /\ kind e = SessionError.
Proof.
  intros N R. destruct (invalid_session_throws w N) as (e & E & K).
  unfold R. rewrite (makeAuthenticatedRequest_session_fails h _ w e E).
  simpl. split; [apply getAuthenticatedSession_no_notes_call|eauto].
Qed.

Lemma then_gated {A B} (p : Prog A) (f : A -> Prog B) (w : World) :
  (no_notes_call (Run.trace (run h p w)) = true
   /\ exists e, Run.outcome (run h p w) = inl e /\ kind e = SessionError) ->
  no_notes_call (Run.trace (run h (bind p f) w)) = true
  /\ exists e, Run.outcome (run h (bind p f) w) = inl e
               /\ kind e = SessionError.
Proof.
  intros (N & e & E & K). rewrite run_bind, E. simpl. eauto.
Qed.

End SessionGate.

(** A failed input test: the input is not valid and the call has thrown
    a validation error on the spot. *)
Ltac rejected :=
  right; split;
  [ intuition congruence | eexists; split; reflexivity ].

(** Without a valid first answer every operation stops short of the
    Notes collection. *)
Lemma invalid_session_outcome :
  forall (World : Type) (h : Handler World) (w : World) (op : FacadeOp),
    ~ valid_session (first_session h w) (first_clock h w) ->
    let R := run h (perform op) w in
    no_notes_call (Run.trace R) = true
    /\ exists e,
         Run.outcome R = inl e
         /\ (input_ok op -> kind e = SessionError)
         /\ (~ input_ok op -> kind e = ValidationError /\ Run.trace R = []).
Proof.
  intros World h w op N R.
  assert (G : input_ok op ->
              no_notes_call (Run.trace R) = true
              /\ exists e, Run.outcome R = inl e /\ kind e = SessionError).
  { intro V. unfold R.
    destruct op as [|title content|id title content|id];
      cbn [perform input_ok] in V |- *.
    - apply then_gated, makeAuthenticatedRequest_gated, N.
    - apply valid_note_input_tests in V. destruct V as (F1 & F2 & F3).
      unfold notesApi.createNote. rewrite F1, F2, F3.
      apply then_gated, makeAuthenticatedRequest_gated, N.
    - destruct V as [I V].
      apply valid_note_input_tests in V. destruct V as (F1 & F2 & F3).
      rewrite <- str_falsy_empty, Bool.not_true_iff_false in I.
      unfold notesApi.updateNote. rewrite I, F1, F2, F3.
      apply then_gated, makeAuthenticatedRequest_gated, N.
    - rewrite <- str_falsy_empty, Bool.not_true_iff_false in V.
      unfold notesApi.deleteNote. rewrite V.
      apply then_gated, then_gated, makeAuthenticatedRequest_gated, N. }
  assert (D : input_ok op
              \/ (~ input_ok op
                  /\ exists e, R = Run.mk (inl e) w []
                               /\ kind e = ValidationError)).
  { unfold R.
    destruct op as [|title content|id title content|id];
      cbn [perform input_ok].
    - left; exact I.
    - rewrite valid_note_input_tests. unfold notesApi.createNote.
      destruct (JsString.falsy _); [rejected|].
      destruct (_ >? 100); [rejected|].
      destruct (_ >? 10000); [rejected|].
      left; auto.
    - rewrite valid_note_input_tests, <- str_falsy_empty,
        Bool.not_true_iff_false.
      unfold notesApi.updateNote.
      destruct (str_falsy id); [rejected|].
      destruct (JsString.falsy _); [rejected|].
      destruct (_ >? 100); [rejected|].
      destruct (_ >? 10000); [rejected|].
      left; auto.
    - rewrite <- str_falsy_empty, Bool.not_true_iff_false.
      unfold notesApi.deleteNote.
      destruct (str_falsy id); [rejected|].
      left; reflexivity. }
  destruct D as [V | (NV & e & E & K)].
  - destruct (G V) as (T & e & E & K). split; [exact T|].
    exists e. split; [exact E|]. split; [auto | contradiction].
  - rewrite E. simpl. split; [reflexivity|].
    exists e. split; [reflexivity|]. split; [contradiction | auto].
Qed.

Section AnyNotesCall.

Context {World : Type} (h : Handler World).

(** A program that starts with the session check reaches the Notes
    collection only past it. *)
Lemma gated_by_session {T} (k : Session.t -> Prog T) (w : World) :
  no_notes_call (Run.trace (run h (bind getAuthenticatedSession k) w))
  = false ->
  valid_session (first_session h w) (first_clock h w).
Proof.
  rewrite run_bind_trace, no_notes_call_app,
    getAuthenticatedSession_no_notes_call, Bool.andb_true_l. intro N.
  apply getAuthenticatedSession_passes_iff.
  destruct (Run.outcome (run h getAuthenticatedSession w)) as [e|s];
    [discriminate | eauto].
Qed.

Lemma makeAuthenticatedRequest_gated_twice {T}
    (k : Session.t -> Prog (Response.t T)) (w : World) :
  no_notes_call
    (Run.trace
       (run h (makeAuthenticatedRequest (bind getAuthenticatedSession k)) w))
  = false ->
  valid_session (first_session h w) (first_clock h w)
  /\ valid_session
       (first_session h (Run.final (run h getAuthenticatedSession w)))
       (first_clock h (Run.final (run h getAuthenticatedSession w))).
Proof.
  intro N. split.
  - exact (gated_by_session _ w N).
  - rewrite makeAuthenticatedRequest_trace, no_notes_call_app,
      getAuthenticatedSession_no_notes_call, Bool.andb_true_l in N.
    destruct (Run.outcome (run h getAuthenticatedSession w)) as [e|s];
      [discriminate|].
    exact (gated_by_session _ _ N).
Qed.

Lemma then_trace_no_notes {A B} (p : Prog A) (x : A -> B) (w : World) :
  no_notes_call (Run.trace (run h (bind p (fun a => Ret (x a))) w))
  = no_notes_call (Run.trace (run h p w)).
Proof.
  rewrite run_bind_trace.
  destruct (Run.outcome (run h p w)); simpl; rewrite app_nil_r; reflexivity.
Qed.

Lemma perform_gated_twice (op : FacadeOp) (w : World) :
  no_notes_call (Run.trace (run h (perform op) w)) = false ->
  valid_session (first_session h w) (first_clock h w)
  /\ valid_session
       (first_session h (Run.final (run h getAuthenticatedSession w)))
       (first_clock h (Run.final (run h getAuthenticatedSession w))).
Proof.
  destruct op as [|title content|id title content|id]; cbn [perform].
  - rewrite then_trace_no_notes.
    apply makeAuthenticatedRequest_gated_twice.
  - rewrite then_trace_no_notes. unfold notesApi.createNote.
    destruct (JsString.falsy _); [discriminate|].
    destruct (_ >? 100); [discriminate|].
    destruct (_ >? 10000); [discriminate|].
    apply makeAuthenticatedRequest_gated_twice.
  - rewrite then_trace_no_notes. unfold notesApi.updateNote.
    destruct (str_falsy id); [discriminate|].
    destruct (JsString.falsy _); [discriminate|].
    destruct (_ >? 100); [discriminate|].
    destruct (_ >? 10000); [discriminate|].
    apply makeAuthenticatedRequest_gated_twice.
  - rewrite then_trace_no_notes. unfold notesApi.deleteNote.
    destruct (str_falsy id); [discriminate|].
    rewrite then_trace_no_notes.
    apply makeAuthenticatedRequest_gated_twice.
Qed.

End AnyNotesCall.

(** C5, as the code has it.  Against every handler, when the first
    [getSession] answer is not a valid session (an error, no session, an
    empty token, no user, or an expiry that is present, non-zero and
    before the current second), every facade operation throws without any
    request on the Notes collection: a session error when its input
    passes validation, and otherwise a validation error raised before the
    session is looked at, with no request at all.  And whenever a run
    does make a request on the Notes collection, both session checks that
    precede it were answered by a valid session. *)
Theorem no_notes_call_without_valid_session :
  forall (World : Type) (h : Handler World) (w : World) (op : FacadeOp),
    let R := run h (perform op) w in
    (~ valid_session (first_session h w) (first_clock h w) ->
     no_notes_call (Run.trace R) = true
     /\ exists e,
          Run.outcome R = inl e
          /\ (input_ok op -> kind e = SessionError)
          /\ (~ input_ok op -> kind e = ValidationError /\ Run.trace R = []))
    /\ (no_notes_call (Run.trace R) = false ->
        valid_session (first_session h w) (first_clock h w)
        /\ valid_session
             (first_session h (Run.final (run h getAuthenticatedSession w)))
             (first_clock h (Run.final (run h getAuthenticatedSession w)))).
Proof.
  intros World h w op R. split.
  - apply invalid_session_outcome.
  - apply perform_gated_twice.
Qed.

(** Nobody is signed in and the list is asked for. *)
Lemma no_notes_call_without_valid_session_witness :
  let R := run Db.handler (perform OpList) Sample.signed_out in
  no_notes_call (Run.trace R) = true
  /\ exists e,
       Run.outcome R = inl e
       /\ (input_ok OpList -> kind e = SessionError)
       /\ (~ input_ok OpList -> kind e = ValidationError /\ Run.trace R = []).
Proof.
  apply (proj1 (no_notes_call_without_valid_session
                  Db.World Db.handler Sample.signed_out OpList)).
  intros (_ & s & u & E & _). vm_compute in E. discriminate E.
Defined.

(** C5 as stated fails: with nobody signed in, [create("", "x")] throws
    the validation error, not a session error; and a session whose expiry
    is the number [0], long before the clock's reading, is let through to
    the list request. *)
Lemma session_error_whenever_no_session_counterexample :
  ~ valid_session (first_session Db.handler Sample.signed_out)
                  (first_clock Db.handler Sample.signed_out)
  /\ Run.outcome
       (run Db.handler
            (perform (OpCreate (JsString.of_string "")
                               (JsString.of_string "x")))
            Sample.signed_out)
     = inl TitleRequired
  /\ kind TitleRequired <> SessionError
  /\ option_map Session.expires_at
       (SessionResponse.session (Db.auth Sample.expiry_zero))
     = Some (Some 0)
  /\ 0 < Db.clock Sample.expiry_zero / 1000
  /\ actions (Run.trace (run Db.handler (perform OpList) Sample.expiry_zero))
     = [AuthGetSession; DateNow; AuthGetSession; DateNow;
        NotesSelectAllOrderByUpdatedAt false].
Proof.
  split.
  { intros (_ & s & u & E & _). vm_compute in E. discriminate E. }
  split; [vm_compute; reflexivity|].
  split; [discriminate|].
  split; [reflexivity|].
  split; [vm_compute; reflexivity|].
  vm_compute. reflexivity.
Qed.

(* ------------------------------------------------------------------ *)
(** ** Error translation *)

Lemma code_is_true (e : PgError.t) (c : string) :
  code_is e c = true <-> PgError.code e = Some c.
Proof.
  unfold code_is. destruct (PgError.code e) as [c'|].
  - rewrite String.eqb_eq. split; congruence.
  - split; discriminate.
Qed.

Lemma message_includes_true (e : PgError.t) (needle : string) :
  message_includes e needle = true <->
  exists m, PgError.message e = Some m /\ includes m needle = true.
Proof.
  unfold message_includes. destruct (PgError.message e) as [m|].
  - split; [eauto|]. intros (m' & E & I). congruence.
  - split; [discriminate|]. intros (m' & E & _). discriminate.
Qed.

Lemma signals_invalid_token_test (e : PgError.t) :
  signals_invalid_token e <->
  code_is e "PGRST301" || message_includes e "JWT" = true.
Proof.
  unfold signals_invalid_token.
  rewrite Bool.orb_true_iff, code_is_true, message_includes_true.
  reflexivity.
Qed.

Lemma signals_row_security_denial_test (e : PgError.t) :
  signals_row_security_denial e <->
  code_is e "PGRST116" || message_includes e "RLS" = true.
Proof.
  unfold signals_row_security_denial.
  rewrite Bool.orb_true_iff, code_is_true, message_includes_true.
  reflexivity.
Qed.

(** C6, as the code has it.  Once the session check has passed and the
    operation has come back with a remote error, the request throws: the
    authentication failure if the error signals an invalid token; else the
    access denial if it signals a row-security denial; else a remote
    failure whose message is the remote message when there is one and it
    is not empty, and the fixed text [default_message] otherwise. *)
Theorem remote_error_translation :
  forall (World : Type) (h : Handler World) (w : World) (T : Type)
         (operation : Prog (Response.t T)) (s : Session.t)
         (r : Response.t T) (e : PgError.t),
    Run.outcome (run h getAuthenticatedSession w) = inr s ->
    Run.outcome
      (run h operation (Run.final (run h getAuthenticatedSession w)))
    = inr r ->
    Response.error r = Some e ->
    let out := Run.outcome (run h (makeAuthenticatedRequest operation) w) in
    (signals_invalid_token e ->
     out = inl AuthenticationFailed /\ kind AuthenticationFailed = AuthError)
    /\ (~ signals_invalid_token e -> signals_row_security_denial e ->
        out = inl AccessDenied /\ kind AccessDenied = AccessDeniedError)
    /\ (~ signals_invalid_token e -> ~ signals_row_security_denial e ->
        exists m,
          out = inl (RemoteFailure m)
          /\ kind (RemoteFailure m) = RemoteError
          /\ message (RemoteFailure m) = m
          /\ (forall m0, PgError.message e = Some m0 -> m0 <> "" -> m = m0)
          /\ (PgError.message e = None \/ PgError.message e = Some "" ->
              m = default_message)).
Proof.
  intros World h w T operation s r e S O E out.
  assert (X : out =
              if code_is e "PGRST301" || message_includes e "JWT"
              then inl AuthenticationFailed
              else if code_is e "PGRST116" || message_includes e "RLS"
              then inl AccessDenied
              else inl (RemoteFailure
                          (match PgError.message e with
                           | Some m => str_or m default_message
                           | None => default_message
                           end))).
  { unfold out, makeAuthenticatedRequest.
    rewrite run_bind_outcome, S, run_bind_outcome, O, E.
    destruct (_ || _); [reflexivity|]. destruct (_ || _); reflexivity. }
  rewrite signals_invalid_token_test, signals_row_security_denial_test.
  rewrite X. clear X.
  destruct (code_is e "PGRST301" || message_includes e "JWT").
  { split; [auto|]. split; intro; congruence. }
  destruct (code_is e "PGRST116" || message_includes e "RLS").
  { split; [discriminate|]. split; [auto|]. intros _ F. congruence. }
  split; [discriminate|]. split; [discriminate|]. intros _ _.
  eexists. split; [reflexivity|]. split; [reflexivity|].
  split; [reflexivity|]. split.
  - intros m0 M N. rewrite M. unfold str_or.
    destruct m0; [contradiction|reflexivity].
  - intros [M | M]; rewrite M; reflexivity.
Qed.

(** The remote answers the list request with an expired-token error. *)
Lemma remote_error_translation_witness :
  let e := PgError.mk (Some "PGRST301") (Some "JWT expired") in
  Run.outcome (run Db.handler notesApi.getNotes (Sample.with_fault e))
  = inl AuthenticationFailed.
Proof.
  pose (e := PgError.mk (Some "PGRST301") (Some "JWT expired")).
  refine (proj1 (proj1
    (remote_error_translation
       Db.World Db.handler (Sample.with_fault e) (list Note.t)
       notesApi.getNotes_operation
       (Session.mk "token" (Some Sample.alice) (Some 2000))
       (Response.mk None (Some e)) e _ _ _) _)).
  - vm_compute. reflexivity.
  - vm_compute. reflexivity.
  - reflexivity.
  - left. reflexivity.
Defined.

(** C6 as stated fails on a remote error whose message is the empty
    string: it signals neither an invalid token nor a row-security denial,
    and the error thrown carries the fixed text, not the remote message. *)
Lemma remote_message_not_verbatim_counterexample :
  let e := PgError.mk (Some "XX000") (Some "") in
  ~ signals_invalid_token e
  /\ ~ signals_row_security_denial e
  /\ exists t,
       Run.outcome (run Db.handler notesApi.getNotes (Sample.with_fault e))
       = inl t
       /\ kind t = RemoteError
       /\ PgError.message e <> Some (message t)
       /\ message t = "An error occurred while processing your request.".
Proof.
  split.
  { rewrite signals_invalid_token_test. vm_compute. discriminate. }
  split.
  { rewrite signals_row_security_denial_test. vm_compute. discriminate. }
  exists (RemoteFailure default_message).
  split; [vm_compute; reflexivity|].
  split; [reflexivity|].
  split; [vm_compute; discriminate|].
  reflexivity.
Qed.

(* ------------------------------------------------------------------ *)
(** ** The reference platform: sessions *)

Lemma Db_session_final (w : Db.World) :
  Run.final (run Db.handler getAuthenticatedSession w) = w.
Proof.
  unfold getAuthenticatedSession, call. simpl.
  destruct (Db.auth w) as [[s|] [e|]]; simpl; try reflexivity.
  destruct (str_falsy _); simpl; try reflexivity.
  destruct (Session.user s); simpl; try reflexivity.
  destruct (expired _ _); reflexivity.
Qed.

Lemma Db_session_signed_in (w : Db.World) (u : User.t) :
  Db.signed_in w u ->
  exists s,
    Run.outcome (run Db.handler getAuthenticatedSession w) = inr s
    /\ Session.user s = Some u.
Proof.
  intros (token & exp & A & T & X).
  unfold getAuthenticatedSession, call. simpl. rewrite A. simpl.
  destruct (str_falsy token) eqn:F.
  { apply str_falsy_empty in F. contradiction. }
  simpl. rewrite X. simpl. eauto.
Qed.

Lemma Db_signed_in_uid (w : Db.World) (u : User.t) :
  Db.signed_in w u -> Db.auth_uid w = Some (User.id u).
Proof.
  intros (token & exp & A & _). unfold Db.auth_uid. rewrite A. reflexivity.
Qed.

Lemma Db_targeted_inv (w : Db.World) (id uid : string) (n : Note.t) :
  Db.targeted w [Eq ColId id; Eq ColUserId uid] n = true ->
  Note.id n = id /\ Note.user_id n = uid /\ Db.auth_uid w = Some uid.
Proof.
  unfold Db.targeted, Db.policy, Db.matches. simpl.
  destruct (Db.auth_uid w) as [a|]; [|discriminate].
  rewrite !Bool.andb_true_iff, !String.eqb_eq.
  intros (P & I & U & _). subst. auto.
Qed.

Lemma single_data {A} (l : list A) (x : A) :
  Response.data (Db.single l) = Some x -> l = [x].
Proof.
  destruct l as [|y [|z l]]; simpl; try discriminate.
  intro E; injection E as <-. reflexivity.
Qed.

(* ------------------------------------------------------------------ *)
(** ** [verifyNoteOwnership] *)

(** C9.  Against every handler and from every world,
    [verifyNoteOwnership] returns a boolean and never throws; a failed
    session check yields [false]; and it returns [true] only when the
    session check passed and the remote answered the query on this id and
    this user's id with data and without error.  On the reference
    platform that happens only when the table holds a row with this id
    owned by the signed-in identity. *)
Theorem verifyNoteOwnership_never_throws :
  (forall (World : Type) (h : Handler World) (w : World) (noteId : string),
      let R := run h (notesApi.verifyNoteOwnership noteId) w in
      (exists b, Run.outcome R = inr b)
      /\ (forall e,
             Run.outcome (run h getAuthenticatedSession w) = inl e ->
             Run.outcome R = inr false)
      /\ (Run.outcome R = inr true ->
          exists s u,
            Run.outcome (run h getAuthenticatedSession w) = inr s
            /\ Session.user s = Some u
            /\ let resp :=
                 fst (h (Run.final (run h getAuthenticatedSession w))
                        (NotesSelectUserIdSingle
                           [Eq ColId noteId; Eq ColUserId (User.id u)])) in
               Response.error resp = None /\ Response.data resp <> None))
  /\ (forall (w : Db.World) (noteId : string),
         Run.outcome (run Db.handler (notesApi.verifyNoteOwnership noteId) w)
         = inr true ->
         exists n uid,
           Db.auth_uid w = Some uid
           /\ In n (Db.rows w)
           /\ Note.id n = noteId
           /\ Note.user_id n = uid).
Proof.
  assert (G : forall (World : Type) (h : Handler World) (w : World)
                     (noteId : string),
      let R := run h (notesApi.verifyNoteOwnership noteId) w in
      (exists b, Run.outcome R = inr b)
      /\ (forall e,
             Run.outcome (run h getAuthenticatedSession w) = inl e ->
             Run.outcome R = inr false)
      /\ (Run.outcome R = inr true ->
          exists s u,
            Run.outcome (run h getAuthenticatedSession w) = inr s
            /\ Session.user s = Some u
            /\ let resp :=
                 fst (h (Run.final (run h getAuthenticatedSession w))
                        (NotesSelectUserIdSingle
                           [Eq ColId noteId; Eq ColUserId (User.id u)])) in
               Response.error resp = None /\ Response.data resp <> None)).
  { intros World h w noteId R. unfold R, notesApi.verifyNoteOwnership.
    match goal with
    | |- context [try_catch ?b ?c] => set (body := b); set (handle := c)
    end.
    assert (B : Run.outcome (run h body w) =
                match Run.outcome (run h getAuthenticatedSession w) with
                | inl e => inl e
                | inr s =>
                    match Session.user s with
                    | None => inl JsTypeError
                    | Some u =>
                        let resp :=
                          fst (h (Run.final (run h getAuthenticatedSession w))
                                 (NotesSelectUserIdSingle
                                    [Eq ColId noteId;
                                     Eq ColUserId (User.id u)])) in
                        inr (negb (notesApi.is_some (Response.error resp))
                             && notesApi.is_some (Response.data resp))
                    end
                end).
    { unfold body. rewrite run_bind_outcome.
      destruct (Run.outcome (run h getAuthenticatedSession w)) as [e|s];
        [reflexivity|].
      unfold session_user_id. destruct (Session.user s) as [u|]; simpl;
        [|reflexivity].
      destruct (h _ _) as [resp w']. reflexivity. }
    destruct (Run.outcome (run h body w)) as [e|b] eqn:E.
    - rewrite (run_try_catch_throws h body handle w e E). simpl.
      split; [eauto|]. split; [reflexivity|]. discriminate.
    - rewrite (run_try_catch_returns h body handle w b E), E.
      split; [eauto|]. split.
      + intros e S. rewrite S in B. discriminate.
      + intro T. injection T as ->.
        destruct (Run.outcome (run h getAuthenticatedSession w)) as [e|s];
          [discriminate|].
        destruct (Session.user s) as [u|] eqn:U; [|discriminate].
        exists s, u. split; [reflexivity|]. split; [exact U|].
        simpl in B |- *. injection B as B. symmetry in B.
        apply andb_prop in B. destruct B as [B1 B2].
        destruct (Response.error _); [discriminate|].
        destruct (Response.data _); [|discriminate].
        split; [reflexivity|discriminate]. }
  split; [exact G|].
  intros w noteId T.
  destruct (G Db.World Db.handler w noteId) as (_ & _ & H).
  destruct (H T) as (s & u & S & U & N & D). clear H G.
  rewrite Db_session_final in N, D. simpl in N, D.
  unfold Db.select_user_id_single in N, D.
  destruct (Db.fault w); [discriminate N|]. simpl in N, D.
  destruct (Response.data _) as [x|] eqn:X; [|contradiction].
  apply single_data in X.
  destruct (filter _ (Db.rows w)) as [|n [|n' l]] eqn:F; try discriminate.
  assert (I : In n (filter
                      (Db.targeted w [Eq ColId noteId;
                                      Eq ColUserId (User.id u)])
                      (Db.rows w)))
    by (rewrite F; left; reflexivity).
  apply filter_In in I. destruct I as [I Tg].
  apply Db_targeted_inv in Tg. destruct Tg as (Tid & Tu & A).
  exists n, (User.id u). auto.
Qed.

(** Alice owns [n1]; the check answers [true] and the theorem names the
    row.  Bob's note, a signed-out world and a failing remote all answer
    [false]. *)
Lemma verifyNoteOwnership_never_throws_witness :
  exists n uid,
    Db.auth_uid Sample.world = Some uid
    /\ In n (Db.rows Sample.world)
    /\ Note.id n = "n1"
    /\ Note.user_id n = uid.
Proof.
  apply (proj2 verifyNoteOwnership_never_throws Sample.world "n1").
  vm_compute. reflexivity.
Defined.

Example verifyNoteOwnership_false_cases :
  Run.outcome (run Db.handler (notesApi.verifyNoteOwnership "n2")
                   Sample.world) = inr false
  /\ Run.outcome (run Db.handler (notesApi.verifyNoteOwnership "n1")
                      Sample.signed_out) = inr false
  /\ Run.outcome (run Db.handler (notesApi.verifyNoteOwnership "n1")
                      (Sample.with_fault (PgError.mk None (Some "down"))))
     = inr false.
Proof. repeat split; vm_compute; reflexivity. Qed.

(* ------------------------------------------------------------------ *)
(** ** The reference platform: ordering *)

Lemma insert_sorted_perm (asc : bool) (x : Note.t) (l : list Note.t) :
  Permutation (Db.insert_sorted asc x l) (x :: l).
Proof.
  induction l as [|y l IH]; simpl.
  - apply Permutation_refl.
  - destruct (Db.goes_first asc x y).
    + apply Permutation_refl.
    + eapply perm_trans; [apply perm_skip, IH | apply perm_swap].
Qed.

Lemma order_by_updated_at_perm (asc : bool) (l : list Note.t) :
  Permutation (Db.order_by_updated_at asc l) l.
Proof.
  induction l as [|x l IH]; simpl.
  - apply perm_nil.
  - eapply perm_trans; [apply insert_sorted_perm | apply perm_skip, IH].
Qed.

Lemma insert_sorted_descending (x : Note.t) (l : list Note.t) :
  Sorted newer_or_same l ->
  Sorted newer_or_same (Db.insert_sorted false x l).
Proof.
  induction l as [|y l IH]; simpl; intro S.
  - constructor; constructor.
  - destruct (Note.updated_at y <=? Note.updated_at x) eqn:C.
    + apply Z.leb_le in C. constructor; [exact S|].
      constructor. unfold newer_or_same. lia.
    + apply Z.leb_gt in C. inversion S as [|? ? S' Hd]; subst.
      constructor; [apply IH, S'|].
      destruct l as [|z l]; simpl.
      * constructor. unfold newer_or_same. lia.
      * destruct (Note.updated_at z <=? Note.updated_at x).
        -- constructor. unfold newer_or_same. lia.
        -- constructor. inversion Hd; assumption.
Qed.

Lemma order_by_updated_at_descending (l : list Note.t) :
  Sorted newer_or_same (Db.order_by_updated_at false l).
Proof.
  induction l as [|x l IH]; simpl.
  - constructor.
  - apply insert_sorted_descending, IH.
Qed.

(* ------------------------------------------------------------------ *)
(** ** The reference platform: the facade's requests *)

Lemma Db_policy_owned (w : Db.World) (u : User.t) (n : Note.t) :
  Db.signed_in w u -> Db.policy w n = owned_by u n.
Proof.
  intro S. unfold Db.policy. rewrite (Db_signed_in_uid w u S). reflexivity.
Qed.

Lemma Db_signed_in_set_rows (w : Db.World) (u : User.t) (l : list Note.t) :
  Db.signed_in w u -> Db.signed_in (Db.set_rows w l) u.
Proof. intro S. exact S. Qed.

(** In a signed-in world the request is its operation followed by the
    translation of the answer. *)
Lemma Db_makeAuthenticatedRequest {T} (operation : Prog (Response.t T))
    (w : Db.World) (u : User.t) (r : Response.t T) :
  Db.signed_in w u ->
  Run.outcome (run Db.handler operation w) = inr r ->
  Run.final (run Db.handler (makeAuthenticatedRequest operation) w)
  = Run.final (run Db.handler operation w)
  /\ Run.outcome (run Db.handler (makeAuthenticatedRequest operation) w)
     = match Response.error r with
       | Some error =>
           if code_is error "PGRST301" || message_includes error "JWT"
           then inl AuthenticationFailed
           else if code_is error "PGRST116" || message_includes error "RLS"
           then inl AccessDenied
           else inl (RemoteFailure
                       (match PgError.message error with
                        | Some m => str_or m default_message
                        | None => default_message
                        end))
       | None =>
           match Response.data r with
           | None => inl NoDataReturned
           | Some data => inr data
           end
       end.
Proof.
  intros S O. destruct (Db_session_signed_in w u S) as (s & E & _).
  unfold makeAuthenticatedRequest.
  rewrite run_bind, E. cbv beta iota zeta. rewrite Db_session_final.
  rewrite run_bind, O. cbv beta iota zeta.
  destruct (Response.error r) as [er|].
  - destruct (_ || _); [split; reflexivity|].
    destruct (_ || _); split; reflexivity.
  - destruct (Response.data r); split; reflexivity.
Qed.

Lemma Db_getNotes (w : Db.World) (u : User.t) :
  Db.signed_in w u -> Db.fault w = None ->
  Run.outcome (run Db.handler notesApi.getNotes w)
  = inr (Db.order_by_updated_at false (filter (owned_by u) (Db.rows w))).
Proof.
  intros S F. destruct (Db_session_signed_in w u S) as (s & E & _).
  assert (O : Run.outcome (run Db.handler notesApi.getNotes_operation w)
              = inr (Response.mk
                       (Some (Db.order_by_updated_at false
                                (filter (owned_by u) (Db.rows w)))) None)).
  { unfold notesApi.getNotes_operation.
    rewrite run_bind_outcome, E, Db_session_final. simpl.
    unfold Db.select_ordered. rewrite F. simpl.
    rewrite (filter_ext _ _ (fun n => Db_policy_owned w u n S)).
    reflexivity. }
  destruct (Db_makeAuthenticatedRequest _ w u _ S O) as [_ R].
  exact R.
Qed.

Lemma actions_app (t1 t2 : list Event) :
  actions (t1 ++ t2) = actions t1 ++ actions t2.
Proof. apply map_app. Qed.

Lemma Db_session_actions (w : Db.World) (u : User.t) :
  Db.signed_in w u ->
  actions (Run.trace (run Db.handler getAuthenticatedSession w))
  = [AuthGetSession; DateNow].
Proof.
  intros (token & exp & A & T & X).
  unfold getAuthenticatedSession, call. simpl. rewrite A. simpl.
  destruct (str_falsy token) eqn:F.
  { apply str_falsy_empty in F. contradiction. }
  simpl. rewrite X. reflexivity.
Qed.

Lemma Db_getNotes_actions (w : Db.World) (u : User.t) :
  Db.signed_in w u ->
  actions (Run.trace (run Db.handler notesApi.getNotes w))
  = [AuthGetSession; DateNow; AuthGetSession; DateNow;
     NotesSelectAllOrderByUpdatedAt false].
Proof.
  intro S. destruct (Db_session_signed_in w u S) as (s & E & _).
  unfold notesApi.getNotes, notesApi.getNotes_operation.
  rewrite makeAuthenticatedRequest_trace, E, run_bind_trace,
    !Db_session_final, E.
  rewrite !actions_app, (Db_session_actions w u S). run_the_call.
  reflexivity.
Qed.

(** C8.  On the reference platform, for a signed-in identity, [getNotes]
    asks once for all readable rows, newest first, and returns the notes
    of the table owned by that identity, each once; every note of the
    returned list is at least as recent as the next. *)
Theorem getNotes_owned_newest_first :
  forall (w : Db.World) (u : User.t),
    Db.signed_in w u ->
    Db.fault w = None ->
    exists l,
      Run.outcome (run Db.handler notesApi.getNotes w) = inr l
      /\ actions (Run.trace (run Db.handler notesApi.getNotes w))
         = [AuthGetSession; DateNow; AuthGetSession; DateNow;
            NotesSelectAllOrderByUpdatedAt false]
      /\ Permutation l (filter (owned_by u) (Db.rows w))
      /\ Sorted newer_or_same l.
Proof.
  intros w u S F. eexists. split; [apply (Db_getNotes w u S F)|].
  split; [apply (Db_getNotes_actions w u S)|]. split.
  - apply order_by_updated_at_perm.
  - apply order_by_updated_at_descending.
Qed.

Lemma Sample_signed_in : Db.signed_in Sample.world Sample.alice.
Proof.
  exists "token", (Some 2000). split; [reflexivity|].
  split; [discriminate | vm_compute; reflexivity].
Defined.

(** Alice's list: [n3] then [n1], and not Bob's [n2]. *)
Lemma getNotes_owned_newest_first_witness :
  exists l,
    Run.outcome (run Db.handler notesApi.getNotes Sample.world) = inr l
    /\ actions (Run.trace (run Db.handler notesApi.getNotes Sample.world))
       = [AuthGetSession; DateNow; AuthGetSession; DateNow;
          NotesSelectAllOrderByUpdatedAt false]
    /\ Permutation l (filter (owned_by Sample.alice) (Db.rows Sample.world))
    /\ Sorted newer_or_same l.
Proof.
  apply (getNotes_owned_newest_first Sample.world Sample.alice).
  - exact Sample_signed_in.
  - reflexivity.
Defined.

Example getNotes_sample :
  option_map (map Note.id)
    (match Run.outcome (run Db.handler notesApi.getNotes Sample.world) with
     | inr l => Some l
     | inl _ => None
     end)
  = Some ["n3"; "n1"].
Proof. vm_compute. reflexivity. Qed.

(* ------------------------------------------------------------------ *)
(** ** [createNote] on the reference platform *)

Lemma length_repeat_string (c : ascii) (k : nat) :
  String.length (string_of_list_ascii (repeat c k)) = k.
Proof. induction k as [|k IH]; simpl; [reflexivity | rewrite IH; reflexivity]. Qed.

Lemma fresh_id_fresh (l : list Note.t) :
  ~ In (Db.fresh_id l) (map Note.id l).
Proof.
  assert (B : forall n, In n l ->
                (String.length (Note.id n)
                 <= fold_right Nat.max 0
                      (map (fun n => String.length (Note.id n)) l))%nat).
  { induction l as [|x l IH]; simpl; [contradiction|].
    intros n [<- | I]; [lia|]. specialize (IH n I). lia. }
  intro I. apply in_map_iff in I. destruct I as (n & E & I).
  apply B in I. rewrite E in I. unfold Db.fresh_id in I.
  rewrite length_repeat_string in I. lia.
Qed.

Lemma Db_insert (w : Db.World) (u : User.t) (title content : JsString.t) :
  Db.signed_in w u -> Db.fault w = None ->
  let n := Note.mk (Db.fresh_id (Db.rows w)) title content
                   (Db.clock w) (Db.clock w) (User.id u) in
  Db.handler w (NotesInsertSelectSingle
                  (NewNote.mk title content (User.id u)))
  = (Db.single [n], Db.set_rows w (Db.rows w ++ [n])).
Proof.
  intros S F n. simpl. unfold Db.insert_select_single. rewrite F.
  cbn [NewNote.title NewNote.content NewNote.user_id]. fold n.
  rewrite (Db_policy_owned w u n S). unfold owned_by, n. simpl.
  rewrite String.eqb_refl. reflexivity.
Qed.

Lemma Db_createNote (w : Db.World) (u : User.t)
    (title content : JsString.t) :
  Db.signed_in w u -> Db.fault w = None ->
  valid_note_input title content ->
  let n := Note.mk (Db.fresh_id (Db.rows w)) (JsString.trim title)
                   (JsString.trim content) (Db.clock w) (Db.clock w)
                   (User.id u) in
  let R := run Db.handler (notesApi.createNote title content) w in
  Run.outcome R = inr n
  /\ Run.final R = Db.set_rows w (Db.rows w ++ [n]).
Proof.
  intros S F V n R.
  destruct (Db_session_signed_in w u S) as (s & E & U).
  apply valid_note_input_tests in V. destruct V as (F1 & F2 & F3).
  unfold R, notesApi.createNote. rewrite F1, F2, F3.
  assert (O : Run.outcome
                (run Db.handler
                     (notesApi.createNote_operation title content) w)
              = inr (Db.single [n])
              /\ Run.final
                   (run Db.handler
                        (notesApi.createNote_operation title content) w)
                 = Db.set_rows w (Db.rows w ++ [n])).
  { unfold notesApi.createNote_operation.
    rewrite run_bind_outcome, run_bind_final, E, Db_session_final.
    unfold session_user_id. rewrite U. cbn [bind].
    run_the_call. cbn [Run.outcome Run.final].
    rewrite (Db_insert w u _ _ S F). split; reflexivity. }
  destruct O as [O1 O2].
  destruct (Db_makeAuthenticatedRequest _ w u _ S O1) as [Fin Out].
  rewrite Fin, Out, O2. split; reflexivity.
Qed.

(** C7, as the code has it.  On the reference platform, for a signed-in
    identity and a title that is non-empty once trimmed and at most 100
    long with a content at most 10,000 long, [createNote] submits one row
    whose owner is the session's identity and returns the created note:
    trimmed title, trimmed content, that owner, an identifier new to the
    table and both timestamps set by the server.  The list asked for
    afterwards is the list asked for before plus that one note. *)
Theorem createNote_then_getNotes :
  forall (w : Db.World) (u : User.t) (title content : JsString.t),
    Db.signed_in w u ->
    Db.fault w = None ->
    valid_note_input title content ->
    let R := run Db.handler (notesApi.createNote title content) w in
    exists n before after,
      Run.outcome R = inr n
      /\ inserted_rows (Run.trace R)
         = [NewNote.mk (JsString.trim title) (JsString.trim content)
                       (User.id u)]
      /\ Note.title n = JsString.trim title
      /\ Note.content n = JsString.trim content
      /\ Note.user_id n = User.id u
      /\ ~ In (Note.id n) (map Note.id (Db.rows w))
      /\ Note.created_at n = Db.clock w
      /\ Note.updated_at n = Db.clock w
      /\ Run.outcome (run Db.handler notesApi.getNotes w) = inr before
      /\ Run.outcome (run Db.handler notesApi.getNotes (Run.final R))
         = inr after
      /\ Permutation after (n :: before)
      /\ ~ In n before.
Proof.
  intros w u title content S F V R.
  destruct (Db_createNote w u title content S F V) as [Out Fin].
  fold R in Out, Fin.
  set (n := Note.mk (Db.fresh_id (Db.rows w)) (JsString.trim title)
                    (JsString.trim content) (Db.clock w) (Db.clock w)
                    (User.id u)) in *.
  assert (B : forall x,
             In x (Db.order_by_updated_at false
                     (filter (owned_by u) (Db.rows w))) ->
             In x (Db.rows w)).
  { intros x I.
    apply (Permutation_in _ (order_by_updated_at_perm false _)) in I.
    apply filter_In in I. tauto. }
  exists n, (Db.order_by_updated_at false (filter (owned_by u) (Db.rows w))),
    (Db.order_by_updated_at false
       (filter (owned_by u) (Db.rows w ++ [n]))).
  split; [exact Out|]. split.
  { pose proof (createNote_inserted Db.handler title content w) as CI.
    cbv zeta in CI. fold R in CI.
    destruct CI as [[_ [e E]] | [uid I]]; [congruence|].
    rewrite I. f_equal. f_equal.
    destruct (Db_session_signed_in w u S) as (s & Es & Us).
    revert I. unfold R, notesApi.createNote.
    apply valid_note_input_tests in V. destruct V as (F1 & F2 & F3).
    rewrite F1, F2, F3, makeAuthenticatedRequest_trace, Es,
      inserted_rows_app, Db_session_final.
    rewrite (no_notes_call_inserted _
               (getAuthenticatedSession_no_notes_call Db.handler w)).
    unfold notesApi.createNote_operation.
    rewrite run_bind_trace, Es, inserted_rows_app, Db_session_final.
    rewrite (no_notes_call_inserted _
               (getAuthenticatedSession_no_notes_call Db.handler w)).
    unfold session_user_id. rewrite Us. cbn [bind]. run_the_call.
    simpl. intro I. injection I as <-. reflexivity. }
  repeat (split; [reflexivity|]).
  split; [apply fresh_id_fresh|].
  repeat (split; [reflexivity|]).
  split; [apply (Db_getNotes w u S F)|].
  split.
  { rewrite Fin. apply (Db_getNotes _ u (Db_signed_in_set_rows w u _ S) F). }
  split.
  - eapply perm_trans; [apply order_by_updated_at_perm|].
    rewrite filter_app. simpl.
    replace (owned_by u n) with true
      by (unfold owned_by, n; simpl; symmetry; apply String.eqb_refl).
    eapply perm_trans; [apply Permutation_app_comm|]. simpl.
    apply perm_skip, Permutation_sym, order_by_updated_at_perm.
  - intro I. apply B in I. apply (fresh_id_fresh (Db.rows w)).
    apply in_map_iff. exists n. auto.
Qed.

(** Alice creates a note titled [ a ], spaces included. *)
Lemma createNote_then_getNotes_witness :
  let R := run Db.handler
               (notesApi.createNote (JsString.of_string " a ")
                                    (JsString.of_string "x"))
               Sample.world in
  exists n before after,
    Run.outcome R = inr n
    /\ inserted_rows (Run.trace R)
       = [NewNote.mk (JsString.trim (JsString.of_string " a "))
                     (JsString.trim (JsString.of_string "x"))
                     (User.id Sample.alice)]
    /\ Note.title n = JsString.trim (JsString.of_string " a ")
    /\ Note.content n = JsString.trim (JsString.of_string "x")
    /\ Note.user_id n = User.id Sample.alice
    /\ ~ In (Note.id n) (map Note.id (Db.rows Sample.world))
    /\ Note.created_at n = Db.clock Sample.world
    /\ Note.updated_at n = Db.clock Sample.world
    /\ Run.outcome (run Db.handler notesApi.getNotes Sample.world)
       = inr before
    /\ Run.outcome (run Db.handler notesApi.getNotes (Run.final R))
       = inr after
    /\ Permutation after (n :: before)
    /\ ~ In n before.
Proof.
  apply (createNote_then_getNotes Sample.world Sample.alice
           (JsString.of_string " a ") (JsString.of_string "x")).
  - exact Sample_signed_in.
  - reflexivity.
  - split; [vm_compute; discriminate|].
    split; vm_compute; discriminate.
Defined.

(** C7 as stated fails on a title written with spaces around it: the
    title is non-empty and within the limits, the call returns, and
    neither the returned note nor any note of the following list has the
    title that was passed. *)
Lemma createNote_stores_other_title_counterexample :
  let title := JsString.of_string " a " in
  let R := run Db.handler
               (notesApi.createNote title (JsString.of_string "x"))
               Sample.world in
  title <> [] /\ JsString.length title <= 100
  /\ exists n after,
       Run.outcome R = inr n
       /\ Note.title n <> title
       /\ Run.outcome (run Db.handler notesApi.getNotes (Run.final R))
          = inr after
       /\ forall m, In m after -> Note.title m <> title.
Proof.
  split; [discriminate|]. split; [vm_compute; discriminate|].
  eexists. eexists. split; [vm_compute; reflexivity|].
  split; [vm_compute; discriminate|].
  split; [vm_compute; reflexivity|].
  intros m I. simpl in I.
  destruct I as [<- | [<- | [<- | []]]]; vm_compute; discriminate.
Qed.

(* ------------------------------------------------------------------ *)
(** ** [updateNote] and [deleteNote] on the reference platform *)

Lemma no_row_targeted (w : Db.World) (id : string) (u : User.t) :
  no_row_matches w id u ->
  forall n, In n (Db.rows w) ->
            Db.targeted w [Eq ColId id; Eq ColUserId (User.id u)] n = false.
Proof.
  intros Z n I.
  destruct (Db.targeted w _ n) eqn:T; [|reflexivity].
  apply Db_targeted_inv in T. destruct T as (A & B & _).
  exfalso. apply (Z n I). auto.
Qed.

Lemma filter_none {A} (f : A -> bool) (l : list A) :
  (forall x, In x l -> f x = false) -> filter f l = [].
Proof.
  induction l as [|x l IH]; simpl; intro H; [reflexivity|].
  rewrite (H x (or_introl eq_refl)). apply IH. intros y I. apply H. auto.
Qed.

Lemma filter_all {A} (f : A -> bool) (l : list A) :
  (forall x, In x l -> f x = true) -> filter f l = l.
Proof.
  induction l as [|x l IH]; simpl; intro H; [reflexivity|].
  rewrite (H x (or_introl eq_refl)). f_equal. apply IH.
  intros y I. apply H. auto.
Qed.

Lemma map_untouched {A} (f : A -> bool) (g : A -> A) (l : list A) :
  (forall x, In x l -> f x = false) ->
  map (fun x => if f x then g x else x) l = l.
Proof.
  induction l as [|x l IH]; simpl; intro H; [reflexivity|].
  rewrite (H x (or_introl eq_refl)). f_equal. apply IH.
  intros y I. apply H. auto.
Qed.

Lemma Db_updateNote_no_match (w : Db.World) (u : User.t) (id : string)
    (title content : JsString.t) :
  Db.signed_in w u -> Db.fault w = None ->
  id <> "" -> valid_note_input title content ->
  no_row_matches w id u ->
  let R := run Db.handler (notesApi.updateNote id title content) w in
  Run.outcome R = inl AccessDenied
  /\ Db.rows (Run.final R) = Db.rows w.
Proof.
  intros S F I V Z R.
  destruct (Db_session_signed_in w u S) as (s & E & U).
  apply valid_note_input_tests in V. destruct V as (F1 & F2 & F3).
  rewrite <- str_falsy_empty, Bool.not_true_iff_false in I.
  unfold R, notesApi.updateNote. rewrite I, F1, F2, F3.
  pose proof (no_row_targeted w id u Z) as NT.
  assert (O : Run.outcome
                (run Db.handler
                     (notesApi.updateNote_operation id title content) w)
              = inr (Response.mk None (Some Db.no_rows_error))
              /\ Db.rows
                   (Run.final
                      (run Db.handler
                           (notesApi.updateNote_operation id title content)
                           w))
                 = Db.rows w).
  { unfold notesApi.updateNote_operation.
    rewrite run_bind_outcome, run_bind_final, E, Db_session_final.
    cbn [bind call]. cbn [run Db.handler].
    unfold session_user_id. rewrite U. cbn [bind run Db.handler].
    cbn [Run.outcome Run.final]. run_the_call.
    cbn [Run.outcome Run.final Db.handler].
    unfold Db.update_select_single. rewrite F. cbn [fst snd].
    rewrite (filter_none _ _ NT), (map_untouched _ _ _ NT).
    split; reflexivity. }
  destruct O as [O1 O2].
  destruct (Db_makeAuthenticatedRequest _ w u _ S O1) as [Fin Out].
  rewrite Fin, Out, O2. split; reflexivity.
Qed.

Lemma Db_deleteNote (w : Db.World) (u : User.t) (id : string) :
  Db.signed_in w u -> Db.fault w = None -> id <> "" ->
  let R := run Db.handler (notesApi.deleteNote id) w in
  Run.outcome R = inl NoDataReturned
  /\ Run.final R
     = Db.set_rows w
         (filter (fun n => negb (Db.targeted w [Eq ColId id;
                                                Eq ColUserId (User.id u)] n))
                 (Db.rows w)).
Proof.
  intros S F I R.
  destruct (Db_session_signed_in w u S) as (s & E & U).
  rewrite <- str_falsy_empty, Bool.not_true_iff_false in I.
  unfold R, notesApi.deleteNote. rewrite I.
  assert (O : Run.outcome
                (run Db.handler (notesApi.deleteNote_operation id) w)
              = inr (Response.mk None None)
              /\ Run.final
                   (run Db.handler (notesApi.deleteNote_operation id) w)
                 = Db.set_rows w
                     (filter
                        (fun n =>
                           negb (Db.targeted w [Eq ColId id;
                                                Eq ColUserId (User.id u)] n))
                        (Db.rows w))).
  { unfold notesApi.deleteNote_operation.
    rewrite run_bind_outcome, run_bind_final, E, Db_session_final.
    unfold session_user_id. rewrite U. cbn [bind call run Db.handler].
    unfold Db.delete. rewrite F. split; reflexivity. }
  destruct O as [O1 O2].
  destruct (Db_makeAuthenticatedRequest _ w u _ S O1) as [Fin Out].
  rewrite run_bind_outcome, run_bind_final, Out, Fin, O2.
  split; reflexivity.
Qed.

(** C1, as the code has it.  On the reference platform, for a signed-in
    identity and a non-empty id: when no row has this id and this owner,
    whether because the note does not exist or because it is somebody
    else's, [updateNote] with valid input throws the access denial, the
    one error the code has for not-found and not-yours alike, and the
    table is unchanged; [deleteNote] then leaves the table unchanged too.
    After any [deleteNote] no row matches, so deleting the same id again
    changes nothing.  What [deleteNote] throws is not part of this
    statement. *)
Theorem update_delete_without_matching_row :
  forall (w : Db.World) (u : User.t) (id : string),
    Db.signed_in w u ->
    Db.fault w = None ->
    id <> "" ->
    let Rd := run Db.handler (notesApi.deleteNote id) w in
    (no_row_matches w id u ->
     (forall title content,
         valid_note_input title content ->
         let Ru := run Db.handler (notesApi.updateNote id title content) w in
         Run.outcome Ru = inl AccessDenied
         /\ kind AccessDenied = NotFoundError
         /\ Db.rows (Run.final Ru) = Db.rows w)
     /\ Db.rows (Run.final Rd) = Db.rows w)
    /\ no_row_matches (Run.final Rd) id u
    /\ Db.rows (Run.final
                  (run Db.handler (notesApi.deleteNote id) (Run.final Rd)))
       = Db.rows (Run.final Rd).
Proof.
  intros w u id S F I Rd.
  destruct (Db_deleteNote w u id S F I) as [_ Fin]. fold Rd in Fin.
  assert (Z' : no_row_matches (Run.final Rd) id u).
  { rewrite Fin. intros n In' [A B]. simpl in In'.
    apply filter_In in In'. destruct In' as [_ T].
    apply Bool.negb_true_iff in T.
    unfold Db.targeted, Db.policy, Db.matches in T.
    rewrite (Db_signed_in_uid w u S) in T. simpl in T.
    rewrite A, B, !String.eqb_refl in T. discriminate. }
  split; [|split; [exact Z'|]].
  - intro Z. split.
    + intros title content V Ru.
      destruct (Db_updateNote_no_match w u id title content S F I V Z)
        as [Out Rows].
      split; [exact Out|]. split; [reflexivity | exact Rows].
    + rewrite Fin. simpl. apply filter_all. intros n In'.
      rewrite (no_row_targeted w id u Z n In'). reflexivity.
  - assert (S' : Db.signed_in (Run.final Rd) u)
      by (rewrite Fin; apply Db_signed_in_set_rows, S).
    assert (F' : Db.fault (Run.final Rd) = None) by (rewrite Fin; exact F).
    destruct (Db_deleteNote (Run.final Rd) u id S' F' I) as [_ Fin'].
    rewrite Fin'. simpl. apply filter_all. intros n In'.
    rewrite (no_row_targeted (Run.final Rd) id u Z' n In'). reflexivity.
Qed.

(** Alice addresses Bob's note [n2]. *)
Lemma update_delete_without_matching_row_witness :
  let Rd := run Db.handler (notesApi.deleteNote "n2") Sample.world in
  (no_row_matches Sample.world "n2" Sample.alice ->
   (forall title content,
       valid_note_input title content ->
       let Ru := run Db.handler (notesApi.updateNote "n2" title content)
                     Sample.world in
       Run.outcome Ru = inl AccessDenied
       /\ kind AccessDenied = NotFoundError
       /\ Db.rows (Run.final Ru) = Db.rows Sample.world)
   /\ Db.rows (Run.final Rd) = Db.rows Sample.world)
  /\ no_row_matches (Run.final Rd) "n2" Sample.alice
  /\ Db.rows (Run.final
                (run Db.handler (notesApi.deleteNote "n2") (Run.final Rd)))
     = Db.rows (Run.final Rd).
Proof.
  apply (update_delete_without_matching_row
           Sample.world Sample.alice "n2").
  - exact Sample_signed_in.
  - reflexivity.
  - discriminate.
Defined.

Example no_row_matches_sample :
  no_row_matches Sample.world "n2" Sample.alice
  /\ no_row_matches Sample.world "zz" Sample.alice.
Proof.
  split; intros n I [A B]; simpl in I;
    destruct I as [<- | [<- | [<- | []]]]; discriminate.
Qed.

(** C1 as stated fails for [deleteNote]: Alice deletes an id that is in no
    row, and what is thrown is the missing-data error, not the denial
    that stands for not-found; the very same error is thrown when she
    deletes her own note [n1] and the row goes, and again when she
    deletes [n1] a second time. *)
Lemma deleteNote_not_NotFoundError_counterexample :
  no_row_matches Sample.world "zz" Sample.alice
  /\ Run.outcome (run Db.handler (notesApi.deleteNote "zz") Sample.world)
     = inl NoDataReturned
  /\ kind NoDataReturned <> NotFoundError
  /\ (let R1 := run Db.handler (notesApi.deleteNote "n1") Sample.world in
      Run.outcome R1 = inl NoDataReturned
      /\ map Note.id (Db.rows (Run.final R1)) = ["n2"; "n3"]
      /\ Run.outcome
           (run Db.handler (notesApi.deleteNote "n1") (Run.final R1))
         = inl NoDataReturned).
Proof.
  split; [apply no_row_matches_sample|].
  split; [vm_compute; reflexivity|].
  split; [discriminate|].
  repeat split; vm_compute; reflexivity.
Qed.

(* ------------------------------------------------------------------ *)
(** ** [signOut] *)

(** C3, as the code has it.  Against every handler, [signOut] sets the
    loading flag, asks the remote to sign out and, if that comes back
    without error, clears the user and the authenticated flag; if it
    comes back with an error it clears neither, shows the error and
    rethrows it; either way it resets the loading flag last.  On the
    reference platform the local state ends cleared in the first case
    and with user and authenticated flag as they were in the second. *)
Theorem signOut_clears_unless_remote_error :
  (forall (World : Type) (h : Handler World) (w : World),
      actions (Run.trace (run h signOut w))
      = match fst (h (snd (h w (SetLoading true))) AuthSignOut) with
        | None =>
            [SetLoading true; AuthSignOut; SetUser None;
             SetIsAuthenticated false; SetLoading false]
        | Some e =>
            [SetLoading true; AuthSignOut;
             ToastError (str_or (AuthError.message e) "Failed to sign out");
             SetLoading false]
        end)
  /\ (forall w : Db.World,
         let R := run Db.handler signOut w in
         (Db.signout_error w = None ->
          Run.outcome R = inr tt
          /\ Db.ui_user (Run.final R) = None
          /\ Db.ui_isAuthenticated (Run.final R) = false
          /\ Db.ui_loading (Run.final R) = false)
         /\ (forall e,
                Db.signout_error w = Some e ->
                Run.outcome R = inl (ThrownAuthError e)
                /\ Db.ui_user (Run.final R) = Db.ui_user w
                /\ Db.ui_isAuthenticated (Run.final R)
                   = Db.ui_isAuthenticated w
                /\ Db.ui_loading (Run.final R) = false
                /\ Db.toasts (Run.final R)
                   = Db.toasts w
                     ++ [str_or (AuthError.message e) "Failed to sign out"])).
Proof.
  split.
  - intros World h w. unfold signOut, call. simpl.
    destruct (h w (SetLoading true)) as [[] w1]. simpl.
    destruct (h w1 AuthSignOut) as [[e|] w2]; simpl.
    + destruct (h w2 (ToastError _)) as [[] w3]. simpl.
      destruct (h w3 (SetLoading false)) as [[] w4]. reflexivity.
    + destruct (h w2 (SetUser None)) as [[] w3]. simpl.
      destruct (h w3 (SetIsAuthenticated false)) as [[] w4]. simpl.
      destruct (h w4 (SetLoading false)) as [[] w5]. reflexivity.
  - intros w R. unfold R, signOut, call. simpl. unfold Db.sign_out. simpl.
    split.
    + intro E. rewrite E. simpl. auto.
    + intros e E. rewrite E. simpl. auto 6.
Qed.

(** Signing out of the sample world: everything is cleared. *)
Lemma signOut_clears_unless_remote_error_witness :
  let R := run Db.handler signOut Sample.world in
  Run.outcome R = inr tt
  /\ Db.ui_user (Run.final R) = None
  /\ Db.ui_isAuthenticated (Run.final R) = false
  /\ Db.ui_loading (Run.final R) = false.
Proof.
  apply (proj1 (proj2 signOut_clears_unless_remote_error Sample.world)).
  reflexivity.
Defined.

(** C3 as stated fails when the remote sign-out answers with an error:
    Alice is still the local user and still marked authenticated. *)
Lemma signOut_keeps_state_on_error_counterexample :
  let w := Sample.with_signout_error (AuthError.mk "network down") in
  let R := run Db.handler signOut w in
  Db.ui_user w = Some Sample.alice
  /\ Db.ui_isAuthenticated w = true
  /\ Run.outcome R = inl (ThrownAuthError (AuthError.mk "network down"))
  /\ Db.ui_user (Run.final R) = Some Sample.alice
  /\ Db.ui_isAuthenticated (Run.final R) = true.
Proof. repeat split; vm_compute; reflexivity. Qed.

(* ------------------------------------------------------------------ *)
(** * Further properties of the facade *)

(** ** Validation in [updateNote] and [deleteNote] *)

Section MoreValidation.

Context {World : Type} (h : Handler World).

Lemma updateNote_operation_kind (id : string) (title content : JsString.t)
    (w : World) (e : Thrown) :
  Run.outcome (run h (notesApi.updateNote_operation id title content) w)
  = inl e ->
  kind e <> ValidationError.
Proof.
  apply session_then_kind. intros s w' e'. simpl.
  destruct (h w' DateNow) as [ms w1]; simpl. unfold session_user_id.
  destruct (Session.user s); simpl.
  - destruct (h w1 _); simpl; discriminate.
  - intro E; injection E as <-; discriminate.
Qed.

Lemma deleteNote_operation_kind (id : string) (w : World) (e : Thrown) :
  Run.outcome (run h (notesApi.deleteNote_operation id) w) = inl e ->
  kind e <> ValidationError.
Proof.
  apply session_then_kind. intros s w' e'. unfold session_user_id.
  destruct (Session.user s); simpl.
  - destruct (h w' _); simpl; discriminate.
  - intro E; injection E as <-; discriminate.
Qed.

End MoreValidation.

(** X1.  Against every handler, [updateNote] throws a validation error
    exactly when the id is empty, the trimmed title is empty, the title is
    longer than 100 or the content is longer than 10,000, and
    [deleteNote] exactly when the id is empty; the call then makes no
    request and leaves the world as it was.  The error names the first
    test that fails, in the order id, title present, title length,
    content length. *)
Theorem updateNote_deleteNote_validation :
  forall (World : Type) (h : Handler World) (w : World) (id : string)
         (title content : JsString.t),
    let Ru := run h (notesApi.updateNote id title content) w in
    let Rd := run h (notesApi.deleteNote id) w in
    let invalid := id = ""
                   \/ JsString.trim title = []
                   \/ JsString.length title > 100
                   \/ JsString.length content > 10000 in
    ((exists e, Run.outcome Ru = inl e /\ kind e = ValidationError)
     <-> invalid)
    /\ (invalid -> Run.trace Ru = [] /\ Run.final Ru = w)
    /\ (id = "" -> Run.outcome Ru = inl NoteIdRequired)
    /\ (id <> "" -> JsString.trim title = [] ->
        Run.outcome Ru = inl TitleRequired)
    /\ (id <> "" -> JsString.trim title <> [] ->
        JsString.length title > 100 ->
        Run.outcome Ru = inl TitleTooLong)
    /\ (id <> "" -> JsString.trim title <> [] ->
        JsString.length title <= 100 ->
        JsString.length content > 10000 ->
        Run.outcome Ru = inl ContentTooLong)
    /\ ((exists e, Run.outcome Rd = inl e /\ kind e = ValidationError)
        <-> id = "")
    /\ (id = "" -> Rd = Run.mk (inl NoteIdRequired) w []).
Proof.
  intros World h w id title content Ru Rd invalid.
  assert (D : (exists e, Run.outcome Rd = inl e /\ kind e = ValidationError)
              <-> id = "").
  { unfold Rd, notesApi.deleteNote.
    destruct (str_falsy id) eqn:Fi.
    - apply str_falsy_empty in Fi. split; [auto|].
      intros _. exists NoteIdRequired. split; reflexivity.
    - split; [|intro E; apply str_falsy_empty in E; congruence].
      intros (e & E & K). exfalso. rewrite run_bind_outcome in E.
      destruct (Run.outcome (run h (makeAuthenticatedRequest _) w))
        as [e'|x] eqn:E'; [|discriminate].
      injection E as <-. revert K.
      eapply makeAuthenticatedRequest_kind; [|exact E'].
      intros w' e''. apply deleteNote_operation_kind. }
  assert (D' : id = "" -> Rd = Run.mk (inl NoteIdRequired) w [])
    by (intros ->; reflexivity).
  assert (U : (id = "" /\ Ru = Run.mk (inl NoteIdRequired) w [])
              \/ (id <> "" /\ JsString.trim title = []
                  /\ Ru = Run.mk (inl TitleRequired) w [])
              \/ (id <> "" /\ JsString.trim title <> []
                  /\ JsString.length title > 100
                  /\ Ru = Run.mk (inl TitleTooLong) w [])
              \/ (id <> "" /\ JsString.trim title <> []
                  /\ JsString.length title <= 100
                  /\ JsString.length content > 10000
                  /\ Ru = Run.mk (inl ContentTooLong) w [])
              \/ (id <> "" /\ JsString.trim title <> []
                  /\ JsString.length title <= 100
                  /\ JsString.length content <= 10000
                  /\ Ru = run h (makeAuthenticatedRequest
                                   (notesApi.updateNote_operation
                                      id title content)) w)).
  { unfold Ru, notesApi.updateNote.
    destruct (str_falsy id) eqn:Fi.
    { apply str_falsy_empty in Fi. left. auto. }
    assert (I : id <> "")
      by (intro E; apply str_falsy_empty in E; congruence).
    destruct (JsString.falsy (JsString.trim title)) eqn:F1.
    { apply falsy_nil in F1. right; left. auto. }
    assert (T : JsString.trim title <> [])
      by (intro E; apply falsy_nil in E; congruence).
    destruct (JsString.length title >? 100) eqn:F2.
    { apply Z.gtb_gt in F2. right; right; left. auto. }
    assert (L1 : JsString.length title <= 100).
    { rewrite Z.gtb_ltb in F2. apply Z.ltb_ge in F2. exact F2. }
    destruct (JsString.length content >? 10000) eqn:F3.
    { apply Z.gtb_gt in F3. right; right; right; left. auto 6. }
    assert (L2 : JsString.length content <= 10000).
    { rewrite Z.gtb_ltb in F3. apply Z.ltb_ge in F3. exact F3. }
    right; right; right; right. auto 6. }
  split; [|split; [|split; [|split; [|split; [|split; [|split]]]]]];
    try exact D; try exact D'.
  - unfold invalid. split.
    + intros (e & E & K).
      destruct U as [(? & _) | [(? & ? & _) | [(? & ? & ? & _)
        | [(? & ? & ? & ? & _) | (? & ? & ? & ? & EU)]]]]; auto.
      exfalso. rewrite EU in E. revert K.
      eapply makeAuthenticatedRequest_kind; [|exact E].
      intros w' e'. apply updateNote_operation_kind.
    + intros V.
      destruct U as [(? & EU) | [(? & ? & EU) | [(? & ? & ? & EU)
        | [(? & ? & ? & ? & EU) | (? & ? & ? & ? & EU)]]]];
        try (rewrite EU; eexists; split; reflexivity).
      exfalso. destruct V as [V | [V | [V | V]]]; try tauto; lia.
  - unfold invalid. intros V.
    destruct U as [(? & EU) | [(? & ? & EU) | [(? & ? & ? & EU)
      | [(? & ? & ? & ? & EU) | (? & ? & ? & ? & EU)]]]];
      try (rewrite EU; split; reflexivity).
    exfalso. destruct V as [V | [V | [V | V]]]; try tauto; lia.
  - intros I.
    destruct U as [(? & EU) | [(? & _) | [(? & _)
      | [(? & _) | (? & _)]]]]; try tauto.
    rewrite EU. reflexivity.
  - intros I T.
    destruct U as [(? & _) | [(? & ? & EU) | [(? & ? & _)
      | [(? & ? & _) | (? & ? & _)]]]]; try tauto.
    rewrite EU. reflexivity.
  - intros I T L.
    destruct U as [(? & _) | [(? & ? & _) | [(? & ? & ? & EU)
      | [(? & ? & ? & _) | (? & ? & ? & _)]]]]; try tauto; try lia.
    rewrite EU. reflexivity.
  - intros I T L1 L2.
    destruct U as [(? & _) | [(? & ? & _) | [(? & ? & ? & _)
      | [(? & ? & ? & ? & EU) | (? & ? & ? & ? & _)]]]];
      try tauto; try lia.
    rewrite EU. reflexivity.
Qed.

(** An update without an id and with a title of spaces: the missing id is
    what is reported. *)
Lemma updateNote_deleteNote_validation_witness :
  Run.outcome
    (run Db.handler
         (notesApi.updateNote "" (JsString.of_string "  ")
                              (JsString.of_string "x"))
         Sample.world)
  = inl NoteIdRequired.
Proof.
  apply (proj1 (proj2 (proj2
    (updateNote_deleteNote_validation
       Db.World Db.handler Sample.world ""
       (JsString.of_string "  ") (JsString.of_string "x"))))).
  reflexivity.
Defined.

(* ------------------------------------------------------------------ *)
(** ** Row security and the primary key on the reference platform *)

Lemma Db_policy_user_id (w : Db.World) (n m : Note.t) :
  Note.user_id n = Note.user_id m -> Db.policy w n = Db.policy w m.
Proof. unfold Db.policy. intros ->. reflexivity. Qed.

Lemma Db_targeted_policy (w : Db.World) (fs : list Filter) (n : Note.t) :
  Db.targeted w fs n = true -> Db.policy w n = true.
Proof. unfold Db.targeted. intro T. apply andb_prop in T. tauto. Qed.

Lemma NoDup_map_filter {A B} (f : A -> B) (g : A -> bool) (l : list A) :
  NoDup (map f l) -> NoDup (map f (filter g l)).
Proof.
  induction l as [|x l IH]; simpl; intro N; [constructor|].
  inversion N as [|? ? Nx Nl]; subst.
  destruct (g x); simpl; [|auto].
  constructor; [|auto]. intro I. apply Nx.
  apply in_map_iff in I. destruct I as (y & E & I).
  apply filter_In in I. apply in_map_iff. exists y. tauto.
Qed.

Lemma row_secure_refl (w : Db.World) : row_secure w w.
Proof. repeat split; auto. Qed.

Lemma row_secure_same (w0 w w' : Db.World) :
  Db.auth w' = Db.auth w -> Db.rows w' = Db.rows w ->
  row_secure w0 w -> row_secure w0 w'.
Proof.
  intros A R (P & O & U). unfold row_secure, Db.policy, Db.auth_uid in *.
  rewrite A, R. auto.
Qed.

Lemma row_secure_step (w0 w : Db.World) (a : action) :
  row_secure w0 w -> row_secure w0 (snd (Db.handler w a)).
Proof.
  intros S. pose proof S as (P & O & U).
  destruct a; simpl;
    try (apply (row_secure_same w0 w); [reflexivity | reflexivity | exact S]).
  - (* signOut *)
    unfold Db.sign_out. destruct (Db.signout_error w); [exact S|].
    simpl. split; [|split; [exact O | exact U]].
    intros n. unfold Db.policy, Db.auth_uid. simpl. discriminate.
  - (* select *)
    unfold Db.select_ordered. destruct (Db.fault w); exact S.
  - (* insert *)
    unfold Db.insert_select_single. destruct (Db.fault w); [exact S|].
    match goal with |- context [Db.policy w ?x] => set (n := x) end.
    destruct (Db.policy w n) eqn:Pn; [|exact S].
    cbn [snd]. split; [exact P|]. unfold Db.set_rows. cbn [Db.rows]. split.
    + intros m Pm. rewrite in_app_iff. simpl. rewrite <- (O m Pm).
      split; [|tauto]. intros [I | [E | []]]; [exact I|].
      subst m. apply P in Pn. congruence.
    + intro N. rewrite map_app. simpl.
      apply (Permutation_NoDup (Permutation_cons_append _ _)).
      constructor; [apply fresh_id_fresh | auto].
  - (* update *)
    unfold Db.update_select_single. destruct (Db.fault w); [exact S|].
    cbn [snd]. split; [exact P|]. unfold Db.set_rows. cbn [Db.rows]. split.
    + intros m Pm. rewrite <- (O m Pm), in_map_iff. split.
      * intros (x & E & I).
        destruct (Db.targeted w filters x) eqn:T; [|subst; exact I].
        exfalso. apply Db_targeted_policy, P in T.
        rewrite <- (Db_policy_user_id w0 m x) in T; [congruence|].
        subst m. reflexivity.
      * intro I. exists m. split; [|exact I].
        destruct (Db.targeted w filters m) eqn:T; [|reflexivity].
        apply Db_targeted_policy, P in T. congruence.
    + intro N. rewrite map_map.
      rewrite (map_ext _ Note.id); [auto|].
      intro x. destruct (Db.targeted w filters x); reflexivity.
  - (* delete *)
    unfold Db.delete. destruct (Db.fault w); [exact S|].
    cbn [snd]. split; [exact P|]. unfold Db.set_rows. cbn [Db.rows]. split.
    + intros m Pm. rewrite <- (O m Pm), filter_In. split; [tauto|].
      intro I. split; [exact I|].
      destruct (Db.targeted w filters m) eqn:T; [|reflexivity].
      apply Db_targeted_policy, P in T. congruence.
    + intro N. apply NoDup_map_filter. auto.
  - (* the ownership query *)
    unfold Db.select_user_id_single. destruct (Db.fault w); exact S.
Qed.

Lemma row_secure_run {T} (p : Prog T) (w0 w : Db.World) :
  row_secure w0 w -> row_secure w0 (Run.final (run Db.handler p w)).
Proof.
  revert w. induction p as [x | e | a k IH]; intros w S; simpl; auto.
  pose proof (row_secure_step w0 w a S) as S'.
  destruct (Db.handler w a) as [r w1]. simpl in *. apply IH. exact S'.
Qed.

(** X2.  On the reference platform, whatever requests a program makes,
    the rows that the caller's row-security policy does not cover are
    the same before and after: none is added, changed or removed; and the
    identifiers of the table stay pairwise distinct. *)
Theorem rows_of_others_untouched :
  forall (T : Type) (p : Prog T) (w : Db.World),
    let w' := Run.final (run Db.handler p w) in
    (forall n, Db.policy w n = false ->
               (In n (Db.rows w') <-> In n (Db.rows w)))
    /\ (NoDup (map Note.id (Db.rows w)) ->
        NoDup (map Note.id (Db.rows w'))).
Proof.
  intros T p w w'.
  destruct (row_secure_run p w w (row_secure_refl w)) as (_ & O & U).
  split; assumption.
Qed.

(** Alice updates Bob's note and then deletes it: Bob's row is still
    there, as it was. *)
Lemma rows_of_others_untouched_witness :
  let p := try_catch
             (_ <- notesApi.updateNote "n2" (JsString.of_string "mine")
                                       (JsString.of_string "now") ;;
              Ret tt)
             (fun _ => notesApi.deleteNote "n2") in
  In (Sample.note "n2" Sample.bob "other" 20)
     (Db.rows (Run.final (run Db.handler p Sample.world))).
Proof.
  intro p.
  apply (proj1 (rows_of_others_untouched unit p Sample.world)).
  - reflexivity.
  - simpl. auto.
Defined.

(* ------------------------------------------------------------------ *)
(** ** Updating and checking one's own note on the reference platform *)

Lemma filter_unique {A B} (key : A -> B) (f : A -> bool) (l : list A)
    (x0 : A) :
  NoDup (map key l) -> In x0 l -> f x0 = true ->
  (forall x, f x = true -> key x = key x0) ->
  filter f l = [x0].
Proof.
  induction l as [|x l IH]; simpl; intros N I F K; [contradiction|].
  inversion N as [|? ? Nx Nl]; subst.
  destruct I as [-> | I].
  - rewrite F. f_equal. apply filter_none. intros y Iy.
    destruct (f y) eqn:Fy; [|reflexivity].
    exfalso. apply Nx. rewrite <- (K y Fy). apply in_map. exact Iy.
  - destruct (f x) eqn:Fx.
    + exfalso. apply Nx. rewrite (K x Fx). apply in_map. exact I.
    + apply IH; assumption.
Qed.

Lemma NoDup_key_unique {A B} (key : A -> B) (l : list A) (x y : A) :
  NoDup (map key l) -> In x l -> In y l -> key x = key y -> x = y.
Proof.
  induction l as [|z l IH]; simpl; intros N Ix Iy K; [contradiction|].
  inversion N as [|? ? Nz Nl]; subst.
  destruct Ix as [-> | Ix], Iy as [-> | Iy]; auto.
  - exfalso. apply Nz. rewrite K. apply in_map. exact Iy.
  - exfalso. apply Nz. rewrite <- K. apply in_map. exact Ix.
Qed.

Lemma Db_targeted_own (w : Db.World) (u : User.t) (id : string)
    (n : Note.t) :
  Db.signed_in w u ->
  Db.targeted w [Eq ColId id; Eq ColUserId (User.id u)] n
  = String.eqb (Note.id n) id && String.eqb (Note.user_id n) (User.id u).
Proof.
  intro S. unfold Db.targeted, Db.matches.
  rewrite (Db_policy_owned w u n S). unfold owned_by. simpl.
  rewrite (String.eqb_sym (User.id u)), Bool.andb_true_r.
  destruct (String.eqb (Note.user_id n) (User.id u));
    destruct (String.eqb (Note.id n) id); reflexivity.
Qed.

Lemma Db_verifyNoteOwnership (w : Db.World) (u : User.t) (noteId : string) :
  Db.signed_in w u -> Db.fault w = None ->
  Run.outcome (run Db.handler (notesApi.verifyNoteOwnership noteId) w)
  = inr (notesApi.is_some
           (Response.data
              (Db.single
                 (map Note.user_id
                    (filter
                       (Db.targeted w [Eq ColId noteId;
                                       Eq ColUserId (User.id u)])
                       (Db.rows w)))))).
Proof.
  intros S F. destruct (Db_session_signed_in w u S) as (s & E & U).
  unfold notesApi.verifyNoteOwnership.
  match goal with
  | |- context [try_catch ?b ?c] => set (body := b); set (handle := c)
  end.
  assert (B : Run.outcome (run Db.handler body w)
              = inr (notesApi.is_some
                       (Response.data
                          (Db.single
                             (map Note.user_id
                                (filter
                                   (Db.targeted w
                                      [Eq ColId noteId;
                                       Eq ColUserId (User.id u)])
                                   (Db.rows w))))))).
  { unfold body. rewrite run_bind_outcome, E, Db_session_final.
    unfold session_user_id. rewrite U. cbn [bind].
    rewrite run_bind_outcome. run_the_call.
    cbn [Run.outcome Run.final Db.handler].
    unfold Db.select_user_id_single. rewrite F. cbn [fst snd run Run.outcome].
    f_equal. destruct (map _ _) as [|x [|y l]]; reflexivity. }
  rewrite (run_try_catch_returns Db.handler body handle w _ B). exact B.
Qed.

Lemma Db_verifyNoteOwnership_iff (w : Db.World) (u : User.t)
    (noteId : string) :
  Db.signed_in w u ->
  Db.fault w = None ->
  NoDup (map Note.id (Db.rows w)) ->
  exists b,
    Run.outcome (run Db.handler (notesApi.verifyNoteOwnership noteId) w)
    = inr b
    /\ (b = true <->
        exists n, In n (Db.rows w)
                  /\ Note.id n = noteId
                  /\ Note.user_id n = User.id u).
Proof.
  intros S F N. eexists.
  split; [apply (Db_verifyNoteOwnership w u noteId S F)|].
  split.
  - intro B.
    destruct (Response.data _) as [x|] eqn:X; [|discriminate].
    apply single_data in X.
    destruct (filter _ (Db.rows w)) as [|n [|n' l]] eqn:Fl; try discriminate.
    assert (I : In n (filter
                        (Db.targeted w [Eq ColId noteId;
                                        Eq ColUserId (User.id u)])
                        (Db.rows w)))
      by (rewrite Fl; left; reflexivity).
    apply filter_In in I. destruct I as [I Tg].
    apply Db_targeted_inv in Tg. exists n. tauto.
  - intros (n & I & Ei & Eu).
    rewrite (filter_unique Note.id _ (Db.rows w) n N I).
    + reflexivity.
    + rewrite (Db_targeted_own w u noteId n S), Ei, Eu, !String.eqb_refl.
      reflexivity.
    + intros x Tx. apply Db_targeted_inv in Tx. destruct Tx as (Tx & _).
      congruence.
Qed.

(** X3.  On the reference platform, for a signed-in identity and a table
    with distinct identifiers, [verifyNoteOwnership] answers [true]
    exactly when the table holds a row with this id owned by that
    identity. *)
Theorem verifyNoteOwnership_exact :
  forall (w : Db.World) (u : User.t) (noteId : string),
    Db.signed_in w u ->
    Db.fault w = None ->
    NoDup (map Note.id (Db.rows w)) ->
    exists b,
      Run.outcome (run Db.handler (notesApi.verifyNoteOwnership noteId) w)
      = inr b
      /\ (b = true <->
          exists n, In n (Db.rows w)
                    /\ Note.id n = noteId
                    /\ Note.user_id n = User.id u).
Proof. exact Db_verifyNoteOwnership_iff. Qed.

Lemma Sample_unique_ids : NoDup (map Note.id (Db.rows Sample.world)).
Proof.
  simpl. repeat constructor; simpl; intuition discriminate.
Defined.

(** Alice and her note [n3]. *)
Lemma verifyNoteOwnership_exact_witness :
  exists b,
    Run.outcome (run Db.handler (notesApi.verifyNoteOwnership "n3")
                     Sample.world) = inr b
    /\ (b = true <->
        exists n, In n (Db.rows Sample.world)
                  /\ Note.id n = "n3"
                  /\ Note.user_id n = User.id Sample.alice).
Proof.
  apply (verifyNoteOwnership_exact Sample.world Sample.alice "n3").
  - exact Sample_signed_in.
  - reflexivity.
  - exact Sample_unique_ids.
Defined.

Lemma Db_updateNote_match (w : Db.World) (u : User.t) (id : string)
    (title content : JsString.t) (n0 : Note.t) :
  Db.signed_in w u -> Db.fault w = None ->
  id <> "" -> valid_note_input title content ->
  NoDup (map Note.id (Db.rows w)) ->
  In n0 (Db.rows w) -> Note.id n0 = id -> Note.user_id n0 = User.id u ->
  let n' := Note.mk id (JsString.trim title) (JsString.trim content)
                    (Note.created_at n0) (Db.clock w) (User.id u) in
  let R := run Db.handler (notesApi.updateNote id title content) w in
  Run.outcome R = inr n'
  /\ Run.final R
     = Db.set_rows w
         (map (fun n => if String.eqb (Note.id n) id then n' else n)
              (Db.rows w)).
Proof.
  intros S F I V N In0 Ei Eu n' R.
  destruct (Db_session_signed_in w u S) as (s & E & U).
  apply valid_note_input_tests in V. destruct V as (F1 & F2 & F3).
  rewrite <- str_falsy_empty, Bool.not_true_iff_false in I.
  unfold R, notesApi.updateNote. rewrite I, F1, F2, F3.
  set (fs := [Eq ColId id; Eq ColUserId (User.id u)]).
  set (p := NotePatch.mk (JsString.trim title) (JsString.trim content)
                         (Db.clock w)).
  assert (T0 : Db.targeted w fs n0 = true).
  { unfold fs. rewrite (Db_targeted_own w u id n0 S), Ei, Eu,
      !String.eqb_refl. reflexivity. }
  assert (Fl : filter (Db.targeted w fs) (Db.rows w) = [n0]).
  { apply (filter_unique Note.id); auto.
    intros x Tx. apply Db_targeted_inv in Tx. destruct Tx as (Tx & _).
    congruence. }
  assert (Up : Db.updated w p n0 = n').
  { unfold Db.updated, Db.update_updated_at_column, Db.apply_patch, n', p.
    simpl. rewrite Ei, Eu. reflexivity. }
  assert (Mp : map (fun n => if Db.targeted w fs n
                             then Db.updated w p n else n) (Db.rows w)
               = map (fun n => if String.eqb (Note.id n) id then n' else n)
                     (Db.rows w)).
  { apply map_ext_in. intros x Ix. unfold fs.
    rewrite (Db_targeted_own w u id x S).
    destruct (String.eqb (Note.id x) id) eqn:X; [|reflexivity].
    apply String.eqb_eq in X.
    assert (x = n0)
      by (apply (NoDup_key_unique Note.id (Db.rows w)); congruence).
    subst x. rewrite Eu, String.eqb_refl. exact Up. }
  assert (O : Run.outcome
                (run Db.handler
                     (notesApi.updateNote_operation id title content) w)
              = inr (Response.mk (Some n') None)
              /\ Run.final
                   (run Db.handler
                        (notesApi.updateNote_operation id title content) w)
                 = Db.set_rows w
                     (map (fun n => if String.eqb (Note.id n) id
                                    then n' else n)
                          (Db.rows w))).
  { unfold notesApi.updateNote_operation.
    rewrite run_bind_outcome, run_bind_final, E, Db_session_final.
    cbn [bind call]. cbn [run Db.handler].
    unfold session_user_id. rewrite U. cbn [bind run Db.handler].
    cbn [Run.outcome Run.final]. run_the_call.
    cbn [Run.outcome Run.final Db.handler].
    unfold Db.update_select_single. rewrite F. cbn [fst snd].
    fold fs. fold p. rewrite Fl. simpl map at 1. rewrite Up.
    rewrite Mp. split; reflexivity. }
  destruct O as [O1 O2].
  destruct (Db_makeAuthenticatedRequest _ w u _ S O1) as [Fin Out].
  rewrite Fin, Out, O2. split; reflexivity.
Qed.

Lemma filter_map_preserved {A B} (key : A -> B) (g : A -> bool)
    (f : A -> A) (l : list A) :
  (forall x, In x l -> g (f x) = g x /\ key (f x) = key x) ->
  map key (filter g (map f l)) = map key (filter g l).
Proof.
  induction l as [|x l IH]; simpl; intro H; [reflexivity|].
  destruct (H x (or_introl eq_refl)) as [G K]. rewrite G.
  destruct (g x); simpl; rewrite ?K, IH; auto.
Qed.

(** X4.  On the reference platform, when a signed-in identity updates a
    note of its own with valid input, [updateNote] returns that note with
    the trimmed title and content, the server's time as [updated_at] and
    its id, owner and creation time unchanged; the table differs in that
    row only; and the list asked for afterwards holds the same notes by
    id, this one in its new state. *)
Theorem updateNote_own_note :
  forall (w : Db.World) (u : User.t) (id : string)
         (title content : JsString.t) (n0 : Note.t),
    Db.signed_in w u ->
    Db.fault w = None ->
    id <> "" ->
    valid_note_input title content ->
    NoDup (map Note.id (Db.rows w)) ->
    In n0 (Db.rows w) ->
    Note.id n0 = id ->
    Note.user_id n0 = User.id u ->
    let R := run Db.handler (notesApi.updateNote id title content) w in
    let n' := Note.mk (Note.id n0) (JsString.trim title)
                      (JsString.trim content) (Note.created_at n0)
                      (Db.clock w) (Note.user_id n0) in
    Run.outcome R = inr n'
    /\ Db.rows (Run.final R)
       = map (fun n => if String.eqb (Note.id n) id then n' else n)
             (Db.rows w)
    /\ exists before after,
         Run.outcome (run Db.handler notesApi.getNotes w) = inr before
         /\ Run.outcome (run Db.handler notesApi.getNotes (Run.final R))
            = inr after
         /\ Permutation (map Note.id after) (map Note.id before)
         /\ In n' after
         /\ forall m, In m after -> Note.id m = id -> m = n'.
Proof.
  intros w u id title content n0 S F I V N In0 Ei Eu R n'.
  destruct (Db_updateNote_match w u id title content n0 S F I V N In0 Ei Eu)
    as [Out Fin].
  fold R in Out, Fin. unfold n'. rewrite Ei, Eu.
  assert (Rows := f_equal Db.rows Fin). simpl in Rows.
  set (m' := Note.mk id (JsString.trim title) (JsString.trim content)
                     (Note.created_at n0) (Db.clock w) (User.id u)) in *.
  split; [exact Out|]. split; [exact Rows|].
  assert (S' : Db.signed_in (Run.final R) u)
    by (rewrite Fin; apply Db_signed_in_set_rows, S).
  assert (F' : Db.fault (Run.final R) = None) by (rewrite Fin; exact F).
  exists (Db.order_by_updated_at false (filter (owned_by u) (Db.rows w))),
    (Db.order_by_updated_at false
       (filter (owned_by u) (Db.rows (Run.final R)))).
  split; [apply (Db_getNotes w u S F)|].
  split; [apply (Db_getNotes _ u S' F')|].
  assert (Keep : forall x, In x (Db.rows w) ->
             owned_by u (if String.eqb (Note.id x) id then m' else x)
             = owned_by u x
             /\ Note.id (if String.eqb (Note.id x) id then m' else x)
                = Note.id x).
  { intros x Ix. destruct (String.eqb (Note.id x) id) eqn:X; [|auto].
    apply String.eqb_eq in X.
    assert (x = n0)
      by (apply (NoDup_key_unique Note.id (Db.rows w)); congruence).
    subst x. unfold owned_by, m'. simpl. rewrite Eu. auto. }
  split.
  { eapply perm_trans;
      [apply Permutation_map, order_by_updated_at_perm|].
    eapply perm_trans;
      [|apply Permutation_map, Permutation_sym, order_by_updated_at_perm].
    rewrite Rows, (filter_map_preserved Note.id _ _ _ Keep).
    apply Permutation_refl. }
  split.
  { apply (Permutation_in _
             (Permutation_sym (order_by_updated_at_perm false _))).
    apply filter_In. split.
    - rewrite Rows. apply in_map_iff. exists n0. split; [|exact In0].
      rewrite Ei, String.eqb_refl. reflexivity.
    - unfold owned_by, m'. simpl. apply String.eqb_refl. }
  intros m Im Em.
  apply (Permutation_in _ (order_by_updated_at_perm false _)) in Im.
  apply filter_In in Im. destruct Im as [Im _].
  rewrite Rows in Im. apply in_map_iff in Im. destruct Im as (x & Ex & Ix).
  destruct (String.eqb (Note.id x) id) eqn:X; [congruence|].
  apply String.eqb_neq in X. congruence.
Qed.

(** Alice renames her note [n1]. *)
Lemma updateNote_own_note_witness :
  let R := run Db.handler
               (notesApi.updateNote "n1" (JsString.of_string " renamed ")
                                    (JsString.of_string "body"))
               Sample.world in
  Run.outcome R
  = inr (Note.mk "n1" (JsString.of_string "renamed")
                 (JsString.of_string "body") 10 1000000 "alice")
  /\ map Note.id (Db.rows (Run.final R)) = ["n1"; "n2"; "n3"].
Proof.
  destruct (updateNote_own_note
              Sample.world Sample.alice "n1"
              (JsString.of_string " renamed ") (JsString.of_string "body")
              (Sample.note "n1" Sample.alice "first" 10))
    as (Out & Rows & _).
  - exact Sample_signed_in.
  - reflexivity.
  - discriminate.
  - split; [vm_compute; discriminate|]. split; vm_compute; discriminate.
  - exact Sample_unique_ids.
  - simpl. auto.
  - reflexivity.
  - reflexivity.
  - split; [exact Out|]. rewrite Rows. reflexivity.
Defined.

(** X5.  On the reference platform, for a signed-in identity, a table
    with distinct identifiers, a non-empty id and valid input, the
    ownership pre-check and the update agree: when
    [verifyNoteOwnership] answers [true], [updateNote] returns the note
    with that id; when it answers [false], [updateNote] throws the access
    denial and the table is unchanged. *)
Theorem ownership_check_agrees_with_update :
  forall (w : Db.World) (u : User.t) (id : string)
         (title content : JsString.t),
    Db.signed_in w u ->
    Db.fault w = None ->
    NoDup (map Note.id (Db.rows w)) ->
    id <> "" ->
    valid_note_input title content ->
    let Rv := run Db.handler (notesApi.verifyNoteOwnership id) w in
    let Ru := run Db.handler (notesApi.updateNote id title content) w in
    Run.final Rv = w
    /\ (Run.outcome Rv = inr true ->
        exists n, Run.outcome Ru = inr n /\ Note.id n = id)
    /\ (Run.outcome Rv = inr false ->
        Run.outcome Ru = inl AccessDenied
        /\ Db.rows (Run.final Ru) = Db.rows w).
Proof.
  intros w u id title content S F N I V Rv Ru.
  destruct (Db_verifyNoteOwnership_iff w u id S F N) as (b & B & Iff).
  fold Rv in B. split; [|split].
  - unfold Rv, notesApi.verifyNoteOwnership.
    destruct (Db_session_signed_in w u S) as (s & E & U).
    match goal with
    | |- context [try_catch ?b ?c] => set (body := b); set (handle := c)
    end.
    assert (Bd : exists x, Run.outcome (run Db.handler body w) = inr x
                           /\ Run.final (run Db.handler body w) = w).
    { unfold body. rewrite run_bind_outcome, run_bind_final, E,
        Db_session_final.
      unfold session_user_id. rewrite U. cbn [bind].
      rewrite run_bind_outcome, run_bind_final. run_the_call.
      cbn [Run.outcome Run.final Db.handler].
      unfold Db.select_user_id_single. rewrite F. cbn [fst snd run].
      eexists. split; reflexivity. }
    destruct Bd as (x & Bo & Bf).
    rewrite (run_try_catch_returns Db.handler body handle w x Bo). exact Bf.
  - intro T. rewrite B in T. injection T as ->.
    destruct (proj1 Iff eq_refl) as (n & In0 & Ei & Eu).
    destruct (Db_updateNote_match w u id title content n S F I V N
                In0 Ei Eu) as [Out _].
    eexists. split; [exact Out | reflexivity].
  - intro T. rewrite B in T. injection T as ->.
    apply (Db_updateNote_no_match w u id title content S F I V).
    intros n In0 [Ei Eu].
    assert (X : false = true) by (apply Iff; eauto). discriminate.
Qed.

(** Alice and Bob's note [n2]: the check says no and so does the update. *)
Lemma ownership_check_agrees_with_update_witness :
  let Rv := run Db.handler (notesApi.verifyNoteOwnership "n2")
                Sample.world in
  let Ru := run Db.handler
                (notesApi.updateNote "n2" (JsString.of_string "t")
                                     (JsString.of_string "c"))
                Sample.world in
  Run.final Rv = Sample.world
  /\ (Run.outcome Rv = inr true ->
      exists n, Run.outcome Ru = inr n /\ Note.id n = "n2")
  /\ (Run.outcome Rv = inr false ->
      Run.outcome Ru = inl AccessDenied
      /\ Db.rows (Run.final Ru) = Db.rows Sample.world).
Proof.
  apply (ownership_check_agrees_with_update
           Sample.world Sample.alice "n2"
           (JsString.of_string "t") (JsString.of_string "c")).
  - exact Sample_signed_in.
  - reflexivity.
  - exact Sample_unique_ids.
  - discriminate.
  - split; [vm_compute; discriminate|]. split; vm_compute; discriminate.
Defined.

(* ------------------------------------------------------------------ *)
(** * The session manager and the pages *)

(** ** Running their programs: general facts *)

Section AppFacts.

Import App.

Context {World : Type} (h : Handler' World).

Lemma run'_bind {A B} (p : Prog' A) (f : A -> Prog' B) (w : World) :
  run' h (bind' p f) w =
  match Run'.outcome (run' h p w) with
  | inl e =>
      Run'.mk (inl e) (Run'.final (run' h p w)) (Run'.trace (run' h p w))
  | inr x =>
      let R := run' h (f x) (Run'.final (run' h p w)) in
      Run'.mk (Run'.outcome R) (Run'.final R)
              (Run'.trace (run' h p w) ++ Run'.trace R)
  end.
Proof.
  revert w; induction p as [x | e | a k IH]; intro w; simpl.
  - destruct (run' h (f x) w); reflexivity.
  - reflexivity.
  - destruct (h w a) as [r w']. simpl. rewrite IH.
    destruct (Run'.outcome (run' h (k r) w')); reflexivity.
Qed.

Lemma run'_try_catch {A} (p : Prog' A) (c : Thrown' -> Prog' A)
    (w : World) :
  run' h (try_catch' p c) w =
  match Run'.outcome (run' h p w) with
  | inr x => run' h p w
  | inl e =>
      let R := run' h (c e) (Run'.final (run' h p w)) in
      Run'.mk (Run'.outcome R) (Run'.final R)
              (Run'.trace (run' h p w) ++ Run'.trace R)
  end.
Proof.
  revert w; induction p as [x | e | a k IH]; intro w; simpl.
  - reflexivity.
  - destruct (run' h (c e) w); reflexivity.
  - destruct (h w a) as [r w']. simpl. rewrite IH.
    destruct (Run'.outcome (run' h (k r) w')) eqn:O; simpl.
    + reflexivity.
    + rewrite O. destruct (run' h (k r) w'); reflexivity.
Qed.

Lemma run'_try_finally {A} (p : Prog' A) (f : Prog' unit) (w : World) :
  run' h (try_finally' p f) w =
  let R := run' h p w in
  let F := run' h f (Run'.final R) in
  Run'.mk (match Run'.outcome F with
           | inl e => inl e
           | inr _ => Run'.outcome R
           end)
          (Run'.final F) (Run'.trace R ++ Run'.trace F).
Proof.
  revert w; induction p as [x | e | a k IH]; intro w; simpl.
  - rewrite run'_bind. destruct (Run'.outcome (run' h f w)); simpl;
      rewrite ?app_nil_r; reflexivity.
  - rewrite run'_bind. destruct (Run'.outcome (run' h f w)); simpl;
      rewrite ?app_nil_r; reflexivity.
  - destruct (h w a) as [r w']. simpl. rewrite IH. reflexivity.
Qed.

(** A lifted program runs as it does below, against the facade's part of
    the handler. *)
Lemma run'_lift {T} (p : Prog T) (w : World) :
  run' h (lift p) w =
  let R := run (core h) p w in
  Run'.mk (match Run.outcome R with
           | inl e => inl (Facade e)
           | inr x => inr x
           end)
          (Run.final R)
          (map (fun ev : Event =>
                  existT result' (Core (projT1 ev)) (projT2 ev))
               (Run.trace R)).
Proof.
  revert w; induction p as [x | e | a k IH]; intro w; simpl.
  - reflexivity.
  - reflexivity.
  - change (core h w a) with (h w (Core a)).
    destruct (h w (Core a)) as [r w']. simpl. rewrite IH. reflexivity.
Qed.

Lemma actions'_app (t1 t2 : list Event') :
  actions' (t1 ++ t2) = actions' t1 ++ actions' t2.
Proof. apply map_app. Qed.

Lemma actions'_lift {T} (p : Prog T) (w : World) :
  actions' (Run'.trace (run' h (lift p) w))
  = map Core (actions (Run.trace (run (core h) p w))).
Proof.
  rewrite run'_lift. simpl. unfold actions', actions.
  rewrite !map_map. reflexivity.
Qed.

Lemma state_after_app (t1 t2 : list Event') (st : AuthState.t) :
  state_after (t1 ++ t2) st = state_after t2 (state_after t1 st).
Proof.
  unfold state_after. rewrite actions'_app. apply fold_left_app.
Qed.

End AppFacts.

(* ------------------------------------------------------------------ *)
(** ** [src/lib/supabase.ts] *)

Lemma access_token_or_null_some (session : option Session.t) (t : string) :
  access_token_or_null session = Some t <->
  t <> "" /\ exists s, session = Some s /\ Session.access_token s = t.
Proof.
  unfold access_token_or_null. destruct session as [s|].
  - destruct (str_falsy (Session.access_token s)) eqn:F.
    + apply str_falsy_empty in F. split; [discriminate|].
      intros (N & s' & E & T). injection E as <-. congruence.
    + split.
      * intro E. injection E as <-. split; [|eauto].
        intro E. apply str_falsy_empty in E. congruence.
      * intros (N & s' & E & T). injection E as <-. congruence.
  - split; [discriminate|]. intros (_ & s & E & _). discriminate.
Qed.

Lemma truthy_access_token (session : option Session.t) :
  truthy (access_token_or_null session) = true <->
  exists t, access_token_or_null session = Some t.
Proof.
  unfold truthy. destruct (access_token_or_null session) as [t|] eqn:E.
  - apply access_token_or_null_some in E. destruct E as (N & _).
    split; [eauto|]. intros _. apply Bool.negb_true_iff.
    rewrite <- Bool.not_true_iff_false, str_falsy_empty. exact N.
  - split; [discriminate|]. intros [t E']. discriminate.
Qed.

Section Supabase.

Import App.

Context {World : Type} (h : Handler' World).

Lemma run'_validateJWTToken (w : World) :
  run' h supabase.validateJWTToken w =
  let resp := fst (h w AuthGetUser) in
  Run'.mk (inr (negb (notesApi.is_some (UserResponse.error resp))
                && notesApi.is_some (UserResponse.user resp)))
          (snd (h w AuthGetUser))
          [existT result' AuthGetUser resp].
Proof.
  unfold supabase.validateJWTToken, call'. simpl.
  destruct (h w AuthGetUser) as [resp w']. reflexivity.
Qed.

Lemma validated_iff (resp : UserResponse.t) :
  negb (notesApi.is_some (UserResponse.error resp))
  && notesApi.is_some (UserResponse.user resp) = true
  <-> user_confirmed resp.
Proof.
  unfold user_confirmed.
  destruct (UserResponse.error resp), (UserResponse.user resp); simpl;
    split; intro H; try discriminate; try (destruct H; congruence);
    try (split; congruence); reflexivity.
Qed.

Lemma run'_refreshJWTToken (w : World) :
  run' h supabase.refreshJWTToken w =
  let resp := fst (h w AuthRefreshSession) in
  let w1 := snd (h w AuthRefreshSession) in
  match SessionResponse.error resp with
  | None =>
      Run'.mk (inr (access_token_or_null (SessionResponse.session resp))) w1
              [existT result' AuthRefreshSession resp]
  | Some e =>
      let c := ConsoleError "Failed to refresh JWT token:"
                            (Facade (ThrownAuthError e)) in
      Run'.mk (inr None) (snd (h w1 c))
              [existT result' AuthRefreshSession resp;
               existT result' c (fst (h w1 c))]
  end.
Proof.
  unfold supabase.refreshJWTToken, call'. simpl.
  destruct (h w AuthRefreshSession) as [resp w1]. simpl.
  destruct (SessionResponse.error resp) as [e|]; simpl; [|reflexivity].
  destruct (h w1 _) as [[] w2]. reflexivity.
Qed.

End Supabase.

(** X6.  Against every handler, [refreshJWTToken] never throws.  It
    returns a token only when the remote refresh answered without error
    with a session whose access token is non-empty, and then that token;
    a remote error is written to the console, once, and gives [null]. *)
Theorem refreshJWTToken_never_throws :
  forall (World : Type) (h : App.Handler' World) (w : World),
    let R := App.run' h supabase.refreshJWTToken w in
    let resp := fst (h w App.AuthRefreshSession) in
    (exists t, App.Run'.outcome R = inr t)
    /\ (forall t,
           App.Run'.outcome R = inr (Some t) <->
           SessionResponse.error resp = None
           /\ t <> ""
           /\ exists s, SessionResponse.session resp = Some s
                        /\ Session.access_token s = t)
    /\ (forall e,
           SessionResponse.error resp = Some e ->
           App.Run'.outcome R = inr None
           /\ App.actions' (App.Run'.trace R)
              = [App.AuthRefreshSession;
                 App.ConsoleError "Failed to refresh JWT token:"
                   (App.Facade (ThrownAuthError e))]).
Proof.
  intros World h w R resp. unfold R. rewrite run'_refreshJWTToken.
  fold resp. cbv zeta.
  destruct (SessionResponse.error resp) as [e|] eqn:E; simpl.
  - split; [eauto|]. split.
    + intro t. split; [discriminate|]. intros (X & _). discriminate.
    + intros e' E'. injection E' as <-. auto.
  - split; [eauto|]. split; [|discriminate].
    intro t. rewrite <- access_token_or_null_some. split.
    + intro X. injection X as X. auto.
    + intros (_ & X). rewrite X. reflexivity.
Qed.

(** The refresh is refused. *)
Lemma refreshJWTToken_never_throws_witness :
  let R := App.run' Script.handler supabase.refreshJWTToken
             (Script.start Sample.world Script.refresh_fails) in
  App.Run'.outcome R = inr None
  /\ App.actions' (App.Run'.trace R)
     = [App.AuthRefreshSession;
        App.ConsoleError "Failed to refresh JWT token:"
          (App.Facade
             (ThrownAuthError (AuthError.mk "refresh token revoked")))].
Proof.
  apply (proj2 (proj2 (refreshJWTToken_never_throws
                         Script.World Script.handler
                         (Script.start Sample.world Script.refresh_fails)))).
  reflexivity.
Defined.

(* ------------------------------------------------------------------ *)
(** ** [AuthProvider]: the sign-in requests *)

(** Destructing the handler's answers along a program, earliest world
    first. *)
Ltac answers h :=
  repeat (cbn;
          match goal with
          | H : h ?w ?a = _ |- context [h ?w ?a] => rewrite H
          | |- context [h ?w ?a] =>
              is_var w;
              let r := fresh "r" in
              let w' := fresh "w" in
              destruct (h w a) as [r w'] eqn:?;
              cbn [App.result' result] in r
          end).

(** A run whose trace and outcome are known. *)
Ltac settled :=
  cbn;
  try match goal with
      | H : ?b = _, H' : negb ?b = _ |- _ =>
          rewrite H in H'; discriminate H'
      end;
  repeat match goal with
         | u : unit |- _ => destruct u
         end;
  repeat match goal with
         | |- _ /\ _ => split
         | |- _ <-> _ => split
         end;
  intros;
  try reflexivity;
  try discriminate;
  try match goal with
      | H : inl _ = inl _ |- _ => injection H as <-
      | H : inr _ = inr _ |- _ => injection H as <-
      end;
  cbn in *;
  try solve [ intuition (try discriminate; try congruence; eauto 8) ];
  repeat match goal with
         | H : _ \/ _ |- _ => destruct H
         | H : user_confirmed _ |- _ => apply validated_iff in H
         | H : ~ user_confirmed _ |- _ => rewrite <- validated_iff in H
         end;
  try solve [ intuition (try discriminate; try congruence; eauto 8) ].

(** X7.  Against every handler, none of [signUp], [signIn],
    [signInWithGoogle], [verifyOTP] and [resendOTP] writes the user or
    the authenticated flag.  Each sets the loading flag first and resets
    it last; each shows an error toast exactly when it throws, with the
    message of what it throws or, when that is empty, its own fixed
    text. *)
Theorem sign_in_requests_leave_user_state :
  forall (World : Type) (h : App.Handler' World) (w : World)
         (req : AuthRequest) (st : AuthState.t),
    let R := App.run' h (submit req) w in
    let tr := App.actions' (App.Run'.trace R) in
    let st' := state_after (App.Run'.trace R) st in
    AuthState.user st' = AuthState.user st
    /\ AuthState.isAuthenticated st' = AuthState.isAuthenticated st
    /\ AuthState.loading st' = false
    /\ hd_error tr = Some (App.Core (SetLoading true))
    /\ last tr (App.Core (SetLoading true)) = App.Core (SetLoading false)
    /\ (forall e,
           App.Run'.outcome R = inl e ->
           In (App.Core (ToastError
                           (str_or (App.message' e) (fallback_text req))))
              tr)
    /\ (App.Run'.outcome R = inr tt ->
        forall m, ~ In (App.Core (ToastError m)) tr).
Proof.
  intros World h w req st R tr st'. unfold st', tr, R, state_after.
  destruct req; cbn [submit fallback_text].
  - unfold AuthProvider.signUp, App.call'. answers h.
    match goal with o : option AuthError.t |- _ => destruct o end;
      answers h; settled.
  - unfold AuthProvider.signIn, supabase.validateJWTToken, App.call'.
    answers h.
    match goal with r : SessionResponse.t |- _ =>
      destruct r as [ss [er|]] end; cbn.
    + answers h. settled.
    + destruct (truthy (access_token_or_null ss)); cbn.
      * answers h.
        match goal with r : UserResponse.t |- _ =>
          destruct r as [[u|] [er|]] end; answers h; settled.
      * answers h. settled.
  - unfold AuthProvider.signInWithGoogle, App.call'. answers h.
    match goal with o : option AuthError.t |- _ => destruct o end;
      answers h; settled.
  - unfold AuthProvider.verifyOTP, supabase.validateJWTToken, App.call'.
    answers h.
    match goal with r : SessionResponse.t |- _ =>
      destruct r as [ss [er|]] end; cbn.
    + answers h. settled.
    + destruct (truthy (access_token_or_null ss)); cbn.
      * answers h.
        match goal with r : UserResponse.t |- _ =>
          destruct r as [[u|] [er|]] end; answers h; settled.
      * answers h. settled.
  - unfold AuthProvider.resendOTP, App.call'. answers h.
    match goal with o : option AuthError.t |- _ => destruct o end;
      answers h; settled.
Qed.

(** The remote accepts the password but [getUser] rejects the token. *)
Lemma sign_in_requests_leave_user_state_witness :
  let R := App.run' Script.handler
             (submit (ReqSignIn "alice@example.com" "secret"))
             (Script.start Sample.world Script.user_rejected) in
  App.Run'.outcome R = inl App.InvalidAuthenticationToken
  /\ In (App.Core (ToastError "Invalid authentication token"))
        (App.actions' (App.Run'.trace R)).
Proof.
  split; [vm_compute; reflexivity|].
  apply (proj1 (proj2 (proj2 (proj2 (proj2 (proj2
    (sign_in_requests_leave_user_state
       Script.World Script.handler
       (Script.start Sample.world Script.user_rejected)
       (ReqSignIn "alice@example.com" "secret")
       (AuthState.mk None false false)))))))
    App.InvalidAuthenticationToken).
  vm_compute. reflexivity.
Defined.

Lemma user_confirmed_cases (resp : UserResponse.t) :
  match resp with
  | UserResponse.mk (Some _) None => user_confirmed resp
  | _ => ~ user_confirmed resp
  end.
Proof.
  destruct resp as [[u|] [e|]]; unfold user_confirmed; simpl;
    try (split; congruence); intros [A B]; congruence.
Qed.

(** X8.  Against every handler, [signIn] and [verifyOTP] look again at a
    session the remote has just issued: when the answer carries an
    error, that error is thrown and [getUser] is not asked; when it
    carries no non-empty access token, the call returns without asking
    [getUser]; when it carries one, [getUser] is asked and the call
    returns if it confirms the user and throws "Invalid authentication
    token" if it does not. *)
Theorem signIn_verifyOTP_recheck_the_token :
  forall (World : Type) (h : App.Handler' World) (w : World)
         (email secret : string),
    let w1 := snd (h w (App.Core (SetLoading true))) in
    let signin := App.AuthSignInWithPassword email secret in
    let verify := App.AuthVerifyOtp email secret in
    rechecked (fst (h w1 signin))
              (fst (h (snd (h w1 signin)) App.AuthGetUser))
              (App.run' h (AuthProvider.signIn email secret) w)
    /\ rechecked (fst (h w1 verify))
                 (fst (h (snd (h w1 verify)) App.AuthGetUser))
                 (App.run' h (AuthProvider.verifyOTP email secret) w).
Proof.
  intros World h w email secret. cbv zeta. unfold rechecked. split.
  - unfold AuthProvider.signIn, supabase.validateJWTToken, App.call'.
    answers h.
    match goal with r : SessionResponse.t |- _ =>
      destruct r as [ss [er|]] end; cbn.
    + answers h. settled.
    + pose proof (truthy_access_token ss) as Tr.
      destruct (truthy (access_token_or_null ss)); cbn.
      * destruct (proj1 Tr eq_refl) as [t Et]. rewrite Et. answers h.
        match goal with r : UserResponse.t |- _ =>
          pose proof (user_confirmed_cases r);
          destruct r as [[u|] [er|]] end; answers h; settled.
      * destruct (access_token_or_null ss) as [t|] eqn:Et.
        { assert (false = true) by (apply Tr; eauto). discriminate. }
        answers h. settled.
  - unfold AuthProvider.verifyOTP, supabase.validateJWTToken, App.call'.
    answers h.
    match goal with r : SessionResponse.t |- _ =>
      destruct r as [ss [er|]] end; cbn.
    + answers h. settled.
    + pose proof (truthy_access_token ss) as Tr.
      destruct (truthy (access_token_or_null ss)); cbn.
      * destruct (proj1 Tr eq_refl) as [t Et]. rewrite Et. answers h.
        match goal with r : UserResponse.t |- _ =>
          pose proof (user_confirmed_cases r);
          destruct r as [[u|] [er|]] end; answers h; settled.
      * destruct (access_token_or_null ss) as [t|] eqn:Et.
        { assert (false = true) by (apply Tr; eauto). discriminate. }
        answers h. settled.
Qed.

(** The password is right, the token is not confirmed. *)
Lemma signIn_verifyOTP_recheck_the_token_witness :
  App.Run'.outcome
    (App.run' Script.handler
       (AuthProvider.signIn "alice@example.com" "secret")
       (Script.start Sample.world Script.user_rejected))
  = inl App.InvalidAuthenticationToken.
Proof.
  destruct (signIn_verifyOTP_recheck_the_token
              Script.World Script.handler
              (Script.start Sample.world Script.user_rejected)
              "alice@example.com" "secret") as [(_ & _ & H) _].
  apply H.
  - reflexivity.
  - vm_compute. discriminate.
  - intros [E _]. vm_compute in E. discriminate.
Defined.

(* ------------------------------------------------------------------ *)
(** ** [AuthProvider]: the local session state *)

(** Following a program through every stuck test, after the handler's
    answers. *)
Ltac explore h :=
  repeat (answers h;
          try match goal with
              | |- context [match ?x with _ => _ end] => destruct x eqn:?
              end).

(** X9.  Against every handler, the callback of [onAuthStateChange] never
    throws and leaves the loading flag reset and the authenticated flag
    equal to whether there is a user.  A pushed session becomes the local
    user only if it carries a user and [getUser] then confirms it;
    otherwise the local user is cleared.  Without a user in the pushed
    session [getUser] is not asked. *)
Theorem onAuthStateChange_accepts_only_confirmed_users :
  forall (World : Type) (h : App.Handler' World) (w : World)
         (event : string) (session : option Session.t) (st : AuthState.t),
    let log := App.ConsoleLog ["Auth state changed:"; event;
                               AuthProvider.user_id_or_undefined session] in
    let check := fst (h (snd (h w log)) App.AuthGetUser) in
    let R := App.run' h (AuthProvider.onAuthStateChange event session) w in
    let st' := state_after (App.Run'.trace R) st in
    App.Run'.outcome R = inr tt
    /\ consistent st'
    /\ AuthState.loading st' = false
    /\ (forall u, session_user session = Some u -> user_confirmed check ->
                  AuthState.user st' = Some u)
    /\ (session_user session = None \/ ~ user_confirmed check ->
        AuthState.user st' = None)
    /\ (session_user session = None ->
        ~ In App.AuthGetUser (App.actions' (App.Run'.trace R))).
Proof.
  intros World h w event session st. cbv zeta.
  unfold consistent, state_after.
  unfold AuthProvider.onAuthStateChange, AuthProvider.clear_user,
    supabase.validateJWTToken, App.call'.
  explore h; settled.
Qed.

(** A pushed session for Alice that [getUser] does not confirm. *)
Lemma onAuthStateChange_accepts_only_confirmed_users_witness :
  let R := App.run' Script.handler
             (AuthProvider.onAuthStateChange "SIGNED_IN"
                (Some (Session.mk "token" (Some Sample.alice) (Some 2000))))
             (Script.start Sample.world Script.user_rejected) in
  AuthState.user
    (state_after (App.Run'.trace R)
                 (AuthState.mk (Some Sample.bob) true true))
  = None.
Proof.
  apply (proj1 (proj2 (proj2 (proj2 (proj2
    (onAuthStateChange_accepts_only_confirmed_users
       Script.World Script.handler
       (Script.start Sample.world Script.user_rejected) "SIGNED_IN"
       (Some (Session.mk "token" (Some Sample.alice) (Some 2000)))
       (AuthState.mk (Some Sample.bob) true true))))))).
  right. intros [E _]. vm_compute in E. discriminate.
Defined.

(** X10.  Against every handler, [refreshSession] never throws, leaves
    the loading flag alone and leaves the authenticated flag equal to
    whether there is a user.  When the token refresh gives nothing, the
    user is cleared and the failure is shown; when it gives a token, the
    user becomes the user of the session then read, which may be none,
    and the success is shown. *)
Theorem refreshSession_never_throws :
  forall (World : Type) (h : App.Handler' World) (w : World)
         (st : AuthState.t),
    let T := App.run' h supabase.refreshJWTToken w in
    let again := fst (h (App.Run'.final T) (App.Core AuthGetSession)) in
    let R := App.run' h AuthProvider.refreshSession w in
    let tr := App.actions' (App.Run'.trace R) in
    let st' := state_after (App.Run'.trace R) st in
    App.Run'.outcome R = inr tt
    /\ consistent st'
    /\ AuthState.loading st' = AuthState.loading st
    /\ (App.Run'.outcome T = inr None ->
        AuthState.user st' = None
        /\ In (App.Core
                 (ToastError
                    "Failed to refresh session. Please log in again.")) tr
        /\ ~ In (App.ToastSuccess "Session refreshed successfully") tr)
    /\ (forall t,
           App.Run'.outcome T = inr (Some t) ->
           AuthState.user st'
           = session_user (SessionResponse.session again)
           /\ In (App.ToastSuccess "Session refreshed successfully") tr
           /\ forall m, ~ In (App.Core (ToastError m)) tr).
Proof.
  intros World h w st. cbv zeta.
  unfold consistent, state_after.
  unfold AuthProvider.refreshSession, AuthProvider.clear_user,
    supabase.refreshJWTToken, App.call', truthy, access_token_or_null.
  explore h; settled.
Qed.

(** The refresh is refused: the user is cleared. *)
Lemma refreshSession_never_throws_witness :
  let R := App.run' Script.handler AuthProvider.refreshSession
             (Script.start Sample.world Script.refresh_fails) in
  AuthState.user
    (state_after (App.Run'.trace R)
                 (AuthState.mk (Some Sample.alice) true false))
  = None.
Proof.
  apply (proj1 (proj2 (proj2 (proj2
    (refreshSession_never_throws
       Script.World Script.handler
       (Script.start Sample.world Script.refresh_fails)
       (AuthState.mk (Some Sample.alice) true false)))))).
  vm_compute. reflexivity.
Defined.


(** The closing step for [initializeAuth]: where the user, if any, came
    from. *)
Ltac user_origin :=
  match goal with
  | Hb : negb (notesApi.is_some (UserResponse.error ?r))
         && notesApi.is_some (UserResponse.user ?r) = true |- _ =>
      left; split; [congruence | apply validated_iff; exact Hb]
  | Hb : negb (notesApi.is_some (UserResponse.error ?r))
         && notesApi.is_some (UserResponse.user ?r) = false |- _ =>
      right; split; [congruence|];
      split; [rewrite <- validated_iff; congruence|];
      split; [eexists; reflexivity | congruence]
  end.

(** X11.  Against every handler, [initializeAuth] never throws, resets
    the loading flag last and leaves the authenticated flag equal to
    whether there is a user.  A user ends up in the local state only in
    two ways: the stored session carries that user and [getUser]
    confirms it; or [getUser] does not confirm it, the token refresh
    gives a token and the session read afterwards carries that user. *)
Theorem initializeAuth_sets_only_checked_users :
  forall (World : Type) (h : App.Handler' World) (w : World)
         (st : AuthState.t),
    let stored := fst (h w (App.Core AuthGetSession)) in
    let w1 := snd (h w (App.Core AuthGetSession)) in
    let check := fst (h w1 App.AuthGetUser) in
    let T := App.run' h supabase.refreshJWTToken (snd (h w1 App.AuthGetUser)) in
    let again := fst (h (App.Run'.final T) (App.Core AuthGetSession)) in
    let R := App.run' h AuthProvider.initializeAuth w in
    let st' := state_after (App.Run'.trace R) st in
    App.Run'.outcome R = inr tt
    /\ consistent st'
    /\ AuthState.loading st' = false
    /\ (exists before,
           App.actions' (App.Run'.trace R)
           = before ++ [App.Core (SetLoading false)])
    /\ (forall u,
           AuthState.user st' = Some u ->
           (session_user (SessionResponse.session stored) = Some u
            /\ user_confirmed check)
           \/ (session_user (SessionResponse.session stored) <> None
               /\ ~ user_confirmed check
               /\ (exists t, App.Run'.outcome T = inr (Some t))
               /\ session_user (SessionResponse.session again) = Some u)).
Proof.
  intros World h w st. cbv zeta.
  unfold consistent, state_after.
  unfold AuthProvider.initializeAuth, AuthProvider.clear_user,
    supabase.validateJWTToken, supabase.refreshJWTToken, App.call',
    truthy, access_token_or_null.
  explore h; cbn;
    try match goal with
        | H : ?b = _, H' : negb ?b = _ |- _ =>
            rewrite H in H'; discriminate H'
        end;
    repeat match goal with u : unit |- _ => destruct u end;
    (split; [reflexivity|]);
    (split; [reflexivity|]);
    (split; [reflexivity|]);
    (split; [match goal with
             | |- exists b, ?l = b ++ _ =>
                 exists (removelast l); reflexivity
             end |]);
    intros u Hu; cbn in Hu; try discriminate Hu;
    try (exfalso; congruence); user_origin.
Qed.

(** Start-up with a stored session that is not confirmed and cannot be
    refreshed: nobody is signed in, and loading is over. *)
Lemma initializeAuth_sets_only_checked_users_witness :
  let R := App.run' Script.handler AuthProvider.initializeAuth
             (Script.start Sample.world Script.refresh_fails) in
  let st' := state_after (App.Run'.trace R)
                         (AuthState.mk None false true) in
  App.Run'.outcome R = inr tt
  /\ consistent st'
  /\ AuthState.loading st' = false.
Proof.
  destruct (initializeAuth_sets_only_checked_users
              Script.World Script.handler
              (Script.start Sample.world Script.refresh_fails)
              (AuthState.mk None false true)) as (A & B & C & _).
  auto.
Defined.


(* ------------------------------------------------------------------ *)
(** ** [DashboardPage] *)

Section FacadeForPages.

Context {World : Type} (h : Handler World).

Lemma verifyNoteOwnership_returns (noteId : string) (w : World) :
  exists b,
    Run.outcome (run h (notesApi.verifyNoteOwnership noteId) w) = inr b.
Proof.
  unfold notesApi.verifyNoteOwnership.
  match goal with
  | |- context [try_catch ?b ?c] => set (body := b); set (handle := c)
  end.
  destruct (Run.outcome (run h body w)) as [e|b] eqn:E.
  - rewrite (run_try_catch_throws h body handle w e E). simpl. eauto.
  - rewrite (run_try_catch_returns h body handle w b E), E. eauto.
Qed.

Lemma deleteNote_throws (id : string) (w : World) :
  exists e, Run.outcome (run h (notesApi.deleteNote id) w) = inl e.
Proof.
  unfold notesApi.deleteNote.
  destruct (str_falsy id); [simpl; eauto|].
  rewrite run_bind.
  destruct (Run.outcome (run h (makeAuthenticatedRequest _) w))
    as [e|x] eqn:E; simpl; [eauto|].
  destruct (makeAuthenticatedRequest_returns h _ w x E)
    as (s & r & _ & O & _ & D).
  apply deleteNote_operation_data in O. congruence.
Qed.

Lemma signOut_actions (w : World) :
  actions (Run.trace (run h signOut w))
  = match fst (h (snd (h w (SetLoading true))) AuthSignOut) with
    | None =>
        [SetLoading true; AuthSignOut; SetUser None;
         SetIsAuthenticated false; SetLoading false]
    | Some e =>
        [SetLoading true; AuthSignOut;
         ToastError (str_or (AuthError.message e) "Failed to sign out");
         SetLoading false]
    end.
Proof.
  unfold signOut, call. simpl.
  destruct (h w (SetLoading true)) as [[] w1]. simpl.
  destruct (h w1 AuthSignOut) as [[e|] w2]; simpl.
  - destruct (h w2 (ToastError _)) as [[] w3]. simpl.
    destruct (h w3 (SetLoading false)) as [[] w4]. reflexivity.
  - destruct (h w2 (SetUser None)) as [[] w3]. simpl.
    destruct (h w3 (SetIsAuthenticated false)) as [[] w4]. simpl.
    destruct (h w4 (SetLoading false)) as [[] w5]. reflexivity.
Qed.

End FacadeForPages.

Section Alphabets.

Context {World : Type}.

Lemma only_bind {A B} (P : action -> Prop) (p : Prog A) (f : A -> Prog B) :
  only P p -> (forall x, only P (f x)) -> only P (bind p f).
Proof.
  intros Hp Hf. induction Hp; simpl; auto using only_Throw.
  apply only_Act; auto.
Qed.

Lemma only_try_catch {A} (P : action -> Prop) (p : Prog A)
    (c : Thrown -> Prog A) :
  only P p -> (forall e, only P (c e)) -> only P (try_catch p c).
Proof.
  intros Hp Hc. induction Hp; simpl; auto using only_Ret.
  apply only_Act; auto.
Qed.

Lemma only_try_finally {A} (P : action -> Prop) (p : Prog A)
    (f : Prog unit) :
  only P p -> only P f -> only P (try_finally p f).
Proof.
  intros Hp Hf. induction Hp; simpl.
  - apply only_bind; auto using only_Ret.
  - apply only_bind; auto using only_Throw.
  - apply only_Act; auto.
Qed.

Lemma only_weaken {A} (P Q : action -> Prop) (p : Prog A) :
  (forall a, P a -> Q a) -> only P p -> only Q p.
Proof. intros PQ Hp. induction Hp; constructor; auto. Qed.

Lemma only_trace {A} (P : action -> Prop) (h : Handler World)
    (p : Prog A) (w : World) :
  only P p -> Forall P (actions (Run.trace (run h p w))).
Proof.
  intro Hp. revert w. induction Hp as [x | e | a k Pa Hk IH]; intro w; simpl.
  - constructor.
  - constructor.
  - destruct (h w a) as [r w']. simpl. constructor; [exact Pa | apply IH].
Qed.

Lemma only'_bind {A B} (P : App.action' -> Prop) (p : App.Prog' A)
    (f : A -> App.Prog' B) :
  only' P p -> (forall x, only' P (f x)) -> only' P (App.bind' p f).
Proof.
  intros Hp Hf. induction Hp; simpl; auto using only_Throw'.
  apply only_Act'; auto.
Qed.

Lemma only'_try_catch {A} (P : App.action' -> Prop) (p : App.Prog' A)
    (c : App.Thrown' -> App.Prog' A) :
  only' P p -> (forall e, only' P (c e)) -> only' P (App.try_catch' p c).
Proof.
  intros Hp Hc. induction Hp; simpl; auto using only_Ret'.
  apply only_Act'; auto.
Qed.

Lemma only'_try_finally {A} (P : App.action' -> Prop) (p : App.Prog' A)
    (f : App.Prog' unit) :
  only' P p -> only' P f -> only' P (App.try_finally' p f).
Proof.
  intros Hp Hf. induction Hp; simpl.
  - apply only'_bind; auto using only_Ret'.
  - apply only'_bind; auto using only_Throw'.
  - apply only_Act'; auto.
Qed.

Lemma only'_lift {A} (P : App.action' -> Prop) (p : Prog A) :
  (forall a, P (App.Core a)) -> only' P (App.lift p).
Proof.
  intro Hc. induction p; simpl; constructor; auto.
Qed.

Lemma only'_lift_from {A} (Q : action -> Prop) (P : App.action' -> Prop)
    (p : Prog A) :
  (forall a, Q a -> P (App.Core a)) -> only Q p -> only' P (App.lift p).
Proof.
  intros QP Hp. induction Hp; simpl; constructor; auto.
Qed.

Lemma only'_trace {A} (P : App.action' -> Prop) (h : App.Handler' World)
    (p : App.Prog' A) (w : World) :
  only' P p -> Forall P (App.actions' (App.Run'.trace (App.run' h p w))).
Proof.
  intro Hp. revert w. induction Hp as [x | e | a k Pa Hk IH]; intro w; simpl.
  - constructor.
  - constructor.
  - destruct (h w a) as [r w']. simpl. constructor; [exact Pa | apply IH].
Qed.

End Alphabets.

(** Walking a program of the facade to check its requests. *)
Ltac walk :=
  repeat first
    [ apply only_Ret | apply only_Throw
    | apply only_Act; [ | intro ]
    | apply only_bind; [ | intro ]
    | apply only_try_catch; [ | intro ]
    | apply only_try_finally
    | match goal with
      | |- only _ (match ?x with _ => _ end) => destruct x
      end ].

Lemma getAuthenticatedSession_only :
  only facade_request getAuthenticatedSession.
Proof.
  unfold getAuthenticatedSession, call, facade_request. walk; auto.
Qed.

Lemma makeAuthenticatedRequest_only {T} (operation : Prog (Response.t T)) :
  only facade_request operation ->
  only facade_request (makeAuthenticatedRequest operation).
Proof.
  intro H. unfold makeAuthenticatedRequest.
  apply only_bind; [apply getAuthenticatedSession_only | intro s].
  apply only_bind; [exact H | intro r]. walk.
Qed.

Lemma session_user_id_only (s : Session.t) :
  only facade_request (session_user_id s).
Proof. unfold session_user_id. walk. Qed.

Lemma facade_only (op : FacadeOp) (noteId : string) :
  only facade_request (perform op)
  /\ only facade_request (notesApi.verifyNoteOwnership noteId).
Proof.
  split.
  - destruct op; cbn [perform];
      unfold notesApi.getNotes, notesApi.createNote, notesApi.updateNote,
        notesApi.deleteNote;
      (apply only_bind; [ | intro; apply only_Ret ]);
      repeat match goal with
             | |- only _ (if ?b then _ else _) =>
                 destruct b; [apply only_Throw|]
             end;
      try (apply only_bind; [ | intro; apply only_Ret ]);
      apply makeAuthenticatedRequest_only;
      unfold notesApi.getNotes_operation, notesApi.createNote_operation,
        notesApi.updateNote_operation, notesApi.deleteNote_operation, call;
      (apply only_bind; [apply getAuthenticatedSession_only | intro]);
      repeat first
        [ apply only_bind; [apply session_user_id_only | intro]
        | apply only_Act; [unfold facade_request; auto | intro]
        | apply only_Ret ].
  - unfold notesApi.verifyNoteOwnership, call.
    apply only_try_catch; [ | intro; apply only_Ret ].
    apply only_bind; [apply getAuthenticatedSession_only | intro].
    apply only_bind; [apply session_user_id_only | intro].
    apply only_Act; [unfold facade_request; auto | intro]. apply only_Ret.
Qed.

(** X13.  On every path, whatever the answers, the four operations of the
    facade and [verifyNoteOwnership] ask only for the session, for the
    time and for notes: they never sign out, never write local state and
    never show anything. *)
Theorem facade_requests_only :
  forall (op : FacadeOp) (noteId : string),
    only facade_request (perform op)
    /\ only facade_request (notesApi.verifyNoteOwnership noteId).
Proof. exact facade_only. Qed.


Section Pages.

Import App.

Context {World : Type} (h : Handler' World).

Lemma Forall_lifted {T} (P : action' -> Prop) (p : Prog T) (w : World) :
  (forall a, P (Core a)) ->
  Forall P (actions' (Run'.trace (run' h (lift p) w))).
Proof.
  intro Hc. apply only'_trace, only'_lift, Hc.
Qed.

Lemma on_failure_quiet (label fallback : string) (e : Thrown') :
  only' quiet (DashboardPage.on_failure label fallback e).
Proof.
  unfold DashboardPage.on_failure, call'.
  apply only_Act'; [exact I | intro].
  destruct (DashboardPage.is_session_failure e).
  - apply only_Act'; [exact I | intro].
    apply only'_lift. intro; exact I.
  - apply only_Act'; [exact I | intro]. apply only_Ret'.
Qed.

Lemma run'_call (a : action') (w : World) :
  run' h (call' a) w
  = Run'.mk (inr (fst (h w a))) (snd (h w a))
            [existT result' a (fst (h w a))].
Proof. unfold call'. simpl. destruct (h w a). reflexivity. Qed.

(** [deleteNote], lifted, throws. *)
Lemma lifted_deleteNote_throws (id : string) (w : World) :
  exists e,
    Run'.outcome (run' h (lift (notesApi.deleteNote id)) w)
    = inl (Facade e).
Proof.
  rewrite run'_lift. destruct (deleteNote_throws (core h) id w) as [e E].
  cbv zeta. cbn [Run'.outcome]. rewrite E. eauto.
Qed.

Lemma lifted_verify_returns (id : string) (w : World) :
  exists b,
    Run'.outcome (run' h (lift (notesApi.verifyNoteOwnership id)) w)
    = inr b.
Proof.
  rewrite run'_lift.
  destruct (verifyNoteOwnership_returns (core h) id w) as [b E].
  cbv zeta. cbn [Run'.outcome]. rewrite E. eauto.
Qed.

End Pages.

(** X14.  Against every handler, [handleDeleteNote] never replaces the
    page's list of notes and never announces a success: when the user
    confirms, is authenticated and passes the ownership check,
    [deleteNote] is called and throws, and the run goes on in the catch
    block, where what was thrown is written to the console. *)
Theorem handleDeleteNote_never_reports_success :
  forall (World : Type) (h : App.Handler' World) (w : World)
         (isAuthenticated : bool) (notes : list Note.t) (id : string),
    let ask := App.WindowConfirm
                 "Are you sure you want to delete this note?" in
    let V := run (App.core h) (notesApi.verifyNoteOwnership id)
                 (snd (h w ask)) in
    let D := run (App.core h) (notesApi.deleteNote id) (Run.final V) in
    let R := App.run' h
               (DashboardPage.handleDeleteNote isAuthenticated notes id) w in
    let tr := App.actions' (App.Run'.trace R) in
    Forall quiet tr
    /\ (fst (h w ask) = true -> isAuthenticated = true ->
        Run.outcome V = inr true ->
        exists e,
          Run.outcome D = inl e
          /\ In (App.ConsoleError "Failed to delete note:" (App.Facade e))
                tr).
Proof.
  intros World h w isAuthenticated notes id. cbv zeta.
  unfold DashboardPage.handleDeleteNote.
  rewrite run'_bind, run'_call. cbn [App.Run'.outcome App.Run'.final].
  destruct (fst (h w (App.WindowConfirm _))); cbn [negb].
  2:{ cbn. split; [repeat constructor | discriminate]. }
  cbv zeta. cbn [App.Run'.trace App.Run'.outcome].
  set (w1 := snd (h w (App.WindowConfirm _))).
  rewrite run'_try_catch.
  destruct isAuthenticated; cbn [negb].
  2:{ rewrite run'_call. cbn. split; [repeat constructor | discriminate]. }
  rewrite run'_bind.
  assert (Qv : Forall quiet
                 (App.actions'
                    (App.Run'.trace
                       (App.run' h
                          (App.lift (notesApi.verifyNoteOwnership id)) w1))))
    by (apply Forall_lifted; intro; exact I).
  rewrite run'_lift in *. cbv zeta in *.
  cbn [App.Run'.outcome App.Run'.final App.Run'.trace] in *.
  destruct (Run.outcome
              (run (App.core h) (notesApi.verifyNoteOwnership id) w1))
    as [e|b] eqn:Hb.
  { destruct (verifyNoteOwnership_returns (App.core h) id w1) as [b Eb].
    congruence. }
  cbn [App.Run'.outcome App.Run'.final App.Run'.trace] in *.
  set (w2 := Run.final
               (run (App.core h) (notesApi.verifyNoteOwnership id) w1)) in *.
  destruct b; cbn [negb].
  2:{ rewrite run'_call. cbn [App.Run'.outcome App.Run'.trace].
      split; [|discriminate].
      rewrite !actions'_app. cbn. constructor; [exact I|].
      apply Forall_app. split; [exact Qv | repeat constructor]. }
  rewrite run'_bind.
  assert (Qd : Forall quiet
                 (App.actions'
                    (App.Run'.trace
                       (App.run' h (App.lift (notesApi.deleteNote id)) w2))))
    by (apply Forall_lifted; intro; exact I).
  rewrite run'_lift in *. cbv zeta in *.
  cbn [App.Run'.outcome App.Run'.final App.Run'.trace] in *.
  destruct (deleteNote_throws (App.core h) id w2) as [e He]. rewrite He.
  cbn [App.Run'.outcome App.Run'.final App.Run'.trace].
  set (w3 := Run.final (run (App.core h) (notesApi.deleteNote id) w2)).
  pose proof (only'_trace quiet h _ w3
                (on_failure_quiet "Failed to delete note:"
                                  "Failed to delete note" (App.Facade e)))
    as Qf.
  split.
  - rewrite !actions'_app. cbn [App.actions' map projT1].
    constructor; [exact I|].
    repeat (apply Forall_app; split); assumption.
  - intros _ _ _. exists e. split; [reflexivity|].
    rewrite !actions'_app. cbn [App.actions' map projT1]. right.
    apply in_or_app. right.
    unfold DashboardPage.on_failure. rewrite run'_bind, run'_call.
    cbn [App.Run'.outcome App.Run'.final App.Run'.trace].
    cbv zeta. cbn [App.Run'.trace]. cbn [app App.actions' map projT1].
    apply in_or_app. right. left. reflexivity.
Qed.

Lemma handleDeleteNote_never_reports_success_witness :
  let R := App.run' Script.handler
             (DashboardPage.handleDeleteNote true Sample.table "n1")
             (Script.start Sample.world Script.all_well) in
  (exists e,
      Run.outcome
        (run (App.core Script.handler) (notesApi.deleteNote "n1")
             (Script.start Sample.world Script.all_well)) = inl e
      /\ In (App.ConsoleError "Failed to delete note:" (App.Facade e))
            (App.actions' (App.Run'.trace R)))
  /\ map Note.id (Db.rows (Script.db (App.Run'.final R))) = ["n2"; "n3"]
  /\ In (App.Core (ToastError "No data returned from the server."))
        (App.actions' (App.Run'.trace R)).
Proof.
  split; [|split; vm_compute;
              [reflexivity | repeat first [left; reflexivity | right]]].
  apply (proj2 (handleDeleteNote_never_reports_success
                  Script.World Script.handler
                  (Script.start Sample.world Script.all_well)
                  true Sample.table "n1")).
  - reflexivity.
  - reflexivity.
  - vm_compute. reflexivity.
Defined.



Ltac the_call' :=
  match goal with
  | |- context [@App.run' _ _ ?h (App.call' ?a) ?w] =>
      let RC := fresh "RC" in
      pose proof (run'_call h a) as RC;
      first [ rewrite RC | cbn [App.result' result] in RC; rewrite RC ];
      clear RC
  end.


Ltac in_trace :=
  unfold App.actions' in *; rewrite ?map_app; cbn [map projT1 app];
  repeat progress (rewrite ?in_app_iff; cbn [In]).


Ltac pick := first [ reflexivity | assumption | left; pick | right; pick ].



(** ** [NoteModal] and what the page's handlers let through *)

Lemma signOut_outcome {World} (h : Handler World) (w : World) :
  Run.outcome (run h signOut w)
  = match fst (h (snd (h w (SetLoading true))) AuthSignOut) with
    | None => inr tt
    | Some e => inl (ThrownAuthError e)
    end.
Proof.
  unfold signOut, call. simpl.
  destruct (h w (SetLoading true)) as [[] w1]. simpl.
  destruct (h w1 AuthSignOut) as [[e|] w2]; simpl.
  - destruct (h w2 (ToastError _)) as [[] w3]. simpl.
    destruct (h w3 (SetLoading false)) as [[] w4]. reflexivity.
  - destruct (h w2 (SetUser None)) as [[] w3]. simpl.
    destruct (h w3 (SetIsAuthenticated false)) as [[] w4]. simpl.
    destruct (h w4 (SetLoading false)) as [[] w5]. reflexivity.
Qed.

(** The catch block of the handlers throws only what a failed sign-out
    throws. *)
Lemma on_failure_throws {World} (h : App.Handler' World)
    (label fallback : string) (error : App.Thrown') (w : World)
    (e : App.Thrown') :
  let R := App.run' h (DashboardPage.on_failure label fallback error) w in
  App.Run'.outcome R = inl e ->
  exists ae,
    e = App.Facade (ThrownAuthError ae)
    /\ DashboardPage.is_session_failure error = true
    /\ In (App.Core AuthSignOut) (App.actions' (App.Run'.trace R))
    /\ In (App.Core
             (ToastError (str_or (AuthError.message ae) "Failed to sign out")))
          (App.actions' (App.Run'.trace R)).
Proof.
  cbv zeta. unfold DashboardPage.on_failure.
  rewrite run'_bind. the_call'. cbv zeta.
  cbn [App.Run'.outcome App.Run'.final App.Run'.trace].
  destruct (DashboardPage.is_session_failure error).
  - rewrite run'_bind. the_call'. cbv zeta.
    cbn [App.Run'.outcome App.Run'.final App.Run'.trace].
    match goal with
    | |- context [App.run' h (App.lift signOut) ?w3] =>
        pose proof (actions'_lift h signOut w3) as A;
        rewrite (signOut_actions (App.core h) w3) in A;
        pose proof (run'_lift h signOut w3) as O;
        apply (f_equal App.Run'.outcome) in O;
        cbv zeta in O; cbn [App.Run'.outcome] in O;
        rewrite (signOut_outcome (App.core h) w3) in O
    end.
    rewrite O. intro E.
    destruct (fst (App.core h _ AuthSignOut)) as [ae|]; [|discriminate E].
    injection E as <-. exists ae.
    assert (So1 : In (App.Core AuthSignOut) (App.actions' (App.Run'.trace
              (App.run' h (App.lift signOut) (snd (h (snd (h w
                 (App.ConsoleError label error)))
                 (App.Core (ToastError
                    "Session expired. Please log in again."))))))))
      by (rewrite A; cbn [map In]; pick).
    assert (So2 : In (App.Core (ToastError
                (str_or (AuthError.message ae) "Failed to sign out")))
              (App.actions' (App.Run'.trace
              (App.run' h (App.lift signOut) (snd (h (snd (h w
                 (App.ConsoleError label error)))
                 (App.Core (ToastError
                    "Session expired. Please log in again."))))))))
      by (rewrite A; cbn [map In]; pick).
    clear A O. in_trace.
    repeat split; first [ pick | right; right; exact So1
                        | right; right; exact So2 ].
  - the_call'. discriminate.
Qed.

Lemma guarded_throws {World} (h : App.Handler' World) (p : App.Prog' unit)
    (label fallback : string) (w : World) (e : App.Thrown') :
  let R := App.run' h
             (App.try_catch' p (DashboardPage.on_failure label fallback)) w in
  App.Run'.outcome R = inl e ->
  exists ae,
    e = App.Facade (ThrownAuthError ae)
    /\ In (App.Core AuthSignOut) (App.actions' (App.Run'.trace R))
    /\ In (App.Core
             (ToastError (str_or (AuthError.message ae) "Failed to sign out")))
          (App.actions' (App.Run'.trace R)).
Proof.
  cbv zeta. rewrite run'_try_catch.
  destruct (App.Run'.outcome (App.run' h p w)) as [e0|x] eqn:E.
  - cbv zeta. cbn [App.Run'.outcome App.Run'.trace]. intro F.
    apply on_failure_throws in F. destruct F as (ae & -> & _ & A & B).
    exists ae. rewrite actions'_app, !in_app_iff. auto.
  - rewrite E. discriminate.
Qed.

(** X16.  Against every handler, [NoteModal]'s [handleSave] never throws,
    whatever [onSave] and [onClose] do.  With a title that is empty once
    trimmed it does nothing at all.  Otherwise it raises the saving flag
    first and lowers it last, hands [onSave] the note's id (the empty
    string for a new note) with title and content trimmed, and calls
    [onClose] exactly when [onSave] returned: when [onSave] throws, the
    modal stays open. *)
Theorem handleSave_closes_only_after_a_save :
  forall (World : Type) (h : App.Handler' World) (w : World)
         (note : option Note.t) (title content : JsString.t)
         (onSave : string -> JsString.t -> JsString.t -> App.Prog' unit)
         (onClose : App.Prog' unit),
    let id := match note with Some n => Note.id n | None => EmptyString end in
    let S := App.run' h
               (onSave id (JsString.trim title) (JsString.trim content))
               (snd (h w (App.SetIsSaving true))) in
    let C := App.run' h onClose (App.Run'.final S) in
    let R := App.run' h
               (NoteModal.handleSave note title content onSave onClose) w in
    let tr := App.actions' (App.Run'.trace R) in
    App.Run'.outcome R = inr tt
    /\ (JsString.falsy (JsString.trim title) = true ->
        tr = [] /\ App.Run'.final R = w)
    /\ (JsString.falsy (JsString.trim title) = false ->
        forall e, App.Run'.outcome S = inl e ->
        tr = App.SetIsSaving true :: App.actions' (App.Run'.trace S)
             ++ [App.SetIsSaving false])
    /\ (JsString.falsy (JsString.trim title) = false ->
        App.Run'.outcome S = inr tt ->
        tr = App.SetIsSaving true :: App.actions' (App.Run'.trace S)
             ++ App.actions' (App.Run'.trace C)
             ++ [App.SetIsSaving false]).
Proof.
  intros World h w note title content onSave onClose. cbv zeta.
  unfold NoteModal.handleSave.
  destruct (JsString.falsy (JsString.trim title)).
  { cbn. repeat split; intros; try reflexivity; discriminate. }
  rewrite run'_bind. the_call'. cbv zeta.
  cbn [App.Run'.outcome App.Run'.final App.Run'.trace].
  rewrite run'_try_finally. cbv zeta. the_call'.
  cbn [App.Run'.outcome App.Run'.final App.Run'.trace].
  rewrite run'_try_catch, run'_bind.
  set (w1 := snd (h w (App.SetIsSaving true))).
  replace (match note with
           | Some n =>
               onSave (Note.id n) (JsString.trim title) (JsString.trim content)
           | None => onSave EmptyString (JsString.trim title) (JsString.trim content)
           end)
    with (onSave match note with Some n => Note.id n | None => EmptyString end
            (JsString.trim title) (JsString.trim content))
    by (destruct note; reflexivity).
  set (S := App.run' h _ w1).
  destruct (App.Run'.outcome S) as [e|[]] eqn:ES.
  - cbn [App.Run'.outcome App.Run'.final App.Run'.trace].
    cbn. split; [reflexivity|]. split; [discriminate|].
    split; [|discriminate]. intros _ e0 _.
    unfold App.actions'. rewrite !map_app, app_nil_r. reflexivity.
  - cbv zeta. cbn [App.Run'.outcome App.Run'.final App.Run'.trace].
    set (C := App.run' h onClose (App.Run'.final S)).
    destruct (App.Run'.outcome C) as [ec|[]] eqn:EC;
      cbn [App.Run'.outcome App.Run'.final App.Run'.trace App.run'];
      (split; [first [reflexivity | exact EC]|]);
      (split; [discriminate|]);
      (split; [intros _ e0 X; discriminate X|]);
      intros _ _; unfold App.actions';
      rewrite !map_app; cbn [map projT1 app];
      rewrite <- ?app_assoc, ?app_nil_r; reflexivity.
Qed.

(** A title of blanks saves nothing; Alice's new note closes the modal;
    when the save is rejected the modal stays open. *)
Lemma handleSave_closes_only_after_a_save_witness :
  let save d title :=
    App.actions'
      (App.Run'.trace
         (App.run' Script.handler
            (NoteModal.handleSave None (JsString.of_string title)
               (JsString.of_string "text")
               (DashboardPage.onSave true Sample.table None)
               DashboardPage.onClose)
            (Script.start d Script.all_well))) in
  save Sample.world "   " = []
  /\ In (App.SetIsModalOpen false) (save Sample.world " hi ")
  /\ ~ In (App.SetIsModalOpen false) (save locked_out " hi ").
Proof.
  pose proof (fun d title =>
    handleSave_closes_only_after_a_save
      Script.World Script.handler (Script.start d Script.all_well)
      None (JsString.of_string title) (JsString.of_string "text")
      (DashboardPage.onSave true Sample.table None)
      DashboardPage.onClose) as T.
  cbv zeta in *. split; [|split].
  - apply (proj1 (proj2 (T Sample.world "   "))). reflexivity.
  - refine (eq_ind_r (fun l => In _ l) _
              (proj2 (proj2 (proj2 (T Sample.world " hi ")))
                 eq_refl eq_refl)).
    vm_compute. pick.
  - refine (eq_ind_r (fun l => ~ In _ l) _
              (proj1 (proj2 (proj2 (T locked_out " hi ")))
                 eq_refl (App.Facade (ThrownAuthError (AuthError.mk "network down")))
                 eq_refl)).
    vm_compute. intro X. decompose [or] X; try discriminate; contradiction.
Defined.

(** X17.  Against every handler, what the page's handlers let through:
    [loadNotes], [handleCreateNote], [handleUpdateNote] and
    [handleDeleteNote] throw only the error of a failed sign-out: the
    sign-out was requested in the run and the message of its error (or
    "Failed to sign out" when that is empty) was shown as a toast;
    [handleSignOut] and [handleRefreshSession] never throw. *)
Theorem page_handlers_throw_only_a_failed_sign_out :
  forall (World : Type) (h : App.Handler' World) (w : World)
         (isAuthenticated : bool) (notes : list Note.t) (id : string)
         (title content : JsString.t) (e : App.Thrown'),
    let failed_sign_out (tr : list App.action') :=
      exists ae,
        e = App.Facade (ThrownAuthError ae)
        /\ In (App.Core AuthSignOut) tr
        /\ In (App.Core
                 (ToastError
                    (str_or (AuthError.message ae) "Failed to sign out"))) tr in
    let thrown (p : App.Prog' unit) :=
      App.Run'.outcome (App.run' h p w) = inl e ->
      failed_sign_out (App.actions' (App.Run'.trace (App.run' h p w))) in
    thrown (DashboardPage.loadNotes isAuthenticated)
    /\ thrown (DashboardPage.handleCreateNote isAuthenticated notes
                 title content)
    /\ thrown (DashboardPage.handleUpdateNote isAuthenticated notes id
                 title content)
    /\ thrown (DashboardPage.handleDeleteNote isAuthenticated notes id)
    /\ App.Run'.outcome (App.run' h DashboardPage.handleSignOut w) = inr tt
    /\ App.Run'.outcome
         (App.run' h (DashboardPage.handleRefreshSession isAuthenticated) w)
       = inr tt.
Proof.
  intros World h w isAuthenticated notes id title content e. cbv zeta.
  split; [|split; [|split; [|split; [|split]]]].
  - unfold DashboardPage.loadNotes. rewrite run'_try_finally. cbv zeta.
    the_call'. cbn [App.Run'.outcome App.Run'.final App.Run'.trace].
    intro E. apply guarded_throws in E. destruct E as (ae & -> & A & B).
    exists ae. rewrite actions'_app, !in_app_iff. auto.
  - apply guarded_throws.
  - apply guarded_throws.
  - unfold DashboardPage.handleDeleteNote. rewrite run'_bind. the_call'.
    cbv zeta. cbn [App.Run'.outcome App.Run'.final App.Run'.trace].
    destruct (negb (fst (h w (App.WindowConfirm _)))).
    + cbn. discriminate.
    + intro E. apply guarded_throws in E. destruct E as (ae & -> & A & B).
      exists ae. rewrite actions'_app, !in_app_iff. auto.
  - unfold DashboardPage.handleSignOut. rewrite run'_try_catch.
    destruct (App.Run'.outcome (App.run' h (App.lift signOut) w))
      as [e0|[]] eqn:E; [reflexivity | exact E].
  - unfold DashboardPage.handleRefreshSession. rewrite run'_try_catch.
    match goal with
    | |- context [App.Run'.outcome (App.run' h ?p w)] =>
        destruct (App.Run'.outcome (App.run' h p w))
          as [e0|[]] eqn:E; [reflexivity | exact E]
    end.
Qed.

(** The collection rejects Alice's token and the sign-out fails:
    [handleCreateNote] throws the sign-out's error. *)
Lemma page_handlers_throw_only_a_failed_sign_out_witness :
  let R := App.run' Script.handler
             (DashboardPage.handleCreateNote true Sample.table
                (JsString.of_string "hi") (JsString.of_string "text"))
             (Script.start locked_out Script.all_well) in
  App.Run'.outcome R
  = inl (App.Facade (ThrownAuthError (AuthError.mk "network down")))
  /\ In (App.Core AuthSignOut) (App.actions' (App.Run'.trace R))
  /\ In (App.Core (ToastError "network down"))
        (App.actions' (App.Run'.trace R)).
Proof.
  cbv zeta. split; [reflexivity|].
  destruct (proj1 (proj2
              (page_handlers_throw_only_a_failed_sign_out
                 Script.World Script.handler
                 (Script.start locked_out Script.all_well)
                 true Sample.table EmptyString
                 (JsString.of_string "hi") (JsString.of_string "text")
                 (App.Facade (ThrownAuthError (AuthError.mk "network down")))))
              eq_refl) as (ae & E & A & B).
  injection E as <-. split; [exact A | exact B].
Defined.

(** ** The page's list of notes *)

Lemma loadJWTToken_quiet : only' quiet DashboardPage.loadJWTToken.
Proof.
  unfold DashboardPage.loadJWTToken, AuthProvider.getJWTToken, App.call'.
  apply only'_try_catch.
  - apply only'_bind.
    + apply only'_bind; [|intro; apply only_Ret'].
      apply only_Act'; [exact I | intro; apply only_Ret'].
    + intro. apply only_Act'; [exact I | intro; apply only_Ret'].
  - intro. apply only_Act'; [exact I | intro; apply only_Ret'].
Qed.

Lemma quiet_trace {World} (h : App.Handler' World) {T} (p : App.Prog' T)
    (w : World) (a : App.action') :
  only' quiet p ->
  In a (App.actions' (App.Run'.trace (App.run' h p w))) -> quiet a.
Proof.
  intros Hp. pose proof (only'_trace quiet h p w Hp) as F.
  rewrite Forall_forall in F. apply F.
Qed.

Lemma lifted_quiet {T} (p : Prog T) : only' quiet (App.lift p).
Proof. apply only'_lift. intro. exact I. Qed.

Lemma run'_try_catch_bind_returns {World} (h : App.Handler' World) {A B}
    (p : App.Prog' A) (f : A -> App.Prog' B) (c : App.Thrown' -> App.Prog' B)
    (w : World) (x : A) :
  App.Run'.outcome (App.run' h p w) = inr x ->
  App.run' h (App.try_catch' (App.bind' p f) c) w
  = let R := App.run' h (App.try_catch' (f x) c)
               (App.Run'.final (App.run' h p w)) in
    App.Run'.mk (App.Run'.outcome R) (App.Run'.final R)
      (App.Run'.trace (App.run' h p w) ++ App.Run'.trace R).
Proof.
  intro E. cbv zeta. rewrite !run'_try_catch, run'_bind, E. cbv zeta.
  cbn [App.Run'.outcome App.Run'.final App.Run'.trace].
  destruct (App.Run'.outcome (App.run' h (f x) _)) eqn:F;
    [|rewrite F; reflexivity].
  cbv zeta. cbn [App.Run'.outcome App.Run'.final App.Run'.trace].
  rewrite app_assoc. reflexivity.
Qed.

Lemma run'_try_catch_bind_throws {World} (h : App.Handler' World) {A B}
    (p : App.Prog' A) (f : A -> App.Prog' B) (c : App.Thrown' -> App.Prog' B)
    (w : World) (e : App.Thrown') :
  App.Run'.outcome (App.run' h p w) = inl e ->
  App.run' h (App.try_catch' (App.bind' p f) c) w
  = let R := App.run' h (c e) (App.Run'.final (App.run' h p w)) in
    App.Run'.mk (App.Run'.outcome R) (App.Run'.final R)
      (App.Run'.trace (App.run' h p w) ++ App.Run'.trace R).
Proof.
  intro E. cbv zeta. rewrite !run'_try_catch, run'_bind, E.
  cbn [App.Run'.outcome App.Run'.final App.Run'.trace]. reflexivity.
Qed.

(** What follows a successful save in [handleCreateNote] and
    [handleUpdateNote]: the new list, the toast, the token; nothing after
    the first two touches the list or announces anything. *)
Lemma after_save {World} (h : App.Handler' World) (l : list Note.t)
    (text label fallback : string) (w : World) :
  let p := App.try_catch'
             (App.call' (App.SetNotes l) ~;;
              App.call' (App.ToastSuccess text) ~;;
              DashboardPage.loadJWTToken)
             (DashboardPage.on_failure label fallback) in
  exists rest,
    App.actions' (App.Run'.trace (App.run' h p w))
    = App.SetNotes l :: App.ToastSuccess text :: rest
    /\ Forall quiet rest.
Proof.
  cbv zeta.
  rewrite run'_try_catch, run'_bind. the_call'. cbv zeta.
  cbn [App.Run'.outcome App.Run'.final App.Run'.trace].
  rewrite run'_bind. the_call'. cbv zeta.
  cbn [App.Run'.outcome App.Run'.final App.Run'.trace].
  match goal with
  | |- context [App.run' h DashboardPage.loadJWTToken ?w3] =>
      set (J := App.run' h DashboardPage.loadJWTToken w3);
      pose proof (only'_trace quiet h _ w3 loadJWTToken_quiet) as Jq;
      fold J in Jq
  end.
  destruct (App.Run'.outcome J) as [e|y] eqn:EJ.
  - cbn [App.Run'.outcome App.Run'.final App.Run'.trace].
    match goal with
    | |- context [App.run' h (DashboardPage.on_failure ?a ?b ?c) ?w4] =>
        pose proof (only'_trace quiet h _ w4 (on_failure_quiet a b c)) as Fq;
        set (F := App.run' h (DashboardPage.on_failure a b c) w4) in *
    end.
    exists (App.actions' (App.Run'.trace J) ++ App.actions' (App.Run'.trace F)).
    split.
    + unfold App.actions'. rewrite !map_app. cbn [map projT1 app].
      rewrite <- ?app_assoc. reflexivity.
    + apply Forall_app. split; assumption.
  - cbn [App.Run'.outcome App.Run'.final App.Run'.trace].
    exists (App.actions' (App.Run'.trace J)). split; [|exact Jq].
    unfold App.actions'. rewrite !map_app. cbn [map projT1 app].
    rewrite <- ?app_assoc. reflexivity.
Qed.

Lemma getAuthenticatedSession_asks (P : action -> Prop) :
  P AuthGetSession -> P DateNow -> only P getAuthenticatedSession.
Proof.
  intros. unfold getAuthenticatedSession, call. walk; auto.
Qed.

Lemma verifyNoteOwnership_asks (noteId : string) :
  only ownership_request (notesApi.verifyNoteOwnership noteId).
Proof.
  unfold notesApi.verifyNoteOwnership, call.
  apply only_try_catch; [ | intro; apply only_Ret ].
  apply only_bind;
    [apply getAuthenticatedSession_asks; unfold ownership_request; auto
    | intro].
  apply only_bind; [unfold session_user_id; walk | intro].
  apply only_Act; [unfold ownership_request; eauto | intro]. apply only_Ret.
Qed.

(** X18.  Against every handler, [handleCreateNote], not authenticated,
    only shows an error.  Authenticated, it calls [createNote] and, when
    that returns a note, puts the note in front of the page's list and
    announces the success, once each; when [createNote] throws, the list
    is not touched, nothing is announced and the error is written to the
    console. *)
Theorem handleCreateNote_prepends_the_created_note :
  forall (World : Type) (h : App.Handler' World) (w : World)
         (notes : list Note.t) (title content : JsString.t),
    let C := run (App.core h) (notesApi.createNote title content) w in
    let tr b :=
      App.actions'
        (App.Run'.trace
           (App.run' h
              (DashboardPage.handleCreateNote b notes title content) w)) in
    tr false = [App.Core (ToastError "Please log in to create notes")]
    /\ (forall n,
           Run.outcome C = inr n ->
           exists rest,
             tr true
             = map App.Core (actions (Run.trace C))
               ++ App.SetNotes (n :: notes)
                  :: App.ToastSuccess "Note created successfully" :: rest
             /\ Forall quiet rest)
    /\ (forall e,
           Run.outcome C = inl e ->
           Forall quiet (tr true)
           /\ In (App.ConsoleError "Failed to create note:" (App.Facade e))
                 (tr true)).
Proof.
  intros World h w notes title content. cbv zeta.
  split; [|split].
  - unfold DashboardPage.handleCreateNote. cbn [negb].
    rewrite run'_try_catch. the_call'. cbn [App.Run'.outcome App.Run'.trace].
    reflexivity.
  - intros n En. unfold DashboardPage.handleCreateNote. cbn [negb].
    pose proof (run'_lift h (notesApi.createNote title content) w) as L.
    cbv zeta in L. rewrite En in L.
    rewrite (run'_try_catch_bind_returns h _ _ _ w n)
      by (rewrite L; reflexivity).
    cbv zeta. cbn [App.Run'.trace]. rewrite actions'_app, actions'_lift.
    match goal with
    | |- context [App.run' h (App.try_catch' _ _) ?w1] =>
        destruct (after_save h (n :: notes) "Note created successfully"
                    "Failed to create note:" "Failed to create note" w1)
          as (rest & E & Q)
    end.
    cbv zeta in E. exists rest. split; [|exact Q].
    f_equal. exact E.
  - intros e Ee. unfold DashboardPage.handleCreateNote. cbn [negb].
    pose proof (run'_lift h (notesApi.createNote title content) w) as L.
    cbv zeta in L. rewrite Ee in L.
    rewrite (run'_try_catch_bind_throws h _ _ _ w (App.Facade e))
      by (rewrite L; reflexivity).
    cbv zeta. cbn [App.Run'.trace]. rewrite actions'_app.
    split.
    + apply Forall_app. split.
      * apply only'_trace, lifted_quiet.
      * apply only'_trace, on_failure_quiet.
    + apply in_or_app. right.
      unfold DashboardPage.on_failure. rewrite run'_bind. the_call'.
      cbv zeta. cbn [App.Run'.outcome App.Run'.final App.Run'.trace].
      rewrite actions'_app. apply in_or_app. left. left. reflexivity.
Qed.

(** Alice creates a note: it heads the page's list.  Signed out, the
    error of the session check reaches the console. *)
Lemma handleCreateNote_prepends_the_created_note_witness :
  let run_on d :=
    App.actions'
      (App.Run'.trace
         (App.run' Script.handler
            (DashboardPage.handleCreateNote true Sample.table
               (JsString.of_string "hi") (JsString.of_string "text"))
            (Script.start d Script.all_well))) in
  let n := Note.mk "000" (JsString.of_string "hi") (JsString.of_string "text")
             1000000 1000000 "alice" in
  (exists rest,
      run_on Sample.world
      = map App.Core
          (actions
             (Run.trace
                (run (App.core Script.handler)
                   (notesApi.createNote (JsString.of_string "hi")
                      (JsString.of_string "text"))
                   (Script.start Sample.world Script.all_well))))
        ++ App.SetNotes (n :: Sample.table)
           :: App.ToastSuccess "Note created successfully" :: rest
      /\ Forall quiet rest)
  /\ Forall quiet (run_on Sample.signed_out)
  /\ In (App.ConsoleError "Failed to create note:"
           (App.Facade NoValidSession))
        (run_on Sample.signed_out).
Proof.
  pose proof (fun d =>
    handleCreateNote_prepends_the_created_note
      Script.World Script.handler (Script.start d Script.all_well)
      Sample.table (JsString.of_string "hi") (JsString.of_string "text"))
    as T.
  cbv zeta in *. split.
  - exact (proj1 (proj2 (T Sample.world)) _ eq_refl).
  - exact (proj2 (proj2 (T Sample.signed_out)) _ eq_refl).
Defined.

(** X19.  Against every handler, [handleUpdateNote], not authenticated,
    only shows an error.  Authenticated, it first runs the ownership
    check; when the check says no, it shows an error and asks nothing
    more, so that an update is requested only after the check said yes.
    When [updateNote] then returns a note, that note replaces, in the
    page's list, every note with the id asked for, and the success is
    announced, once each; when [updateNote] throws, the list is not
    touched, nothing is announced and the error is written to the
    console. *)
Theorem handleUpdateNote_updates_only_after_the_ownership_check :
  forall (World : Type) (h : App.Handler' World) (w : World)
         (notes : list Note.t) (id : string) (title content : JsString.t),
    let V := run (App.core h) (notesApi.verifyNoteOwnership id) w in
    let U := run (App.core h) (notesApi.updateNote id title content)
                 (Run.final V) in
    let tr b :=
      App.actions'
        (App.Run'.trace
           (App.run' h
              (DashboardPage.handleUpdateNote b notes id title content) w)) in
    tr false = [App.Core (ToastError "Please log in to update notes")]
    /\ (Run.outcome V = inr false ->
        tr true
        = map App.Core (actions (Run.trace V))
          ++ [App.Core (ToastError "You can only edit your own notes")])
    /\ (forall patch filters,
           In (App.Core (NotesUpdateSelectSingle patch filters)) (tr true) ->
           Run.outcome V = inr true)
    /\ (forall n,
           Run.outcome V = inr true ->
           Run.outcome U = inr n ->
           exists rest,
             tr true
             = map App.Core (actions (Run.trace V))
               ++ map App.Core (actions (Run.trace U))
               ++ App.SetNotes
                    (map (fun note =>
                            if String.eqb (Note.id note) id
                            then n else note) notes)
                  :: App.ToastSuccess "Note updated successfully" :: rest
             /\ Forall quiet rest)
    /\ (forall e,
           Run.outcome V = inr true ->
           Run.outcome U = inl e ->
           Forall quiet (tr true)
           /\ In (App.ConsoleError "Failed to update note:" (App.Facade e))
                 (tr true)).
Proof.
  intros World h w notes id title content. cbv zeta.
  assert (Vfalse :
    Run.outcome (run (App.core h) (notesApi.verifyNoteOwnership id) w)
    = inr false ->
    App.actions'
      (App.Run'.trace
         (App.run' h
            (DashboardPage.handleUpdateNote true notes id title content) w))
    = map App.Core
        (actions
           (Run.trace
              (run (App.core h) (notesApi.verifyNoteOwnership id) w)))
      ++ [App.Core (ToastError "You can only edit your own notes")]).
  { intro Ev. unfold DashboardPage.handleUpdateNote. cbn [negb].
    pose proof (run'_lift h (notesApi.verifyNoteOwnership id) w) as L.
    cbv zeta in L. rewrite Ev in L.
    rewrite (run'_try_catch_bind_returns h _ _ _ w false)
      by (rewrite L; reflexivity).
    cbv zeta. cbn [App.Run'.trace negb].
    rewrite actions'_app, actions'_lift.
    rewrite run'_try_catch. the_call'.
    cbn [App.Run'.outcome App.Run'.trace]. reflexivity. }
  split; [|split; [exact Vfalse|split; [|split]]].
  - unfold DashboardPage.handleUpdateNote. cbn [negb].
    rewrite run'_try_catch. the_call'. cbn [App.Run'.outcome App.Run'.trace].
    reflexivity.
  - intros patch filters X.
    destruct (verifyNoteOwnership_returns (App.core h) id w) as [[] Ev];
      [exact Ev|].
    exfalso. rewrite (Vfalse Ev) in X. apply in_app_or in X.
    destruct X as [X | [X | []]]; [|discriminate X].
    apply in_map_iff in X. destruct X as (c & Ec & X).
    pose proof (only_trace ownership_request (App.core h) _ w
                  (verifyNoteOwnership_asks id)) as F.
    rewrite Forall_forall in F. apply F in X.
    injection Ec as ->.
    destruct X as [X | [X | [fs X]]]; discriminate X.
  - intros n Ev Eu. unfold DashboardPage.handleUpdateNote. cbn [negb].
    pose proof (run'_lift h (notesApi.verifyNoteOwnership id) w) as L.
    cbv zeta in L. rewrite Ev in L.
    rewrite (run'_try_catch_bind_returns h _ _ _ w true)
      by (rewrite L; reflexivity).
    cbv zeta. cbn [App.Run'.trace negb].
    rewrite actions'_app, actions'_lift.
    replace (App.Run'.final
               (App.run' h (App.lift (notesApi.verifyNoteOwnership id)) w))
      with (Run.final (run (App.core h) (notesApi.verifyNoteOwnership id) w))
      by (rewrite L; reflexivity).
    set (w1 := Run.final _) in *.
    pose proof (run'_lift h (notesApi.updateNote id title content) w1) as L1.
    cbv zeta in L1. rewrite Eu in L1.
    rewrite (run'_try_catch_bind_returns h _ _ _ w1 n)
      by (rewrite L1; reflexivity).
    cbv zeta. cbn [App.Run'.trace]. rewrite actions'_app, actions'_lift.
    match goal with
    | |- context [App.run' h (App.try_catch' _ _) ?w2] =>
        destruct (after_save h
                    (map (fun note =>
                            if String.eqb (Note.id note) id
                            then n else note) notes)
                    "Note updated successfully"
                    "Failed to update note:" "Failed to update note" w2)
          as (rest & E & Q)
    end.
    cbv zeta in E. exists rest. split; [|exact Q].
    f_equal. f_equal. exact E.
  - intros e Ev Eu. unfold DashboardPage.handleUpdateNote. cbn [negb].
    pose proof (run'_lift h (notesApi.verifyNoteOwnership id) w) as L.
    cbv zeta in L. rewrite Ev in L.
    rewrite (run'_try_catch_bind_returns h _ _ _ w true)
      by (rewrite L; reflexivity).
    cbv zeta. cbn [App.Run'.trace negb].
    rewrite actions'_app.
    replace (App.Run'.final
               (App.run' h (App.lift (notesApi.verifyNoteOwnership id)) w))
      with (Run.final (run (App.core h) (notesApi.verifyNoteOwnership id) w))
      by (rewrite L; reflexivity).
    set (w1 := Run.final _) in *.
    pose proof (run'_lift h (notesApi.updateNote id title content) w1) as L1.
    cbv zeta in L1. rewrite Eu in L1.
    rewrite (run'_try_catch_bind_throws h _ _ _ w1 (App.Facade e))
      by (rewrite L1; reflexivity).
    cbv zeta. cbn [App.Run'.trace]. rewrite actions'_app.
    split.
    + apply Forall_app. split; [apply only'_trace, lifted_quiet|].
      apply Forall_app. split.
      * apply only'_trace, lifted_quiet.
      * apply only'_trace, on_failure_quiet.
    + apply in_or_app. right. apply in_or_app. right.
      unfold DashboardPage.on_failure. rewrite run'_bind. the_call'.
      cbv zeta. cbn [App.Run'.outcome App.Run'.final App.Run'.trace].
      rewrite actions'_app. apply in_or_app. left. left. reflexivity.
Qed.

(** Alice may not edit Bob's note [n2]: nothing is asked after the check.
    Her own note [n1] is replaced in the page's list by the row the
    collection returned. *)
Lemma handleUpdateNote_updates_only_after_the_ownership_check_witness :
  let w := Script.start Sample.world Script.all_well in
  let tr id :=
    App.actions'
      (App.Run'.trace
         (App.run' Script.handler
            (DashboardPage.handleUpdateNote true Sample.table id
               (JsString.of_string "hi") (JsString.of_string "text")) w)) in
  let n := Note.mk "n1" (JsString.of_string "hi") (JsString.of_string "text")
             10 1000000 "alice" in
  tr "n2"
  = [App.Core AuthGetSession; App.Core DateNow;
     App.Core (NotesSelectUserIdSingle [Eq ColId "n2"; Eq ColUserId "alice"]);
     App.Core (ToastError "You can only edit your own notes")]
  /\ In (App.SetNotes
           [n; Sample.note "n2" Sample.bob "other" 20;
            Sample.note "n3" Sample.alice "third" 30])
        (tr "n1").
Proof.
  pose proof (fun id =>
    handleUpdateNote_updates_only_after_the_ownership_check
      Script.World Script.handler
      (Script.start Sample.world Script.all_well)
      Sample.table id (JsString.of_string "hi") (JsString.of_string "text"))
    as T.
  cbv zeta in *. split.
  - exact (proj1 (proj2 (T "n2")) eq_refl).
  - destruct (proj1 (proj2 (proj2 (proj2 (T "n1"))))
                (Note.mk "n1" (JsString.of_string "hi")
                   (JsString.of_string "text") 10 1000000 "alice")
                eq_refl eq_refl) as (rest & E & _).
    refine (eq_ind_r (fun l => In _ l) _ E).
    apply in_or_app. right. apply in_or_app. right. left. reflexivity.
Defined.
